(** * Alicia server: frame codec, room admission, race director and lobby login

    A shallow embedding of the parts of the server that the specification
    makes checkable statements about.

    - [FrameCodec]: the 4-byte frame header ("magic") encoder and the two
      decoders of the prototype sources.
    - [RoomSystem]: [Room] with its queued and committed players.
    - [RaceDirector]: client contexts, race instances, the tracker, the
      handlers for start-race, star points, spur, hurdles and magic items,
      and the stage loop of [Tick].
    - [LobbyNetworkHandler] and [LobbyDirector]: the login frame handler and
      the two-stage login queue.

    Fixed-width integers are [Z] values with the wrap-around written out
    ([u8], [u16], [u32]); [std::unordered_map] and [std::map] are [gmap],
    with [ascending] for a loop whose result depends on the order of a
    [std::map]; [std::unordered_set] is [gset]; a handler that can throw
    returns an [Outcome] which keeps the state reached when the exception
    left it. *)

From Stdlib Require Import ZArith Lia Bool List.
From stdpp Require Import base gmap sets list strings numbers sorting.

Local Open Scope Z_scope.

(** ** Machine integers *)

Definition u8 (z : Z) : Z := z mod 2 ^ 8.
Definition u16 (z : Z) : Z := z mod 2 ^ 16.
Definition u32 (z : Z) : Z := z mod 2 ^ 32.

(** Modelled from the spec: [data::InvalidUid] is declared outside the
    sources; the zero uid is reserved for "none". *)
Definition InvalidUid : Z := 0.

(** ** Frame codec (prototype sources, [namespace alicia]) *)

Module FrameCodec.

(** [encode_message_information(message_id, message_jumbo,
    message_data_length, buffer_size = 4092)].  The operands of [<<] are
    promoted to [int]; the results are stored into [uint32_t] and
    [uint16_t] variables, which is where the truncations happen. *)
Definition encode_message_information
  (message_id message_jumbo message_data_length buffer_size : Z) : Z :=
  let length := u32 (Z.lor (Z.shiftl buffer_size 16) message_data_length) in
  let val := length in
  let length := u32 (Z.lor (Z.land length 16383) (Z.shiftl length 14)) in
  let magic :=
    u16 (Z.lor (Z.lor (Z.shiftl (Z.lor (Z.land length 15) 65408) 8)
                      (Z.land (Z.shiftr val 4) 255))
               (Z.land length 61440)) in
  let message_id := u16 (Z.lor (Z.land message_jumbo 65535) (Z.land message_id 65535)) in
  let encoded := magic in
  u32 (Z.lor encoded (Z.shiftl (Z.lxor magic message_id) 16)).

(** The default argument of the source. *)
Definition default_buffer_size : Z := 4092.

(** [decode_message_length(data)]: the length decoder of the first
    prototype; a header without bit 15 is returned as it is. *)
Definition decode_message_length (data : Z) : Z :=
  if Z.testbit data 15 then
    let section := u16 (Z.land data 16383) in
    u32 (Z.lor (Z.lor (Z.shiftl (Z.land data 255) 4)
                      (Z.land (Z.shiftr section 8) 15))
               (Z.land section 61440))
  else data.

(** [decode_message_information(data, &id, &length)] of the second
    prototype, called with both out-pointers non-null: [None] is the
    [false] return, [Some (id, length)] the [true] return with the two
    stored values.  The source masks [section] with [0x3FF]; the two halves
    of [data] are read through a [uint16_t*] on a little-endian host. *)
Definition decode_message_information (data : Z) : option (Z * Z) :=
  if Z.testbit data 15 then
    let section := u16 (Z.land data 1023) in
    let out_message_data_length :=
      u16 (Z.lor (Z.lor (Z.shiftl (Z.land data 255) 4)
                        (Z.land (Z.shiftr section 8) 15))
                 (Z.land section 61440)) in
    let firstTwoBytes := u16 data in
    let secondTwoBytes := u16 (Z.shiftr data 16) in
    let xorResult := u16 (Z.lxor firstTwoBytes secondTwoBytes) in
    let out_message_id := u16 (Z.land (Z.lnot (Z.land xorResult 49152)) xorResult) in
    Some (out_message_id, out_message_data_length)
  else None.

(** The sixteen low bits of a header, read off the payload length it
    carries: length bits 4..11 in bits 0..7, length bits 0..3 in bits 8..11,
    length bits 12 and 13 in place, length bit 0 again in bit 14, and the
    marker bit 15. *)
Definition header_low_bits (data len : Z) : Prop :=
  Z.testbit data 0 = Z.testbit len 4 /\ Z.testbit data 1 = Z.testbit len 5 /\
  Z.testbit data 2 = Z.testbit len 6 /\ Z.testbit data 3 = Z.testbit len 7 /\
  Z.testbit data 4 = Z.testbit len 8 /\ Z.testbit data 5 = Z.testbit len 9 /\
  Z.testbit data 6 = Z.testbit len 10 /\ Z.testbit data 7 = Z.testbit len 11 /\
  Z.testbit data 8 = Z.testbit len 0 /\ Z.testbit data 9 = Z.testbit len 1 /\
  Z.testbit data 10 = Z.testbit len 2 /\ Z.testbit data 11 = Z.testbit len 3 /\
  Z.testbit data 12 = Z.testbit len 12 /\ Z.testbit data 13 = Z.testbit len 13 /\
  Z.testbit data 14 = Z.testbit len 0 /\ Z.testbit data 15 = true.

End FrameCodec.

(** ** Room system ([server::Room]) *)

Module RoomSystem.

(** [data::Uid] and the uid of a room are 32-bit unsigned values. *)
Abbreviation Uid := Z (only parsing).

(** [Room::GameMode] with its enumerator values. *)
Inductive GameMode : Type := Speed | Magic | Guild | Tutorial.

Definition GameMode_value (m : GameMode) : Z :=
  match m with Speed => 1 | Magic => 2 | Guild => 3 | Tutorial => 6 end.

(** [Room::TeamMode { Solo = 1, Team = 2 }]. *)
Inductive TeamMode : Type := TeamMode_Solo | TeamMode_Team.

Definition TeamMode_value (m : TeamMode) : Z :=
  match m with TeamMode_Solo => 1 | TeamMode_Team => 2 end.

(** [Room::Player::Team]. *)
Inductive Team : Type := Solo | Red | Blue.

(** [Room::Player]; a value-initialised player is not ready and in no team. *)
Record Player : Type := mkPlayer { _isReady : bool; _team : Team }.

Definition Player_default : Player := {| _isReady := false; _team := Solo |}.


Definition SetTeam (t : Team) (p : Player) : Player :=
  {| _isReady := _isReady p; _team := t |}.

Record Details : Type := mkDetails {
  name : string;
  password : string;
  missionId : Z;
  courseId : Z;
  maxPlayerCount : Z;
  gameMode : GameMode;
  teamMode : TeamMode;
  member11 : bool;
  skillBracket : Z
}.

Record Room : Type := mkRoom {
  _details : Details;
  _uid : Z;
  _queuedPlayers : gset Uid;
  _players : gmap Uid Player;
  _roomIsPlaying : bool
}.

(** [Room::Room(uid)]: no players, nobody queued; the details are filled in
    by the creator. *)
Definition Room_new (uid : Z) (details : Details) : Room :=
  {| _details := details; _uid := uid; _queuedPlayers := ∅; _players := ∅;
     _roomIsPlaying := false |}.

Definition set_queuedPlayers (q : gset Uid) (r : Room) : Room :=
  {| _details := _details r; _uid := _uid r; _queuedPlayers := q;
     _players := _players r; _roomIsPlaying := _roomIsPlaying r |}.

Definition set_players (p : gmap Uid Player) (r : Room) : Room :=
  {| _details := _details r; _uid := _uid r; _queuedPlayers := _queuedPlayers r;
     _players := p; _roomIsPlaying := _roomIsPlaying r |}.

Definition SetRoomPlaying (state : bool) (r : Room) : Room :=
  {| _details := _details r; _uid := _uid r; _queuedPlayers := _queuedPlayers r;
     _players := _players r; _roomIsPlaying := state |}.

(** [_players.size() + _queuedPlayers.size() >= _details.maxPlayerCount]. *)
Definition IsRoomFull (r : Room) : bool :=
  maxPlayerCount (_details r) <=? Z.of_nat (size (_players r) + size (_queuedPlayers r)).

Definition QueuePlayer (characterUid : Uid) (r : Room) : bool * Room :=
  if IsRoomFull r then (false, r)
  else (true, set_queuedPlayers ({[characterUid]} ∪ _queuedPlayers r) r).

(** [_queuedPlayers.erase(characterUid) != 0]. *)
Definition DequeuePlayer (characterUid : Uid) (r : Room) : bool * Room :=
  (bool_decide (characterUid ∈ _queuedPlayers r),
   set_queuedPlayers (_queuedPlayers r ∖ {[characterUid]}) r).

(** The two counters of the loop over [_players] in [AddPlayer]. *)
Definition teamCounts (players : gmap Uid Player) : nat * nat :=
  map_fold
    (fun _ player acc =>
       match _team player with
       | Red => (S (fst acc), snd acc)
       | Blue => (fst acc, S (snd acc))
       | Solo => acc
       end)
    (0%nat, 0%nat) players.

(** [std::map::try_emplace]: an existing entry is kept. *)
Definition try_emplace {V : Type} (k : Uid) (v : V) (m : gmap Uid V) : gmap Uid V :=
  match m !! k with
  | Some _ => m
  | None => <[k := v]> m
  end.

(** [Room::AddPlayer]; [rand] is the value [std::rand()] returns when the
    two teams are level.  Only the number of committed players is compared
    with [maxPlayerCount]. *)
Definition AddPlayer (rand : Z) (characterUid : Uid) (r : Room) : bool * Room :=
  if maxPlayerCount (_details r) <=? Z.of_nat (size (_players r)) then (false, r)
  else
    let player :=
      match teamMode (_details r) with
      | TeamMode_Team =>
          let '(redTeamCount, blueTeamCount) := teamCounts (_players r) in
          if (blueTeamCount <? redTeamCount)%nat then SetTeam Blue Player_default
          else if (redTeamCount <? blueTeamCount)%nat then SetTeam Red Player_default
          else SetTeam (if rand mod 2 =? 0 then Red else Blue) Player_default
      | TeamMode_Solo => Player_default
      end in
    (true,
     set_players (try_emplace characterUid player (_players r))
       (set_queuedPlayers (_queuedPlayers r ∖ {[characterUid]}) r)).

Definition RemovePlayer (characterUid : Uid) (r : Room) : Room :=
  set_players (delete characterUid (_players r)) r.

Definition GetPlayerCount (r : Room) : nat := size (_players r).

(** A call of one of the four admission operations. *)
Inductive RoomCall : Type :=
| CallQueuePlayer (characterUid : Uid)
| CallDequeuePlayer (characterUid : Uid)
| CallAddPlayer (rand : Z) (characterUid : Uid)
| CallRemovePlayer (characterUid : Uid).

Definition call (c : RoomCall) (r : Room) : Room :=
  match c with
  | CallQueuePlayer u => snd (QueuePlayer u r)
  | CallDequeuePlayer u => snd (DequeuePlayer u r)
  | CallAddPlayer rand u => snd (AddPlayer rand u r)
  | CallRemovePlayer u => RemovePlayer u r
  end.

Definition calls (cs : list RoomCall) (r : Room) : Room :=
  fold_left (fun r c => call c r) cs r.

(** The two invariants of the specification. *)
Definition within_capacity (r : Room) : Prop :=
  Z.of_nat (size (_players r) + size (_queuedPlayers r)) <= maxPlayerCount (_details r).

Definition queue_disjoint (r : Room) : Prop :=
  forall u : Uid, u ∈ _queuedPlayers r -> _players r !! u = None.

(** The admission path: a player is committed only from the queue, and is
    queued only while not committed.  [admission_path cs r] says that the
    calls [cs], issued from room [r], all follow it. *)
Fixpoint admission_path (cs : list RoomCall) (r : Room) : Prop :=
  match cs with
  | [] => True
  | c :: cs' =>
      match c with
      | CallAddPlayer _ u => u ∈ _queuedPlayers r
      | CallQueuePlayer u => _players r !! u = None
      | _ => True
      end /\ admission_path cs' (call c r)
  end.

End RoomSystem.

(** ** Race director ([server::RaceDirector]) *)

Module RaceDirector.

Abbreviation ClientId := Z (only parsing).
Abbreviation Oid := Z (only parsing).

(** [std::chrono::steady_clock::time_point], in nanoseconds. *)
Abbreviation time_point := Z (only parsing).

Definition seconds (n : Z) : Z := n * 1000000000.
Definition milliseconds (n : Z) : Z := n * 1000000.

(** [TimePointToRaceTimePoint]: the race clock counts intervals of 100ns. *)
Definition TimePointToRaceTimePoint (timePoint : time_point) : Z := timePoint / 100.

Definition InvalidEntityOid : Z := 0.

Definition uint32_max : Z := 2 ^ 32 - 1.

(** *** Race tracker ([tracker::RaceTracker]) *)

Module State.
Inductive t : Type := Disconnected | Loading | Racing | Finishing.
End State.

Module Team.
Inductive t : Type := Solo | Red | Blue.
End Team.

#[global] Instance State_eq_dec : EqDecision State.t.
Proof. solve_decision. Defined.

Record Racer : Type := mkRacer {
  oid : Oid;
  state : State.t;
  team : Team.t;
  starPointValue : Z;
  jumpComboValue : Z;
  courseTime : Z;
  magicItem : option Z;
  trackedItems : gset Oid;
  isTargeting : bool;
  currentTarget : Oid
}.

Definition Racer_default : Racer :=
  {| oid := InvalidEntityOid; state := State.Disconnected; team := Team.Solo;
     starPointValue := 0; jumpComboValue := 0; courseTime := uint32_max;
     magicItem := None; trackedItems := ∅; isTargeting := false;
     currentTarget := InvalidEntityOid |}.

Definition set_oid (v : Oid) (r : Racer) : Racer :=
  mkRacer v (state r) (team r) (starPointValue r) (jumpComboValue r) (courseTime r)
    (magicItem r) (trackedItems r) (isTargeting r) (currentTarget r).

Definition set_state (v : State.t) (r : Racer) : Racer :=
  mkRacer (oid r) v (team r) (starPointValue r) (jumpComboValue r) (courseTime r)
    (magicItem r) (trackedItems r) (isTargeting r) (currentTarget r).

Definition set_team (v : Team.t) (r : Racer) : Racer :=
  mkRacer (oid r) (state r) v (starPointValue r) (jumpComboValue r) (courseTime r)
    (magicItem r) (trackedItems r) (isTargeting r) (currentTarget r).

Definition set_starPointValue (v : Z) (r : Racer) : Racer :=
  mkRacer (oid r) (state r) (team r) v (jumpComboValue r) (courseTime r)
    (magicItem r) (trackedItems r) (isTargeting r) (currentTarget r).

Definition set_jumpComboValue (v : Z) (r : Racer) : Racer :=
  mkRacer (oid r) (state r) (team r) (starPointValue r) v (courseTime r)
    (magicItem r) (trackedItems r) (isTargeting r) (currentTarget r).


(** An item of the race; the position (three floats) is not modelled. *)
Record Item : Type := mkItem {
  item_oid : Oid;
  deckId : Z;
  respawnTimePoint : time_point
}.

Record RaceTracker : Type := mkRaceTracker {
  _nextRacerOid : Oid;
  _racers : gmap Z Racer;
  _nextItemOid : Z;
  _items : gmap Z Item
}.

Definition RaceTracker_new : RaceTracker :=
  {| _nextRacerOid := 1; _racers := ∅; _nextItemOid := 1; _items := ∅ |}.

Definition set_racers (m : gmap Z Racer) (t : RaceTracker) : RaceTracker :=
  mkRaceTracker (_nextRacerOid t) m (_nextItemOid t) (_items t).

(** Modelled from the spec: the member functions of [RaceTracker] are
    declared in the header only.  A racer gets the next OID, assigned
    monotonically from 1; [Clear] empties the tracker and restarts the
    OIDs; [GetRacer] of an unknown character raises. *)
Definition AddRacer (characterUid : Z) (t : RaceTracker) : Racer * RaceTracker :=
  let racer := set_oid (_nextRacerOid t) Racer_default in
  let racers := RoomSystem.try_emplace characterUid racer (_racers t) in
  (default racer (racers !! characterUid),
   mkRaceTracker (u16 (_nextRacerOid t + 1)) racers (_nextItemOid t) (_items t)).

Definition IsRacer (characterUid : Z) (t : RaceTracker) : bool :=
  bool_decide (is_Some (_racers t !! characterUid)).

Definition GetRacer (characterUid : Z) (t : RaceTracker) : option Racer :=
  _racers t !! characterUid.

Definition AddItem (deck : Z) (t : RaceTracker) : RaceTracker :=
  let item := {| item_oid := _nextItemOid t; deckId := deck; respawnTimePoint := 0 |} in
  mkRaceTracker (_nextRacerOid t) (_racers t) (u16 (_nextItemOid t + 1))
    (RoomSystem.try_emplace (_nextItemOid t) item (_items t)).

Definition Clear (t : RaceTracker) : RaceTracker := RaceTracker_new.

(** *** Content registry ([registry::Course]) *)

Record GameModeInfo : Type := mkGameModeInfo {
  starPointsMax : Z;
  spurConsumeStarPoints : Z;
  perfectJumpMaxBonusCombo : Z;
  perfectJumpStarPoints : Z;
  perfectJumpUnitStarPoints : Z;
  goodJumpStarPoints : Z;
  mapPool : list Z;
  usedDeckItemIds : list Z
}.

Record MapBlockInfo : Type := mkMapBlockInfo {
  requiredLevel : Z;
  timeLimit : Z;
  waitTime : Z;
  deckItems : list Z
}.

(** The registry is declared outside the sources and is a parameter of the
    handlers; [None] is a lookup that raises. *)
Record CourseRegistry : Type := mkCourseRegistry {
  GetCourseGameModeInfo : Z -> option GameModeInfo;
  GetMapBlockInfo : Z -> option MapBlockInfo
}.

(** *** Director state *)

Module Stage.
Inductive t : Type := Waiting | Loading | Racing | Finishing.
End Stage.

#[global] Instance Stage_eq_dec : EqDecision Stage.t.
Proof. solve_decision. Defined.

Record ClientContext : Type := mkClientContext {
  characterUid : Z;
  roomUid : Z;
  isAuthenticated : bool
}.

(** Modelled from the spec: [protocol::GameMode] and [protocol::TeamMode]
    are declared outside the sources.  They are kept as their underlying
    values; the [static_cast]s from [Room::GameMode] rely on the
    enumerators [Speed] and [Magic] having the values of [Room::GameMode]. *)
Definition protocol_GameMode_Speed : Z := 1.
Definition protocol_GameMode_Magic : Z := 2.

Record RoomInstance : Type := mkRoomInstance {
  stage : Stage.t;
  stageTimeoutTimePoint : time_point;
  masterUid : Z;
  tracker : RaceTracker;
  raceGameMode : Z;
  raceTeamMode : Z;
  raceMapBlockId : Z;
  raceMissionId : Z;
  raceStartTimePoint : time_point;
  clients : gset ClientId
}.

(** A value-initialised instance, as [operator[]] creates it. *)
Definition RoomInstance_default : RoomInstance :=
  {| stage := Stage.Waiting; stageTimeoutTimePoint := 0; masterUid := InvalidUid;
     tracker := RaceTracker_new; raceGameMode := 0; raceTeamMode := 0;
     raceMapBlockId := 0; raceMissionId := 0; raceStartTimePoint := 0;
     clients := ∅ |}.

Definition set_stage (v : Stage.t) (i : RoomInstance) : RoomInstance :=
  mkRoomInstance v (stageTimeoutTimePoint i) (masterUid i) (tracker i) (raceGameMode i)
    (raceTeamMode i) (raceMapBlockId i) (raceMissionId i) (raceStartTimePoint i) (clients i).

Definition set_stageTimeoutTimePoint (v : time_point) (i : RoomInstance) : RoomInstance :=
  mkRoomInstance (stage i) v (masterUid i) (tracker i) (raceGameMode i)
    (raceTeamMode i) (raceMapBlockId i) (raceMissionId i) (raceStartTimePoint i) (clients i).

Definition set_tracker (v : RaceTracker) (i : RoomInstance) : RoomInstance :=
  mkRoomInstance (stage i) (stageTimeoutTimePoint i) (masterUid i) v (raceGameMode i)
    (raceTeamMode i) (raceMapBlockId i) (raceMissionId i) (raceStartTimePoint i) (clients i).

Definition set_raceGameMode (v : Z) (i : RoomInstance) : RoomInstance :=
  mkRoomInstance (stage i) (stageTimeoutTimePoint i) (masterUid i) (tracker i) v
    (raceTeamMode i) (raceMapBlockId i) (raceMissionId i) (raceStartTimePoint i) (clients i).

Definition set_raceTeamMode (v : Z) (i : RoomInstance) : RoomInstance :=
  mkRoomInstance (stage i) (stageTimeoutTimePoint i) (masterUid i) (tracker i) (raceGameMode i)
    v (raceMapBlockId i) (raceMissionId i) (raceStartTimePoint i) (clients i).

Definition set_raceMapBlockId (v : Z) (i : RoomInstance) : RoomInstance :=
  mkRoomInstance (stage i) (stageTimeoutTimePoint i) (masterUid i) (tracker i) (raceGameMode i)
    (raceTeamMode i) v (raceMissionId i) (raceStartTimePoint i) (clients i).

Definition set_raceMissionId (v : Z) (i : RoomInstance) : RoomInstance :=
  mkRoomInstance (stage i) (stageTimeoutTimePoint i) (masterUid i) (tracker i) (raceGameMode i)
    (raceTeamMode i) (raceMapBlockId i) v (raceStartTimePoint i) (clients i).

Definition set_raceStartTimePoint (v : time_point) (i : RoomInstance) : RoomInstance :=
  mkRoomInstance (stage i) (stageTimeoutTimePoint i) (masterUid i) (tracker i) (raceGameMode i)
    (raceTeamMode i) (raceMapBlockId i) (raceMissionId i) v (clients i).

(** A task handed to the scheduler: the start-race notification that
    [HandleStartRace] queues for the end of the room countdown. *)
Inductive Task : Type :=
| StartRaceNotifyTask (clientId : ClientId).

(** The director, with the parts of the server instance its handlers reach:
    the room system ([rooms]) and the level of each character as the data
    director reports it ([characterLevel]). *)
Record Director : Type := mkDirector {
  _clients : gmap ClientId ClientContext;
  _raceInstances : gmap Z RoomInstance;
  rooms : gmap Z RoomSystem.Room;
  _scheduler : list (time_point * Task)
}.

Definition set_raceInstances (m : gmap Z RoomInstance) (d : Director) : Director :=
  mkDirector (_clients d) m (rooms d) (_scheduler d).

Definition set_rooms (m : gmap Z RoomSystem.Room) (d : Director) : Director :=
  mkDirector (_clients d) (_raceInstances d) m (_scheduler d).

Definition set_scheduler (s : list (time_point * Task)) (d : Director) : Director :=
  mkDirector (_clients d) (_raceInstances d) (rooms d) s.

(** [_raceInstances[uid]]: the instance, created first when there is none. *)
Definition instance_ref (uid : Z) (d : Director) : RoomInstance * Director :=
  match _raceInstances d !! uid with
  | Some i => (i, d)
  | None =>
      (RoomInstance_default,
       set_raceInstances (<[uid := RoomInstance_default]> (_raceInstances d)) d)
  end.

(** Writing through the reference [auto& raceInstance]. *)
Definition put_instance (uid : Z) (i : RoomInstance) (d : Director) : Director :=
  set_raceInstances (<[uid := i]> (_raceInstances d)) d.

(** Writing through the reference [auto& racer]. *)
Definition put_racer (characterUid : Z) (r : Racer) (i : RoomInstance) : RoomInstance :=
  set_tracker (set_racers (<[characterUid := r]> (_racers (tracker i))) (tracker i)) i.

(** *** Messages *)

Inductive HurdleClearType : Type :=
| Perfect | Good | DoubleJumpOrGlide | Collision
| OtherClearType (value : Z).

Record ScoreInfo : Type := mkScoreInfo {
  score_uid : Z;
  score_courseTime : Z;
  score_connected : bool
}.

Record AcCmdCRStarPointGet : Type := mkStarPointGet {
  spg_characterOid : Oid;
  gainedStarPoints : Z
}.

Record AcCmdCRRequestSpur : Type := mkRequestSpur {
  spur_characterOid : Oid;
  activeBoosters : Z;
  comboBreak : Z
}.

Record AcCmdCRHurdleClearResult : Type := mkHurdleClearResult {
  hcr_characterOid : Oid;
  hurdleClearType : HurdleClearType
}.


(** The clientbound commands the modelled handlers queue. *)
Inductive Command : Type :=
| AcCmdCRStarPointGetOK (characterOid : Oid) (starPoints : Z) (giveMagicItem : bool)
| AcCmdCRRequestSpurOK (characterOid : Oid) (boosters startPointValue combo : Z)
| AcCmdCRHurdleClearResultOK (characterOid : Oid) (clearType : HurdleClearType)
    (jumpCombo unk3 : Z)
| AcCmdCRRequestMagicItemOK (m1 m2 m3 : Z)
| AcCmdCRRequestMagicItemNotify (m1 m2 : Z)
| AcCmdRCRoomCountdown (countdown mapBlockId : Z)
| AcCmdUserRaceCountdown (raceStartTimestamp : Z)
| AcCmdUserRaceFinalNotify
| AcCmdRCRaceResultNotify (scores : list ScoreInfo)
| AcCmdCRStartRaceNotify (gameMode teamMode mapBlockId missionId hostOid : Z).

(** [_commandServer.QueueCommand(clientId, ...)] calls, in program order. *)
Abbreviation Sent := (list (ClientId * Command)) (only parsing).

(** The ways a handler ends: it returns; it throws, leaving the state and
    the queued commands as they were when the exception left; or there is
    nothing to say: it runs into undefined behaviour, or the model was
    handed a value that the call it stands for cannot return. *)
Inductive Outcome : Type :=
| Returned (d : Director) (sent : list (ClientId * Command))
| Thrown (d : Director) (sent : list (ClientId * Command)) (what : string)
| Undefined.

(** A broadcast in the iteration order of the client set. *)
Definition broadcast (cs : gset ClientId) (c : Command) : list (ClientId * Command) :=
  (fun clientId => (clientId, c)) <$> elements cs.


(** [RaceDirector::GetClientContext]. *)
Definition GetClientContext (clientId : ClientId) (requireAuthorized : bool) (d : Director)
  : ClientContext + string :=
  match _clients d !! clientId with
  | None => inr "Race client is not available"%string
  | Some clientContext =>
      if requireAuthorized && negb (isAuthenticated clientContext)
      then inr "Race client is not authenticated"%string
      else inl clientContext
  end.

(** [racer_of clientId d clientContext raceInstance racer]: the client is
    authenticated, its room has a race instance and its character is the
    racer [racer] of that race. *)
Definition racer_of (clientId : ClientId) (d : Director) (clientContext : ClientContext)
  (raceInstance : RoomInstance) (racer : Racer) : Prop :=
  GetClientContext clientId true d = inl clientContext
  /\ _raceInstances d !! roomUid clientContext = Some raceInstance
  /\ GetRacer (characterUid clientContext) (tracker raceInstance) = Some racer.

(** The director in which the racer of [clientContext] has become [racer]. *)
Definition with_racer (clientContext : ClientContext) (raceInstance : RoomInstance)
  (racer : Racer) (d : Director) : Director :=
  put_instance (roomUid clientContext)
    (put_racer (characterUid clientContext) racer raceInstance) d.

(** The racer of a character in the race of a room. *)
Definition racer_in (roomUid characterUid : Z) (d : Director) : option Racer :=
  match _raceInstances d !! roomUid with
  | Some raceInstance => GetRacer characterUid (tracker raceInstance)
  | None => None
  end.

(** The director an outcome leaves behind. *)
Definition director_of (o : Outcome) (d0 : Director) : Director :=
  match o with
  | Returned d _ | Thrown d _ _ => d
  | Undefined => d0
  end.

(** *** Star points, spur and hurdles *)

Definition different_racer : string :=
  "Client tried to perform action on behalf of different racer".

Definition no_such_racer : string := "Racer does not exist".

Definition no_such_game_mode : string := "Game mode info does not exist".

Definition no_such_map_block : string := "Map block info does not exist".

Definition cheating : string := "Client is dead ass cheating (or is really desynced)".

(** [RaceDirector::HandleStarPointGet]. *)
Definition HandleStarPointGet (reg : CourseRegistry) (clientId : ClientId)
  (command : AcCmdCRStarPointGet) (d : Director) : Outcome :=
  match GetClientContext clientId true d with
  | inr what => Thrown d [] what
  | inl clientContext =>
      let '(raceInstance, d) := instance_ref (roomUid clientContext) d in
      match GetRacer (characterUid clientContext) (tracker raceInstance) with
      | None => Thrown d [] no_such_racer
      | Some racer =>
          if negb (spg_characterOid command =? oid racer) then Thrown d [] different_racer
          else
            match GetCourseGameModeInfo reg (u8 (raceGameMode raceInstance)) with
            | None => Thrown d [] no_such_game_mode
            | Some gameModeTemplate =>
                let racer :=
                  set_starPointValue
                    (Z.min (u32 (starPointValue racer + gainedStarPoints command))
                           (starPointsMax gameModeTemplate))
                    racer in
                let raceInstance := put_racer (characterUid clientContext) racer raceInstance in
                Returned (put_instance (roomUid clientContext) raceInstance d)
                  [(clientId,
                    AcCmdCRStarPointGetOK (spg_characterOid command) (starPointValue racer) false)]
            end
      end
  end.

(** [RaceDirector::HandleRequestSpur]. *)
Definition HandleRequestSpur (reg : CourseRegistry) (clientId : ClientId)
  (command : AcCmdCRRequestSpur) (d : Director) : Outcome :=
  match GetClientContext clientId true d with
  | inr what => Thrown d [] what
  | inl clientContext =>
      let '(raceInstance, d) := instance_ref (roomUid clientContext) d in
      match GetRacer (characterUid clientContext) (tracker raceInstance) with
      | None => Thrown d [] no_such_racer
      | Some racer =>
          if negb (spur_characterOid command =? oid racer) then Thrown d [] different_racer
          else
            match GetCourseGameModeInfo reg (u8 (raceGameMode raceInstance)) with
            | None => Thrown d [] no_such_game_mode
            | Some gameModeTemplate =>
                if starPointValue racer <? spurConsumeStarPoints gameModeTemplate
                then Thrown d [] cheating
                else
                  let racer :=
                    set_starPointValue
                      (u32 (starPointValue racer - spurConsumeStarPoints gameModeTemplate))
                      racer in
                  let raceInstance :=
                    put_racer (characterUid clientContext) racer raceInstance in
                  Returned (put_instance (roomUid clientContext) raceInstance d)
                    [(clientId,
                      AcCmdCRRequestSpurOK (spur_characterOid command) (activeBoosters command)
                        (starPointValue racer) (comboBreak command));
                     (clientId,
                      AcCmdCRStarPointGetOK (spur_characterOid command) (starPointValue racer)
                        false)]
            end
      end
  end.

Definition is_Perfect (t : HurdleClearType) : bool :=
  match t with Perfect => true | _ => false end.

Definition is_Collision (t : HurdleClearType) : bool :=
  match t with Collision => true | _ => false end.

(** The [switch] of [HandleHurdleClearResult] on the clear type: the racer
    after the jump and the [jumpCombo] of the response, or [None] in the
    [default] branch, which only logs and returns. *)
Definition hurdle_clear (gameModeTemplate : GameModeInfo) (raceGameMode : Z)
  (clearType : HurdleClearType) (racer : Racer) : option (Racer * Z) :=
  match clearType with
  | Perfect =>
      let racer := set_jumpComboValue (Z.min 99 (u32 (jumpComboValue racer + 1))) racer in
      let jumpCombo :=
        if raceGameMode =? protocol_GameMode_Speed then jumpComboValue racer else 0 in
      let applicableComboCount :=
        Z.min (perfectJumpMaxBonusCombo gameModeTemplate) (jumpComboValue racer) in
      let gainedStarPointsFromCombo :=
        u32 (applicableComboCount * perfectJumpUnitStarPoints gameModeTemplate) in
      let racer :=
        set_starPointValue
          (Z.min (u32 (starPointValue racer + perfectJumpStarPoints gameModeTemplate
                       + gainedStarPointsFromCombo))
                 (starPointsMax gameModeTemplate))
          racer in
      Some (racer, jumpCombo)
  | Good | DoubleJumpOrGlide =>
      let racer := set_jumpComboValue 0 racer in
      let racer :=
        set_starPointValue
          (Z.min (u32 (starPointValue racer + goodJumpStarPoints gameModeTemplate))
                 (starPointsMax gameModeTemplate))
          racer in
      Some (racer, jumpComboValue racer)
  | Collision =>
      let racer := set_jumpComboValue 0 racer in
      Some (racer, jumpComboValue racer)
  | OtherClearType _ => None
  end.

(** [RaceDirector::HandleHurdleClearResult]. *)
Definition HandleHurdleClearResult (reg : CourseRegistry) (clientId : ClientId)
  (command : AcCmdCRHurdleClearResult) (d : Director) : Outcome :=
  match GetClientContext clientId true d with
  | inr what => Thrown d [] what
  | inl clientContext =>
      let '(raceInstance, d) := instance_ref (roomUid clientContext) d in
      match GetRacer (characterUid clientContext) (tracker raceInstance) with
      | None => Thrown d [] no_such_racer
      | Some racer =>
          if negb (hcr_characterOid command =? oid racer) then Thrown d [] different_racer
          else
            match GetCourseGameModeInfo reg (u8 (raceGameMode raceInstance)) with
            | None => Thrown d [] no_such_game_mode
            | Some gameModeTemplate =>
                match hurdle_clear gameModeTemplate (raceGameMode raceInstance)
                        (hurdleClearType command) racer with
                | None => Returned d []
                | Some (racer, jumpCombo) =>
                    let giveMagicItem :=
                      (raceGameMode raceInstance =? protocol_GameMode_Magic)
                      && (starPointsMax gameModeTemplate <=? starPointValue racer)
                      && is_Perfect (hurdleClearType command) in
                    let starPointResponse :=
                      AcCmdCRStarPointGetOK (hcr_characterOid command) (starPointValue racer)
                        giveMagicItem in
                    let response :=
                      AcCmdCRHurdleClearResultOK (hcr_characterOid command)
                        (hurdleClearType command) jumpCombo 0 in
                    let raceInstance :=
                      put_racer (characterUid clientContext) racer raceInstance in
                    Returned (put_instance (roomUid clientContext) raceInstance d)
                      ((if is_Collision (hurdleClearType command) then []
                        else [(clientId, starPointResponse)])
                       ++ [(clientId, response)])
                end
            end
      end
  end.

(** The template values and the gauge of a racer fit in 32 bits with room
    for one more jump. *)
Definition jump_values_in_range (gm : GameModeInfo) (racer : Racer) : Prop :=
  0 <= jumpComboValue racer <= 99
  /\ 0 <= starPointValue racer <= starPointsMax gm
  /\ 0 <= perfectJumpMaxBonusCombo gm
  /\ 0 <= perfectJumpStarPoints gm
  /\ 0 <= perfectJumpUnitStarPoints gm
  /\ 0 <= goodJumpStarPoints gm
  /\ starPointsMax gm + perfectJumpStarPoints gm + 99 * perfectJumpUnitStarPoints gm < 2 ^ 32
  /\ starPointsMax gm + goodJumpStarPoints gm < 2 ^ 32.

(** [n] consecutive [Perfect] hurdle results of one racer. *)
Definition perfect_jumps (reg : CourseRegistry) (clientId : ClientId) (characterOid : Oid)
  (n : nat) (d : Director) : Director :=
  Nat.iter n
    (fun d =>
       director_of
         (HandleHurdleClearResult reg clientId (mkHurdleClearResult characterOid Perfect) d) d)
    d.

(** *** Magic items *)


(** A call [distribution(rd)] of [std::uniform_int_distribution<int>(a, b)].
    How the distribution maps the words of the random device to its values
    is left to the library; what it promises is a value of [a .. b], each
    with the same probability.  The value the call returns is therefore an
    input of the model, [rd], and the definition keeps the promise: there
    is no result for a value outside [a .. b], nor when [b < a], where the
    behaviour of the distribution is undefined. *)
Definition uniform_int_distribution (a b : Z) (rd : Z) : option Z :=
  if (a <=? rd) && (rd <=? b) then Some rd else None.



(** *** Starting a race *)

Definition AllMapsCourseId : Z := 10000.
Definition NewMapsCourseId : Z := 10001.
Definition HotMapsCourseId : Z := 10002.

Definition tracker_team (t : RoomSystem.Team) : Team.t :=
  match t with
  | RoomSystem.Solo => Team.Solo
  | RoomSystem.Red => Team.Red
  | RoomSystem.Blue => Team.Blue
  end.

(** [RaceDirector::PrepareItemSpawners]: an exception of either registry
    lookup is caught and logged. *)
Definition PrepareItemSpawners (reg : CourseRegistry) (roomUid : Z) (d : Director) : Director :=
  let '(raceInstance, d) := instance_ref roomUid d in
  match GetCourseGameModeInfo reg (u32 (raceGameMode raceInstance)),
        GetMapBlockInfo reg (raceMapBlockId raceInstance) with
  | Some gameModeInfo, Some mapBlockInfo =>
      let items :=
        fold_left
          (fun t usedDeckItemId =>
             fold_left
               (fun t mapDeckItemInstance =>
                  if mapDeckItemInstance =? usedDeckItemId
                  then AddItem mapDeckItemInstance t else t)
               (deckItems mapBlockInfo) t)
          (usedDeckItemIds gameModeInfo) (tracker raceInstance) in
      put_instance roomUid (set_tracker items raceInstance) d
  | _, _ => d
  end.

(** The racers of a starting race: every committed player of the room, in
    the iteration order of the player map, in state [Loading]. *)
Definition add_racers (players : gmap Z RoomSystem.Player) (t : RaceTracker) : RaceTracker :=
  fold_left
    (fun t entry =>
       let '(racer, t) := AddRacer (fst entry) t in
       let racer := set_state State.Loading racer in
       let racer := set_team (tracker_team (RoomSystem._team (snd entry))) racer in
       set_racers (<[fst entry := racer]> (_racers t)) t)
    (map_to_list players) t.

(** The maps of the pool the master may race on; a map whose block info
    cannot be read is left out. *)
Definition filteredMaps (reg : CourseRegistry) (masterLevel : Z) (pool : list Z) : list Z :=
  List.filter
    (fun mapBlockId =>
       match GetMapBlockInfo reg mapBlockId with
       | Some mapBlockInfo => requiredLevel mapBlockInfo <=? masterLevel
       | None => false
       end)
    pool.

(** The second half of [HandleStartRace], from the point where the map
    block id is known: the room countdown, the fresh tracker with its items
    and racers, the [Loading] stage with its timeout, and the start-race
    notification left with the scheduler. *)
Definition start_race (reg : CourseRegistry) (now : time_point) (clientId : ClientId)
  (clientContext : ClientContext) (room : RoomSystem.Room) (raceInstance : RoomInstance)
  (d : Director) (mapBlockId : Z) : Outcome :=
  let raceInstance := set_raceMapBlockId (u16 mapBlockId) raceInstance in
  let roomCountdown := AcCmdRCRoomCountdown 3000 (raceMapBlockId raceInstance) in
  let sent := broadcast (clients raceInstance) roomCountdown in
  let raceInstance := set_tracker (Clear (tracker raceInstance)) raceInstance in
  let d := put_instance (roomUid clientContext) raceInstance d in
  let d := PrepareItemSpawners reg (roomUid clientContext) d in
  let '(raceInstance, d) := instance_ref (roomUid clientContext) d in
  let raceInstance :=
    set_tracker (add_racers (RoomSystem._players room) (tracker raceInstance)) raceInstance in
  let raceInstance := set_stage Stage.Loading raceInstance in
  let raceInstance := set_stageTimeoutTimePoint (now + seconds 30) raceInstance in
  let d := put_instance (roomUid clientContext) raceInstance d in
  let d :=
    set_rooms (<[roomUid clientContext := RoomSystem.SetRoomPlaying true room]> (rooms d)) d in
  let d :=
    set_scheduler
      (_scheduler d ++ [(now + milliseconds 3000, StartRaceNotifyTask clientId)]) d in
  Returned d sent.

(** [RaceDirector::HandleStartRace]; [characterLevel] is the level the data
    director reports for a character, [now] the reading of the steady clock
    and [rd] the value the distribution over the allowed maps returns. *)
Definition HandleStartRace (reg : CourseRegistry) (characterLevel : Z -> Z)
  (now : time_point) (rd : Z) (clientId : ClientId) (d : Director) : Outcome :=
  match GetClientContext clientId true d with
  | inr what => Thrown d [] what
  | inl clientContext =>
      let '(raceInstance, d) := instance_ref (roomUid clientContext) d in
      if negb (characterUid clientContext =? masterUid raceInstance)
      then Thrown d [] "Client tried to start the race even though they're not the master"
      else
        match rooms d !! roomUid clientContext with
        | None => Thrown d [] "Room does not exist"
        | Some room =>
            let details := RoomSystem._details room in
            let raceInstance :=
              set_raceGameMode (RoomSystem.GameMode_value (RoomSystem.gameMode details))
                raceInstance in
            let raceInstance :=
              set_raceTeamMode (RoomSystem.GameMode_value (RoomSystem.gameMode details))
                raceInstance in
            let raceInstance :=
              set_raceMissionId (RoomSystem.missionId details) raceInstance in
            let roomGameMode := u8 (RoomSystem.GameMode_value (RoomSystem.gameMode details)) in
            let roomSelectedCourses := RoomSystem.courseId details in
            let d := put_instance (roomUid clientContext) raceInstance d in
            if (roomSelectedCourses =? AllMapsCourseId)
               || (roomSelectedCourses =? NewMapsCourseId)
               || (roomSelectedCourses =? HotMapsCourseId)
            then
              match GetCourseGameModeInfo reg roomGameMode with
              | None => Thrown d [] no_such_game_mode
              | Some gameMode =>
                  match mapPool gameMode with
                  | [] => start_race reg now clientId clientContext room raceInstance d 1
                  | _ :: _ =>
                      let masterLevel := characterLevel (masterUid raceInstance) in
                      let maps := filteredMaps reg masterLevel (mapPool gameMode) in
                      match uniform_int_distribution 0 (Z.of_nat (length maps) - 1) rd with
                      | None => Undefined
                      | Some i =>
                          start_race reg now clientId clientContext room raceInstance d
                            (nth (Z.to_nat i) maps 0)
                      end
                  end
              end
            else
              start_race reg now clientId clientContext room raceInstance d
                roomSelectedCourses
        end
  end.

(** What [HandleStartRace] copies from the room into the race instance. *)
Definition snapshot_of (details : RoomSystem.Details) (i : RoomInstance) : Prop :=
  raceGameMode i = RoomSystem.GameMode_value (RoomSystem.gameMode details)
  /\ raceTeamMode i = RoomSystem.GameMode_value (RoomSystem.gameMode details)
  /\ raceMissionId i = RoomSystem.missionId details.

(** The stage, the snapshot and the map of the race of room 1 after a
    start-race command that returned. *)
Definition started_instance (o : Outcome) : option (Stage.t * Z * Z * Z * Z) :=
  match o with
  | Returned d _ =>
      (fun i => (stage i, raceGameMode i, raceTeamMode i, raceMissionId i, raceMapBlockId i))
      <$> (_raceInstances d !! 1)
  | _ => None
  end.

(** *** The tick *)

Definition all_racers (p : Racer -> bool) (i : RoomInstance) : bool :=
  forallb p (snd <$> map_to_list (_racers (tracker i))).

Definition any_racer (p : Racer -> bool) (i : RoomInstance) : bool :=
  existsb p (snd <$> map_to_list (_racers (tracker i))).

Definition in_state (s : State.t) (r : Racer) : bool := bool_decide (state r = s).

(** A loop [for (auto& [raceUid, raceInstance] : _raceInstances)]: the body
    runs on each instance in the iteration order of the map and an exception
    leaves the loop. *)
Fixpoint for_each (body : Z -> RoomInstance -> Director -> Outcome) (uids : list Z)
  (d : Director) (sent : list (ClientId * Command)) : Outcome :=
  match uids with
  | [] => Returned d sent
  | raceUid :: rest =>
      match _raceInstances d !! raceUid with
      | None => for_each body rest d sent
      | Some raceInstance =>
          match body raceUid raceInstance d with
          | Returned d' s => for_each body rest d' (sent ++ s)
          | Thrown d' s what => Thrown d' (sent ++ s) what
          | Undefined => Undefined
          end
      end
  end.

Definition for_each_instance (body : Z -> RoomInstance -> Director -> Outcome)
  (d : Director) : Outcome :=
  for_each body (fst <$> map_to_list (_raceInstances d)) d [].

(** Body of the loop over the rooms which are loading. *)
Definition tick_loading (reg : CourseRegistry) (now : time_point) (raceUid : Z)
  (raceInstance : RoomInstance) (d : Director) : Outcome :=
  if negb (bool_decide (stage raceInstance = Stage.Loading)) then Returned d []
  else
    let allRacersLoaded :=
      all_racers (fun racer => in_state State.Racing racer || in_state State.Disconnected racer)
        raceInstance in
    let loadTimeoutReached := stageTimeoutTimePoint raceInstance <=? now in
    if negb allRacersLoaded && negb loadTimeoutReached then Returned d []
    else
      let racers :=
        (fun racer =>
           if in_state State.Racing racer then racer
           else set_state State.Disconnected racer)
        <$> _racers (tracker raceInstance) in
      let raceInstance := set_tracker (set_racers racers (tracker raceInstance)) raceInstance in
      match GetMapBlockInfo reg (raceMapBlockId raceInstance) with
      | None => Thrown (put_instance raceUid raceInstance d) [] no_such_map_block
      | Some mapBlockTemplate =>
          let raceInstance := set_stage Stage.Racing raceInstance in
          let raceInstance :=
            set_stageTimeoutTimePoint (now + seconds (timeLimit mapBlockTemplate))
              raceInstance in
          let raceInstance :=
            set_raceStartTimePoint (now + seconds (waitTime mapBlockTemplate)) raceInstance in
          Returned (put_instance raceUid raceInstance d)
            (broadcast (clients raceInstance)
               (AcCmdUserRaceCountdown
                  (TimePointToRaceTimePoint (raceStartTimePoint raceInstance))))
      end.

(** The broadcast of the race final to the participants: the context of
    every client of the room is fetched with [requireAuthorized = true]. *)
Fixpoint final_notify (raceInstance : RoomInstance) (d : Director) (cs : list ClientId)
  (sent : list (ClientId * Command)) : list (ClientId * Command) + (list (ClientId * Command) * string) :=
  match cs with
  | [] => inl sent
  | raceClientId :: rest =>
      match GetClientContext raceClientId true d with
      | inr what => inr (sent, what)
      | inl raceClientContext =>
          if IsRacer (characterUid raceClientContext) (tracker raceInstance)
          then final_notify raceInstance d rest (sent ++ [(raceClientId, AcCmdUserRaceFinalNotify)])
          else final_notify raceInstance d rest sent
      end
  end.

(** Body of the loop over the rooms which are racing. *)
Definition tick_racing (now : time_point) (raceUid : Z)
  (raceInstance : RoomInstance) (d : Director) : Outcome :=
  if negb (bool_decide (stage raceInstance = Stage.Racing)) then Returned d []
  else
    let raceTimeoutReached := stageTimeoutTimePoint raceInstance <=? now in
    let isFinishing := any_racer (in_state State.Finishing) raceInstance in
    if negb isFinishing && negb raceTimeoutReached then Returned d []
    else
      let raceInstance := set_stage Stage.Finishing raceInstance in
      let raceInstance := set_stageTimeoutTimePoint (now + seconds 15) raceInstance in
      let d := put_instance raceUid raceInstance d in
      if raceTimeoutReached then
        match final_notify raceInstance d (elements (clients raceInstance)) [] with
        | inl sent => Returned d sent
        | inr (sent, what) => Thrown d sent what
        end
      else Returned d [].

(** The entries of a [std::map] in the order in which a loop over the map
    visits them: ascending key. *)
Definition key_le {A : Type} (x y : Z * A) : Prop := fst x <= fst y.

#[global] Instance key_le_dec {A : Type} : RelDecision (@key_le A).
Proof. intros x y. unfold key_le. apply _. Defined.

Definition ascending {A : Type} (m : gmap Z A) : list (Z * A) :=
  merge_sort key_le (map_to_list m).

(** The score board: a [std::map] from course time to character, filled
    with [try_emplace] while the racers are visited in ascending character
    uid, so that of the racers with one course time the first one is
    kept. *)
Definition scoreboard (raceInstance : RoomInstance) : gmap Z Z :=
  fold_left
    (fun board entry =>
       let courseTime :=
         if in_state State.Disconnected (snd entry) then uint32_max
         else courseTime (snd entry) in
       RoomSystem.try_emplace courseTime (fst entry) board)
    (ascending (_racers (tracker raceInstance))) ∅.

(** The scores of the race result, one for each entry of the score board
    in ascending course time.  Name, level and mount name of a score come
    from the data director and are not modelled. *)
Definition scores (raceInstance : RoomInstance) : list ScoreInfo :=
  (fun entry =>
     {| score_uid := snd entry;
        score_courseTime := fst entry;
        score_connected :=
          match GetRacer (snd entry) (tracker raceInstance) with
          | Some racer => negb (in_state State.Disconnected racer)
          | None => false
          end |})
  <$> ascending (scoreboard raceInstance).

(** Body of the loop over the rooms which are finishing. *)
Definition tick_finishing (now : time_point) (raceUid : Z)
  (raceInstance : RoomInstance) (d : Director) : Outcome :=
  if negb (bool_decide (stage raceInstance = Stage.Finishing)) then Returned d []
  else
    let allRacersFinished :=
      all_racers
        (fun racer => in_state State.Finishing racer || in_state State.Disconnected racer)
        raceInstance in
    let finishTimeoutReached := stageTimeoutTimePoint raceInstance <=? now in
    if negb allRacersFinished && negb finishTimeoutReached then Returned d []
    else
      let raceResult := AcCmdRCRaceResultNotify (scores raceInstance) in
      let sent := broadcast (clients raceInstance) raceResult in
      let raceInstance := set_stage Stage.Waiting raceInstance in
      let d := put_instance raceUid raceInstance d in
      match rooms d !! raceUid with
      | None => Thrown d sent "Room does not exist"
      | Some room =>
          Returned (set_rooms (<[raceUid := RoomSystem.SetRoomPlaying false room]> (rooms d)) d)
            sent
      end.

(** The start-race notification, run by the scheduler at the end of the
    room countdown.  The racer roster and the skill sets of the command are
    not modelled. *)
Definition start_race_notify (clientId : ClientId) (d : Director) : Outcome :=
  match GetClientContext clientId true d with
  | inr what => Thrown d [] what
  | inl clientContext =>
      let '(raceInstance, d) := instance_ref (roomUid clientContext) d in
      Returned d
        (omap
           (fun raceClientId =>
              match _clients d !! raceClientId with
              | None => None
              | Some raceClientContext =>
                  match GetRacer (characterUid raceClientContext) (tracker raceInstance) with
                  | None => None
                  | Some racer =>
                      Some (raceClientId,
                            AcCmdCRStartRaceNotify (raceGameMode raceInstance)
                              (raceTeamMode raceInstance) (raceMapBlockId raceInstance)
                              (raceMissionId raceInstance) (oid racer))
                  end
              end)
           (elements (clients raceInstance)))
  end.

Definition run_task (t : Task) (d : Director) : Outcome :=
  match t with
  | StartRaceNotifyTask clientId => start_race_notify clientId d
  end.

(** Modelled from the spec: the scheduler is declared outside the sources;
    it is a delayed-task queue drained by the owning director on each tick.
    The tasks that are due run in queue order. *)
Fixpoint run_due (now : time_point) (tasks : list (time_point * Task)) (d : Director)
  (sent : list (ClientId * Command)) : Outcome :=
  match tasks with
  | [] => Returned d sent
  | (due, t) :: rest =>
      if due <=? now then
        match run_task t d with
        | Returned d' s => run_due now rest d' (sent ++ s)
        | Thrown d' s what => Thrown d' (sent ++ s) what
        | Undefined => Undefined
        end
      else run_due now rest d sent
  end.

Definition scheduler_Tick (now : time_point) (d : Director) : Outcome :=
  let due := _scheduler d in
  let d := set_scheduler (List.filter (fun e => negb (fst e <=? now)) (_scheduler d)) d in
  run_due now due d [].

(** Sequencing of two parts of a function. *)
Definition and_then (o : Outcome) (k : Director -> Outcome) : Outcome :=
  match o with
  | Returned d sent =>
      match k d with
      | Returned d' s => Returned d' (sent ++ s)
      | Thrown d' s what => Thrown d' (sent ++ s) what
      | Undefined => Undefined
      end
  | _ => o
  end.

(** [RaceDirector::Tick]: the scheduler, then the three loops.  The steady
    clock is read once, at [now]. *)
Definition Tick (reg : CourseRegistry) (now : time_point) (d : Director) : Outcome :=
  and_then (scheduler_Tick now d) (fun d =>
  and_then (for_each_instance (tick_loading reg now) d) (fun d =>
  and_then (for_each_instance (tick_racing now) d) (fun d =>
  for_each_instance (tick_finishing now) d))).

(** *** Observing the stage of a race instance *)

(** The stage of the race of a room; a room without an instance is in the
    stage of the instance that the first access creates. *)
Definition stage_of (raceUid : Z) (d : Director) : Stage.t :=
  match _raceInstances d !! raceUid with
  | Some raceInstance => stage raceInstance
  | None => Stage.Waiting
  end.

(** An outcome that leaves a director behind. *)
Definition leaves (o : Outcome) (d' : Director) : Prop :=
  (exists sent, o = Returned d' sent) \/ (exists sent what, o = Thrown d' sent what).

(** The order Waiting, Loading, Racing, Finishing, Waiting, ... *)
Definition next_stage (s : Stage.t) : Stage.t :=
  match s with
  | Stage.Waiting => Stage.Loading
  | Stage.Loading => Stage.Racing
  | Stage.Racing => Stage.Finishing
  | Stage.Finishing => Stage.Waiting
  end.

(** [advance s s']: the stage stays, or moves on to the next one. *)
Definition advance (s s' : Stage.t) : Prop := s' = s \/ s' = next_stage s.

(** [moves a b s s']: the stage stays, or it was [a] and is now [b]. *)
Definition moves (a b s s' : Stage.t) : Prop := s' = s \/ (s = a /\ s' = b).

(** A sequence of observed stages follows the cycle when each value is the
    one before it or the next stage after it. *)
Fixpoint follows_cycle (l : list Stage.t) : bool :=
  match l with
  | s :: (s' :: _) as rest =>
      (bool_decide (s' = s) || bool_decide (s' = next_stage s)) && follows_cycle rest
  | _ => true
  end.

(** The four parts of [Tick], each followed by an observation. *)
Definition tick_parts (reg : CourseRegistry) (now : time_point)
  : list (Director -> Outcome) :=
  [scheduler_Tick now;
   for_each_instance (tick_loading reg now);
   for_each_instance (tick_racing now);
   for_each_instance (tick_finishing now)].

(** The directors reached after each part, up to the part that throws. *)
Fixpoint run_parts (parts : list (Director -> Outcome)) (d : Director) : list Director :=
  match parts with
  | [] => []
  | part :: rest =>
      match part d with
      | Returned d' _ => d' :: run_parts rest d'
      | Thrown d' _ _ => [d']
      | Undefined => []
      end
  end.

(** What reaches the race director: a start-race command of a client, or a
    tick. *)
Inductive Event : Type :=
| StartRace (now : time_point) (rd : Z) (clientId : ClientId)
| Ticking (now : time_point).

(** The directors observed while the events are handled: one after each
    [HandleStartRace], four in the course of each [Tick].  Handling goes on
    after an exception; undefined behaviour ends the observation. *)
Fixpoint observe (reg : CourseRegistry) (characterLevel : Z -> Z) (events : list Event)
  (d : Director) : list Director :=
  match events with
  | [] => []
  | StartRace now rd clientId :: rest =>
      match HandleStartRace reg characterLevel now rd clientId d with
      | Returned d' _ | Thrown d' _ _ => d' :: observe reg characterLevel rest d'
      | Undefined => []
      end
  | Ticking now :: rest =>
      let ds := run_parts (tick_parts reg now) d in
      ds ++ observe reg characterLevel rest (List.last ds d)
  end.

Definition observed_stages (reg : CourseRegistry) (characterLevel : Z -> Z)
  (raceUid : Z) (events : list Event) (d : Director) : list Stage.t :=
  stage_of raceUid <$> (d :: observe reg characterLevel events d).

(** In a sequence of directors the stage of a race advances step by step. *)
Fixpoint advances (raceUid : Z) (d : Director) (ds : list Director) : Prop :=
  match ds with
  | [] => True
  | d' :: rest =>
      advance (stage_of raceUid d) (stage_of raceUid d') /\ advances raceUid d' rest
  end.

(** The room a client is in, when the client is known. *)
Definition room_of (clientId : ClientId) (d : Director) : option Z :=
  roomUid <$> (_clients d !! clientId).

(** Every start-race command arrives while the race of its room is waiting. *)
Fixpoint starts_while_waiting (reg : CourseRegistry) (characterLevel : Z -> Z)
  (events : list Event) (d : Director) : Prop :=
  match events with
  | [] => True
  | StartRace now rd clientId :: rest =>
      (forall raceUid, room_of clientId d = Some raceUid ->
         stage_of raceUid d = Stage.Waiting)
      /\ starts_while_waiting reg characterLevel rest
           (director_of (HandleStartRace reg characterLevel now rd clientId d) d)
  | Ticking now :: rest =>
      starts_while_waiting reg characterLevel rest
        (List.last (run_parts (tick_parts reg now) d) d)
  end.

End RaceDirector.

(** ** Lobby: login frame and login queue *)

Module Lobby.

Abbreviation ClientId := Z (only parsing).

(** [AcCmdCLLoginCancel::Reason], in the order of its values 0..6. *)
Inductive Reason : Type :=
| Generic | InvalidUser | Duplicated | InvalidVersion
| InvalidEquipment | InvalidLoginId | DisconnectYourself.

Definition Reason_value (r : Reason) : Z :=
  match r with
  | Generic => 0 | InvalidUser => 1 | Duplicated => 2 | InvalidVersion => 3
  | InvalidEquipment => 4 | InvalidLoginId => 5 | DisconnectYourself => 6
  end.

(** Serverbound login command. *)
Record AcCmdCLLogin : Type := mkLogin {
  constant0 : Z;
  constant1 : Z;
  loginId : string;
  memberNo : Z;
  authKey : string;
  val0 : Z
}.

(** What the login exchange asks of the command server, in the order of
    the calls: the clientbound commands it queues, and [SetCode] for the
    call [_commandServer.SetCode(clientId, {})], which queues nothing.  The
    payloads of the login-ok, skill-preset and create-nickname commands are
    not modelled. *)
Inductive Command : Type :=
| AcCmdCLLoginCancel (reason : Reason)
| LobbyCommandLoginOK
| AcCmdLCSkillCardPresetList
| LobbyCommandCreateNicknameNotify
| SetCode.

(** [LobbyNetworkHandler::ClientContext]. *)
Record ClientContext : Type := mkClientContext {
  isAuthenticated : bool;
  justCreatedCharacter : bool;
  userName : string;
  characterUid : Z;
  rancherVisitPreference : Z
}.

Definition ClientContext_default : ClientContext :=
  {| isAuthenticated := false; justCreatedCharacter := false; userName := "";
     characterUid := 0; rancherVisitPreference := 0 |}.

Definition set_userName (n : string) (c : ClientContext) : ClientContext :=
  mkClientContext (isAuthenticated c) (justCreatedCharacter c) n (characterUid c)
    (rancherVisitPreference c).

Definition set_isAuthenticated (b : bool) (c : ClientContext) : ClientContext :=
  mkClientContext b (justCreatedCharacter c) (userName c) (characterUid c)
    (rancherVisitPreference c).

Definition set_characterUid (uid : Z) (c : ClientContext) : ClientContext :=
  mkClientContext (isAuthenticated c) (justCreatedCharacter c) (userName c) uid
    (rancherVisitPreference c).

(** [LobbyDirector::QueuedLogin]. *)
Record QueuedLogin : Type := mkQueuedLogin {
  ql_userName : string;
  userToken : string;
  userLoadRequested : bool;
  userCharacterLoadRequested : bool
}.

Definition QueuedLogin_default : QueuedLogin :=
  {| ql_userName := ""; userToken := ""; userLoadRequested := false;
     userCharacterLoadRequested := false |}.

(** [LobbyDirector::UserInstance], without the OTP codes. *)
Record UserInstance : Type := mkUserInstance {
  ui_userName : string;
  ui_characterUid : Z;
  ui_roomUid : Z
}.

Definition UserInstance_default : UserInstance :=
  {| ui_userName := ""; ui_characterUid := 0; ui_roomUid := 0 |}.

(** The tasks the login path hands to the director's scheduler. *)
Inductive Task : Type :=
| QueueClientConnectTask (clientId : ClientId)
| QueueClientLoginTask (clientId : ClientId) (userName userToken : string)
| ClientDisconnectedTask (isAuthenticated : bool) (clientId : ClientId) (userName : string).

(** A user record of the data director. *)
Record User : Type := mkUser {
  token : string;
  user_characterUid : Z
}.

(** A character record of the data director, with the fields that
    [SendLoginOK] follows to other records. *)
Record Character : Type := mkCharacter {
  character_uid : Z;
  characterEquipment : list Z;
  mountEquipment : list Z;
  guildUid : Z;
  petUid : Z;
  settingsUid : Z;
  mountUid : Z
}.

(** A guild record of the data director. *)
Record Guild : Type := mkGuild {
  owner : Z;
  officers : list Z;
  members : list Z
}.

(** The data director is declared outside the sources; the login queue
    and [SendLoginOK] use it through this interface.  [D] is the state of
    the director: the load requests change it, and so may a fetch into the
    character cache.  [GetUser] is [None] where the record is not
    available.

    - [GetUserCache d name] is [GetUserCache().Get(name)];
    - [GetCharacter d uid], [GetGuild d uid] and [GetPet d uid] are the
      calls of these names, [None] or [false] for a record that tests
      false;
    - [GetItemCache d uids], [GetSettingsCache d uid] and
      [GetHorseCache d uid] tell whether [Get] of that cache has a value;
    - [GetCharacterCache uid d] is [GetCharacterCache().Get(uid, true)],
      whose result [SendLoginOK] drops. *)
Class DataDirector (D : Type) : Type := {
  AreDataBeingLoaded : D -> string -> bool;
  AreUserDataLoaded : D -> string -> bool;
  AreCharacterDataLoaded : D -> string -> bool;
  RequestLoadUserData : string -> D -> D;
  RequestLoadCharacterData : string -> Z -> D -> D;
  GetUser : D -> string -> option User;
  GetUserCache : D -> string -> option User;
  GetCharacter : D -> Z -> option Character;
  GetGuild : D -> Z -> option Guild;
  GetPet : D -> Z -> bool;
  GetItemCache : D -> list Z -> bool;
  GetSettingsCache : D -> Z -> bool;
  GetHorseCache : D -> Z -> bool;
  GetCharacterCache : Z -> D -> D
}.

Section WithDataDirector.

Context {D : Type} `{DataDirector D}.

(** [preventServerJoining] of the verdict of
    [InfractionSystem::CheckOutstandingPunishments]. *)
Variable preventServerJoining : string -> bool.

(** [NDEBUG]: whether [assert] is compiled out. *)
Variable NDEBUG : bool.

(** The lobby: the client contexts of the network handler, the login state
    of the director, its scheduler and the data director. *)
Record State : Type := mkState {
  _clients : gmap ClientId ClientContext;
  _clientLogins : gmap ClientId QueuedLogin;
  _userInstances : gmap string UserInstance;
  _charactersForcedIntoCreator : gset Z;
  _loginRequestQueue : list ClientId;
  _loginResponseQueue : list ClientId;
  _scheduler : list Task;
  data : D
}.

Definition set_clients v (s : State) : State :=
  mkState v (_clientLogins s) (_userInstances s) (_charactersForcedIntoCreator s)
    (_loginRequestQueue s) (_loginResponseQueue s) (_scheduler s) (data s).

Definition set_clientLogins v (s : State) : State :=
  mkState (_clients s) v (_userInstances s) (_charactersForcedIntoCreator s)
    (_loginRequestQueue s) (_loginResponseQueue s) (_scheduler s) (data s).

Definition set_userInstances v (s : State) : State :=
  mkState (_clients s) (_clientLogins s) v (_charactersForcedIntoCreator s)
    (_loginRequestQueue s) (_loginResponseQueue s) (_scheduler s) (data s).

Definition set_charactersForcedIntoCreator v (s : State) : State :=
  mkState (_clients s) (_clientLogins s) (_userInstances s) v
    (_loginRequestQueue s) (_loginResponseQueue s) (_scheduler s) (data s).

Definition set_loginRequestQueue v (s : State) : State :=
  mkState (_clients s) (_clientLogins s) (_userInstances s) (_charactersForcedIntoCreator s)
    v (_loginResponseQueue s) (_scheduler s) (data s).

Definition set_loginResponseQueue v (s : State) : State :=
  mkState (_clients s) (_clientLogins s) (_userInstances s) (_charactersForcedIntoCreator s)
    (_loginRequestQueue s) v (_scheduler s) (data s).

Definition set_scheduler v (s : State) : State :=
  mkState (_clients s) (_clientLogins s) (_userInstances s) (_charactersForcedIntoCreator s)
    (_loginRequestQueue s) (_loginResponseQueue s) v (data s).

Definition set_data v (s : State) : State :=
  mkState (_clients s) (_clientLogins s) (_userInstances s) (_charactersForcedIntoCreator s)
    (_loginRequestQueue s) (_loginResponseQueue s) (_scheduler s) v.

(** *** Network handler *)

(** How a handler of the network handler ends.  [Aborted] is a failed
    [assert]. *)
Inductive Outcome : Type :=
| Returned (s : State) (sent : list (ClientId * Command))
| Thrown (s : State) (sent : list (ClientId * Command)) (what : string)
| Aborted.

(** [LobbyNetworkHandler::SendLoginCancel]. *)
Definition SendLoginCancel (clientId : ClientId) (reason : Reason)
  : list (ClientId * Command) :=
  [(clientId, AcCmdCLLoginCancel reason)].

(** The loop of [HandleLogin] over the connected clients: is there an
    authenticated client with this user name? *)
Definition is_logged_in (login : string) (clients : gmap ClientId ClientContext) : bool :=
  existsb
    (fun clientContext =>
       negb (negb (String.eqb (userName clientContext) login)
             || negb (isAuthenticated clientContext)))
    (snd <$> map_to_list clients).

(** [LobbyNetworkHandler::HandleLogin]. *)
Definition HandleLogin (clientId : ClientId) (command : AcCmdCLLogin) (s : State) : Outcome :=
  if negb NDEBUG && negb ((constant0 command =? 50) && (constant1 command =? 281))
  then Aborted
  else if String.eqb (loginId command) "" || String.eqb (authKey command) ""
  then Returned s (SendLoginCancel clientId InvalidLoginId)
  else if is_logged_in (loginId command) (_clients s)
  then Returned s (SendLoginCancel clientId Duplicated)
  else
    match _clients s !! clientId with
    | None => Thrown s [] "Lobby client is not available"
    | Some clientContext =>
        let s :=
          set_clients (<[clientId := set_userName (loginId command) clientContext]> (_clients s))
            s in
        Returned
          (set_scheduler
             (_scheduler s ++ [QueueClientLoginTask clientId (loginId command) (authKey command)])
             s)
          []
    end.

(** [LobbyNetworkHandler::RejectLogin]: nothing is sent to a client that is
    gone; the exception is swallowed. *)
Definition RejectLogin (clientId : ClientId) (reason : Reason) (s : State)
  : list (ClientId * Command) :=
  match _clients s !! clientId with
  | None => []
  | Some _ => SendLoginCancel clientId reason
  end.

(** [LobbyNetworkHandler::SendCreateNicknameNotify]. *)
Definition SendCreateNicknameNotify (clientId : ClientId) : list (ClientId * Command) :=
  [(clientId, LobbyCommandCreateNicknameNotify)].

(** The body of the first [characterRecord.Immutable] of [SendLoginOK]: the
    records of the character's equipment, guild, pet and settings are read
    for the payload, and a missing one throws.  The result is the data
    director, into whose character cache the guild members have been
    fetched, and the exception that left the body, if one did. *)
Definition read_character_records (character : Character) (d : D) : D * option string :=
  if negb (GetItemCache d (characterEquipment character))
  then (d, Some "Character equipment items unavailable"%string)
  else if negb (GetItemCache d (mountEquipment character))
  then (d, Some "Character equipment items unavailable"%string)
  else
    let '(d, thrown) :=
      if guildUid character =? InvalidUid then (d, None)
      else
        match GetGuild d (guildUid character) with
        | None => (d, Some "Character's guild not available"%string)
        | Some guild =>
            let isOwner := owner guild =? character_uid character in
            let isOfficer := existsb (Z.eqb (character_uid character)) (officers guild) in
            let isMember := existsb (Z.eqb (character_uid character)) (members guild) in
            if isOwner || isOfficer || isMember
            then (fold_left (fun d guildMember => GetCharacterCache guildMember d)
                    (members guild) d,
                  None)
            else (d, Some "Character is in a guild but not a member"%string)
        end in
    match thrown with
    | Some what => (d, Some what)
    | None =>
        if negb (petUid character =? InvalidUid) && negb (GetPet d (petUid character))
        then (d, Some "Character's pet not available"%string)
        else if negb (settingsUid character =? InvalidUid)
                && negb (GetSettingsCache d (settingsUid character))
        then (d, Some "Character's settings not available"%string)
        else (d, None)
    end.

(** [LobbyNetworkHandler::SendLoginOK].  The character uid of the user is
    written into the client context before the character record is looked
    at; the three calls on the command server come last, so a missing
    record leaves with nothing sent. *)
Definition SendLoginOK (clientId : ClientId) (s : State) : Outcome :=
  match _clients s !! clientId with
  | None => Thrown s [] "Lobby client is not available"
  | Some clientContext =>
      if negb (isAuthenticated clientContext)
      then Thrown s [] "Lobby client is not authenticated"
      else
        match GetUserCache (data s) (userName clientContext) with
        | None => Thrown s [] "User record unavailable"
        | Some user =>
            let userCharacterUid := user_characterUid user in
            let s :=
              set_clients
                (<[clientId := set_characterUid userCharacterUid clientContext]> (_clients s))
                s in
            match GetCharacter (data s) userCharacterUid with
            | None => Thrown s [] "Character record unavailable"
            | Some character =>
                let '(d, thrown) := read_character_records character (data s) in
                let s := set_data d s in
                match thrown with
                | Some what => Thrown s [] what
                | None =>
                    if negb (GetHorseCache (data s) (mountUid character))
                    then Thrown s [] "Horse mount record unavailable"
                    else
                      Returned s
                        [(clientId, SetCode); (clientId, LobbyCommandLoginOK);
                         (clientId, AcCmdLCSkillCardPresetList)]
                end
            end
        end
  end.

(** [LobbyNetworkHandler::AcceptLogin]: the client is marked authenticated
    and sent to the character creator or the login-ok; an exception on the
    way, for a client that is gone or a record that is missing, is
    swallowed, and what was written before it stays. *)
Definition AcceptLogin (clientId : ClientId) (sendToCharacterCreator : bool) (s : State)
  : State * list (ClientId * Command) :=
  match _clients s !! clientId with
  | None => (s, [])
  | Some clientContext =>
      let s :=
        set_clients (<[clientId := set_isAuthenticated true clientContext]> (_clients s)) s in
      if sendToCharacterCreator then (s, SendCreateNicknameNotify clientId)
      else
        match SendLoginOK clientId s with
        | Returned s sent | Thrown s sent _ => (s, sent)
        | Aborted => (s, [])
        end
  end.

(** *** Login queue of the director *)

(** [_clientLogins[clientId]]. *)
Definition login_ref (clientId : ClientId) (s : State) : QueuedLogin * State :=
  match _clientLogins s !! clientId with
  | Some l => (l, s)
  | None =>
      (QueuedLogin_default,
       set_clientLogins (<[clientId := QueuedLogin_default]> (_clientLogins s)) s)
  end.

Definition put_login (clientId : ClientId) (l : QueuedLogin) (s : State) : State :=
  set_clientLogins (<[clientId := l]> (_clientLogins s)) s.

(** How one pass through a [while] body ends. *)
Inductive Flow : Type :=
| Continue (s : State)
| Break (s : State) (sent : list (ClientId * Command))
| Return (s : State) (sent : list (ClientId * Command))
| AssertFailed.

(** One pass through the loop over [_loginResponseQueue]. *)
Definition response_pass (s : State) : Flow :=
  match _loginResponseQueue s with
  | [] => Break s []
  | clientId :: rest =>
      let '(loginContext, s) := login_ref clientId s in
      if userCharacterLoadRequested loginContext
         && AreDataBeingLoaded (data s) (ql_userName loginContext)
      then Continue s
      else
        match GetUser (data s) (ql_userName loginContext) with
        | None => AssertFailed
        | Some user =>
            let characterUid := user_characterUid user in
            let hasCharacter := negb (characterUid =? InvalidUid) in
            if hasCharacter && negb (userCharacterLoadRequested loginContext)
            then
              let s :=
                set_data
                  (RequestLoadCharacterData (ql_userName loginContext) characterUid (data s)) s in
              Continue
                (put_login clientId
                   (mkQueuedLogin (ql_userName loginContext) (userToken loginContext)
                      (userLoadRequested loginContext) true) s)
            else
              let s := set_loginResponseQueue rest s in
              let forcedCharacterCreator :=
                bool_decide (characterUid ∈ _charactersForcedIntoCreator s) in
              let s :=
                set_charactersForcedIntoCreator
                  (_charactersForcedIntoCreator s ∖ {[characterUid]}) s in
              if negb hasCharacter || forcedCharacterCreator
              then
                let '(s, sent) := AcceptLogin clientId true s in
                Return s sent
              else if negb (AreCharacterDataLoaded (data s) (ql_userName loginContext))
              then Break s (RejectLogin clientId Generic s)
              else
                match _userInstances s !! ql_userName loginContext with
                | Some _ => Return s (RejectLogin clientId Duplicated s)
                | None =>
                    let '(s, sent) := AcceptLogin clientId false s in
                    let userInstance :=
                      mkUserInstance (ql_userName loginContext) characterUid 0 in
                    let s :=
                      set_userInstances
                        (<[ql_userName loginContext := userInstance]> (_userInstances s)) s in
                    Break (set_clientLogins (delete clientId (_clientLogins s)) s) sent
                end
        end
  end.

(** One pass through the loop over [_loginRequestQueue]. *)
Definition request_pass (s : State) : Flow :=
  match _loginRequestQueue s with
  | [] => Break s []
  | clientId :: rest =>
      let '(loginContext, s) := login_ref clientId s in
      if negb (userLoadRequested loginContext)
      then
        let s := set_data (RequestLoadUserData (ql_userName loginContext) (data s)) s in
        Continue
          (put_login clientId
             (mkQueuedLogin (ql_userName loginContext) (userToken loginContext) true
                (userCharacterLoadRequested loginContext)) s)
      else if AreDataBeingLoaded (data s) (ql_userName loginContext)
      then Continue s
      else
        let s := set_loginRequestQueue rest s in
        if negb (AreUserDataLoaded (data s) (ql_userName loginContext))
        then Break s (RejectLogin clientId Generic s)
        else
          match GetUser (data s) (ql_userName loginContext) with
          | None => AssertFailed
          | Some user =>
              let isAuthenticated := String.eqb (token user) (userToken loginContext) in
              if negb isAuthenticated
              then Break s (RejectLogin clientId InvalidUser s)
              else if preventServerJoining (ql_userName loginContext)
              then Break s (RejectLogin clientId DisconnectYourself s)
              else Break (set_loginResponseQueue (_loginResponseQueue s ++ [clientId]) s) []
          end
  end.

(** A [while] loop: passes are made until one breaks or returns.  A pass
    that ends in [continue] with the data still being loaded repeats as it
    is, so the loop is run on fuel; [None] is a loop that is still spinning
    when the fuel is used up. *)
Fixpoint while (pass : State -> Flow) (fuel : nat) (s : State) : option Flow :=
  match fuel with
  | O => None
  | S fuel' =>
      match pass s with
      | Continue s' => while pass fuel' s'
      | flow => Some flow
      end
  end.

(** [LobbyDirector::QueueClientConnect], [QueueClientLogin],
    [QueueClientLogout] and [QueueClientDisconnect]. *)
Definition QueueClientConnect (clientId : ClientId) (s : State) : State :=
  match _clientLogins s !! clientId with
  | Some _ => s
  | None => set_clientLogins (<[clientId := QueuedLogin_default]> (_clientLogins s)) s
  end.

Definition QueueClientLogin (clientId : ClientId) (name tok : string) (s : State) : State :=
  match _clientLogins s !! clientId with
  | None => s
  | Some l =>
      let l := mkQueuedLogin name tok (userLoadRequested l) (userCharacterLoadRequested l) in
      set_loginRequestQueue (_loginRequestQueue s ++ [clientId]) (put_login clientId l s)
  end.

Definition QueueClientLogout (clientId : ClientId) (name : string) (s : State) : State :=
  set_userInstances (delete name (_userInstances s)) s.

Definition QueueClientDisconnect (clientId : ClientId) (s : State) : State :=
  let s :=
    set_loginRequestQueue
      (List.filter (fun c => negb (c =? clientId)) (_loginRequestQueue s)) s in
  let s :=
    set_loginResponseQueue
      (List.filter (fun c => negb (c =? clientId)) (_loginResponseQueue s)) s in
  set_clientLogins (delete clientId (_clientLogins s)) s.

Definition run_task (t : Task) (s : State) : State :=
  match t with
  | QueueClientConnectTask clientId => QueueClientConnect clientId s
  | QueueClientLoginTask clientId name tok => QueueClientLogin clientId name tok s
  | ClientDisconnectedTask authenticated clientId name =>
      QueueClientDisconnect clientId
        (if authenticated then QueueClientLogout clientId name s else s)
  end.

(** Modelled from the spec: the scheduler is declared outside the sources;
    the tasks queued without a delay run, in order, on the next tick. *)
Definition scheduler_Tick (s : State) : State :=
  fold_left (fun s t => run_task t s) (_scheduler s) (set_scheduler [] s).

(** How [Tick] ends: it returns, or a record it needs is not there. *)
Inductive TickOutcome : Type :=
| Ticked (s : State) (sent : list (ClientId * Command))
| TickAssertFailed.

(** [LobbyDirector::Tick]: the response queue, then the request queue, then
    the scheduler.  A [return] in the response loop leaves [Tick] at once. *)
Definition Tick (fuel : nat) (s : State) : option TickOutcome :=
  match while response_pass fuel s with
  | None => None
  | Some (Return s sent) => Some (Ticked s sent)
  | Some AssertFailed => Some TickAssertFailed
  | Some (Continue _) => None
  | Some (Break s sent) =>
      match while request_pass fuel s with
      | None => None
      | Some (Return s sent') => Some (Ticked s (sent ++ sent'))
      | Some AssertFailed => Some TickAssertFailed
      | Some (Continue _) => None
      | Some (Break s sent') => Some (Ticked (scheduler_Tick s) (sent ++ sent'))
      end
  end.

(** The head of the request queue is a connected client whose user record
    has finished loading. *)
Definition request_head_loaded (s : State) (clientId : ClientId) (rest : list ClientId)
  (login : QueuedLogin) (user : User) : Prop :=
  _loginRequestQueue s = clientId :: rest
  /\ _clientLogins s !! clientId = Some login
  /\ userLoadRequested login = true
  /\ AreDataBeingLoaded (data s) (ql_userName login) = false
  /\ AreUserDataLoaded (data s) (ql_userName login) = true
  /\ GetUser (data s) (ql_userName login) = Some user
  /\ is_Some (_clients s !! clientId).

(** The head of the response queue is a connected client whose character
    has finished loading and is not sent to the character creator. *)
Definition response_head_loaded (s : State) (clientId : ClientId) (rest : list ClientId)
  (login : QueuedLogin) (user : User) : Prop :=
  _loginResponseQueue s = clientId :: rest
  /\ _clientLogins s !! clientId = Some login
  /\ userCharacterLoadRequested login = true
  /\ AreDataBeingLoaded (data s) (ql_userName login) = false
  /\ GetUser (data s) (ql_userName login) = Some user
  /\ user_characterUid user <> InvalidUid
  /\ (user_characterUid user ∉ _charactersForcedIntoCreator s)
  /\ AreCharacterDataLoaded (data s) (ql_userName login) = true
  /\ is_Some (_clients s !! clientId).

End WithDataDirector.

(** An in-memory data director, for running the login queue on examples:
    the records that exist are loaded, and a load request completes at
    once. *)
Record MemoryData : Type := mkMemoryData {
  users : gmap string User;
  charactersLoaded : gset string;
  characters : gmap Z Character;
  guilds : gmap Z Guild;
  records : gset Z
}.

(** The user cache holds the user records; [records] are the uids of the
    items, pets, settings and horses that exist; a fetch into the character
    cache changes nothing. *)
#[global] Instance MemoryData_director : DataDirector MemoryData := {
  AreDataBeingLoaded _ _ := false;
  AreUserDataLoaded m n := bool_decide (is_Some (users m !! n));
  AreCharacterDataLoaded m n := bool_decide (n ∈ charactersLoaded m);
  RequestLoadUserData _ m := m;
  RequestLoadCharacterData n _ m :=
    mkMemoryData (users m) ({[n]} ∪ charactersLoaded m) (characters m) (guilds m) (records m);
  GetUser m n := users m !! n;
  GetUserCache m n := users m !! n;
  GetCharacter m uid := characters m !! uid;
  GetGuild m uid := guilds m !! uid;
  GetPet m uid := bool_decide (uid ∈ records m);
  GetItemCache m uids := forallb (fun uid => bool_decide (uid ∈ records m)) uids;
  GetSettingsCache m uid := bool_decide (uid ∈ records m);
  GetHorseCache m uid := bool_decide (uid ∈ records m);
  GetCharacterCache _ m := m
}.

End Lobby.

(** ** Example data

    A registry with two game modes and three maps, a room with two players,
    and the race director of that room before and during a race. *)

Module Examples.

Import RaceDirector.

Definition speed : GameModeInfo :=
  {| starPointsMax := 40000; spurConsumeStarPoints := 10000;
     perfectJumpMaxBonusCombo := 5; perfectJumpStarPoints := 1000;
     perfectJumpUnitStarPoints := 200; goodJumpStarPoints := 500;
     mapPool := [1; 2; 3]; usedDeckItemIds := [101; 102] |}.

Definition magic : GameModeInfo :=
  {| starPointsMax := 40000; spurConsumeStarPoints := 0;
     perfectJumpMaxBonusCombo := 0; perfectJumpStarPoints := 4000;
     perfectJumpUnitStarPoints := 0; goodJumpStarPoints := 2000;
     mapPool := [3]; usedDeckItemIds := [] |}.

Definition reg : CourseRegistry :=
  {| GetCourseGameModeInfo m :=
       if m =? 1 then Some speed else if m =? 2 then Some magic else None;
     GetMapBlockInfo id :=
       if id =? 1 then Some (mkMapBlockInfo 1 300 3 [101])
       else if id =? 2 then Some (mkMapBlockInfo 5 300 3 [101; 102])
       else if id =? 3 then Some (mkMapBlockInfo 10 300 3 [])
       else None |}.

(** Every character is of level 5. *)
Definition characterLevel (characterUid : Z) : Z := 5.

(** A team room for four on course 2; characters 42 and 43 are in. *)
Definition details : RoomSystem.Details :=
  RoomSystem.mkDetails "room" "" 7 2 4 RoomSystem.Speed RoomSystem.TeamMode_Team false 0.

Definition room : RoomSystem.Room :=
  RoomSystem.mkRoom details 1 ∅
    (<[42 := RoomSystem.mkPlayer true RoomSystem.Red]>
       (<[43 := RoomSystem.mkPlayer true RoomSystem.Blue]> ∅))
    false.

Definition master : ClientContext := mkClientContext 42 1 true.
Definition guest : ClientContext := mkClientContext 43 1 true.

(** Client 7 is the master of room 1, client 8 the other player; the
    instance is waiting. *)
Definition waiting : Director :=
  {| _clients := <[7 := master]> (<[8 := guest]> ∅);
     _raceInstances :=
       <[1 := mkRoomInstance Stage.Waiting 0 42 RaceTracker_new 0 0 0 0 0 {[7; 8]}]> ∅;
     rooms := <[1 := room]> ∅;
     _scheduler := [] |}.

(** The same room set to the pseudo-course "all maps". *)
Definition details_all_maps : RoomSystem.Details :=
  RoomSystem.mkDetails "room" "" 7 10000 4 RoomSystem.Speed RoomSystem.TeamMode_Team false 0.

Definition waiting_all_maps : Director :=
  set_rooms
    (<[1 := RoomSystem.mkRoom details_all_maps 1 ∅ (RoomSystem._players room) false]> ∅)
    waiting.

(** A registry whose speed mode has no map pool. *)
Definition reg_no_pool : CourseRegistry :=
  {| GetCourseGameModeInfo m :=
       if m =? 1
       then Some (mkGameModeInfo 40000 10000 5 1000 200 500 [] [101; 102])
       else None;
     GetMapBlockInfo := GetMapBlockInfo reg |}.

Definition racer42 : Racer :=
  mkRacer 1 State.Racing Team.Red 0 0 uint32_max None ∅ false InvalidEntityOid.

Definition racer43 : Racer :=
  mkRacer 2 State.Racing Team.Blue 30000 3 uint32_max (Some 4) ∅ false InvalidEntityOid.

Definition racing_instance : RoomInstance :=
  mkRoomInstance Stage.Racing (seconds 300) 42
    (mkRaceTracker 3 (<[42 := racer42]> (<[43 := racer43]> ∅)) 1 ∅)
    1 1 2 7 (seconds 3) {[7; 8]}.

(** The same room in a race: racer 42 has an empty gauge and no item,
    racer 43 has 30000 star points, a combo of 3 and a shield. *)
Definition racing : Director :=
  {| _clients := <[7 := master]> (<[8 := guest]> ∅);
     _raceInstances := <[1 := racing_instance]> ∅;
     rooms := <[1 := RoomSystem.SetRoomPlaying true room]> ∅;
     _scheduler := [] |}.

(** *** The lobby of the examples

    Users alice (token T, character 42) and bob (token S, no character);
    character 42 wears item 501, rides horse 600 and is a member of guild
    9, which character 41 owns; client 3 has connected, client 4 is logged
    in as carol. *)

Definition memory : Lobby.MemoryData :=
  {| Lobby.users :=
       <["alice"%string := Lobby.mkUser "T" 42]> (<["bob"%string := Lobby.mkUser "S" 0]> ∅);
     Lobby.charactersLoaded := {["alice"%string]};
     Lobby.characters := <[42 := Lobby.mkCharacter 42 [501] [] 9 0 0 600]> ∅;
     Lobby.guilds := <[9 := Lobby.mkGuild 41 [] [41; 42]]> ∅;
     Lobby.records := {[501; 600]} |}.

Definition carol : Lobby.ClientContext := Lobby.mkClientContext true false "carol" 44 0.

Definition lobby : Lobby.State :=
  {| Lobby._clients := <[3 := Lobby.ClientContext_default]> (<[4 := carol]> ∅);
     Lobby._clientLogins := <[3 := Lobby.QueuedLogin_default]> ∅;
     Lobby._userInstances := <["carol"%string := Lobby.mkUserInstance "carol" 44 0]> ∅;
     Lobby._charactersForcedIntoCreator := ∅;
     Lobby._loginRequestQueue := [];
     Lobby._loginResponseQueue := [];
     Lobby._scheduler := [];
     Lobby.data := memory |}.

(** Nobody is banned. *)
Definition nobody_banned (userName : string) : bool := false.

(** The lobby with the login of client 3 as alice at the head of the
    request queue, the user record loaded; [tok] is the submitted token. *)
Definition lobby_with_request (tok : string) : Lobby.State :=
  Lobby.set_loginRequestQueue [3]
    (Lobby.set_clientLogins (<[3 := Lobby.mkQueuedLogin "alice" tok true false]> ∅) lobby).

(** The lobby with client 3 at the head of the response queue as alice,
    the character loaded, while alice is in [_userInstances] already. *)
Definition lobby_with_response : Lobby.State :=
  Lobby.set_loginResponseQueue [3]
    (Lobby.set_userInstances
       (<["alice"%string := Lobby.mkUserInstance "alice" 42 0]> (Lobby._userInstances lobby))
       (Lobby.set_clientLogins (<[3 := Lobby.mkQueuedLogin "alice" "T" true true]> ∅) lobby)).

End Examples.

(** ** XOR codec (prototype sources, [namespace alicia]) *)

Module XorCodec.

(** The [control] array of [xor_codec_cpp]. *)
Definition control : list Z := [203; 145; 1; 162].

(** [xor_codec_cpp(buffer)]: the byte at [idx] is xored with
    [control[idx % 4]].  A buffer is a list of bytes, each a [Z] below 256;
    the function stands for the buffer after the in-place loop. *)
Definition xor_codec_cpp (buffer : list Z) : list Z :=
  imap (fun idx b => Z.lxor b (default 0 (control !! (idx mod 4)%nat))) buffer.

(** A buffer of [std::byte]. *)
Definition is_bytes (buffer : list Z) : Prop := Forall (fun b => 0 <= b < 256) buffer.

End XorCodec.

(** ** Room players and the room registry ([server::Room], [server::RoomSystem]) *)

Module RoomRegistry.

Import RoomSystem.

(** [Room::GetPlayer]: [None] stands for the exception
    "Room player does not exist". *)
Definition GetPlayer (characterUid : Z) (r : Room) : option Player :=
  _players r !! characterUid.

(** The difference of the two team counters that [AddPlayer] compares. *)
Definition team_difference (r : Room) : Z :=
  Z.of_nat (fst (teamCounts (_players r))) - Z.of_nat (snd (teamCounts (_players r))).

(** [RoomSystem]: the uid sequence and the rooms.  The mutexes are not
    modelled. *)
Record RoomSystem : Type := mkRoomSystem {
  _sequencedId : Z;
  _rooms : gmap Z Room
}.

(** How a member function of the registry ends: it returns, it throws, or
    an [assert] fails. *)
Inductive Result (A : Type) : Type :=
| Ok (a : A)
| Throw (what : string)
| AssertionFailed.

Arguments Ok {A} a.
Arguments Throw {A} what.
Arguments AssertionFailed {A}.

Definition room_does_not_exist : string := "Room does not exist".


(** [RoomSystem::GetRoom(uid, consumer)]. *)
Definition GetRoom (uid : Z) (consumer : Room -> Room) (rs : RoomSystem)
  : Result RoomSystem :=
  match _rooms rs !! uid with
  | None => Throw room_does_not_exist
  | Some room =>
      Ok {| _sequencedId := _sequencedId rs; _rooms := <[uid := consumer room]> (_rooms rs) |}
  end.

(** [RoomSystem::RoomExists]. *)
Definition RoomExists (uid : Z) (rs : RoomSystem) : bool :=
  bool_decide (is_Some (_rooms rs !! uid)).

(** [RoomSystem::DeleteRoom]. *)
Definition DeleteRoom (uid : Z) (rs : RoomSystem) : Result RoomSystem :=
  match _rooms rs !! uid with
  | None => Throw room_does_not_exist
  | Some _ => Ok {| _sequencedId := _sequencedId rs; _rooms := delete uid (_rooms rs) |}
  end.









End RoomRegistry.

(** ** Race director: the handlers around a race *)

Module RaceRoom.

Import RaceDirector.


Definition set_clients (v : gset ClientId) (i : RoomInstance) : RoomInstance :=
  mkRoomInstance (stage i) (stageTimeoutTimePoint i) (masterUid i) (tracker i) (raceGameMode i)
    (raceTeamMode i) (raceMapBlockId i) (raceMissionId i) (raceStartTimePoint i) v.

Definition set_masterUid (v : Z) (i : RoomInstance) : RoomInstance :=
  mkRoomInstance (stage i) (stageTimeoutTimePoint i) v (tracker i) (raceGameMode i)
    (raceTeamMode i) (raceMapBlockId i) (raceMissionId i) (raceStartTimePoint i) (clients i).

Definition set_director_clients (m : gmap ClientId ClientContext) (d : Director) : Director :=
  mkDirector m (_raceInstances d) (rooms d) (_scheduler d).

Definition set_roomUid (v : Z) (c : ClientContext) : ClientContext :=
  mkClientContext (characterUid c) v (isAuthenticated c).

(** A value-initialised [ClientContext]. *)
Definition ClientContext_default : ClientContext :=
  {| characterUid := InvalidUid; roomUid := InvalidUid; isAuthenticated := false |}.

(** The course time under which the finishing loop of [Tick] files a racer
    on the score board: a disconnected racer counts with the largest
    32-bit value. *)
Definition scored_time (racer : Racer) : Z :=
  if in_state State.Disconnected racer then uint32_max else courseTime racer.

(** One [try_emplace] of the loop that fills the score board. *)
Definition file_score (board : gmap Z Z) (entry : Z * Racer) : gmap Z Z :=
  RoomSystem.try_emplace (scored_time (snd entry)) (fst entry) board.

(** [RaceDirector::GetClientIdByCharacterUid]: the first client, in the
    iteration order of [_clients], that is authenticated as the character;
    [None] stands for the exception. *)
Definition GetClientIdByCharacterUid (uid : Z) (d : Director) : option ClientId :=
  fst <$> List.find
            (fun entry => (characterUid (snd entry) =? uid) && isAuthenticated (snd entry))
            (map_to_list (_clients d)).

Definition no_client_of_character : string := "Character not associated with any client".

(** Modelled from the spec: [protocol::TeamColor] is declared outside the
    sources, which name its enumerators [None], [Red] and [Blue]. *)
Inductive TeamColor : Type :=
| TeamColor_None | TeamColor_Red | TeamColor_Blue
| TeamColor_other (value : Z).

Record AcCmdCRChangeTeam : Type := mkChangeTeam {
  ct_characterOid : Z;
  teamColor : TeamColor
}.

Record AcCmdCRStartingRate : Type := mkStartingRate {
  sr_characterOid : Z;
  unk1 : Z;
  boostGained : Z
}.

(** The clientbound commands these handlers queue. *)
Inductive Command : Type :=
| AcCmdCRLoadingCompleteNotify (oid : Z)
| AcCmdUserRaceFinalNotify (oid : Z) (courseTime : Z)
| AcCmdCRReadyRaceNotify (characterUid : Z) (isReady : bool)
| AcCmdCRChangeTeamOK (characterOid : Z) (color : TeamColor)
| AcCmdCRChangeTeamNotify (characterOid : Z) (color : TeamColor)
| AcCmdCRLeaveRoomOK
| AcCmdCRLeaveRoomNotify (characterId : Z) (unk0 : Z)
| AcCmdCRChangeMasterNotify (masterUid : Z).

(** How one of these handlers ends: it returns, or it throws with the
    state and the queued commands as they were at the [throw]. *)
Inductive Outcome : Type :=
| Returned (d : Director) (sent : list (ClientId * Command))
| Thrown (d : Director) (sent : list (ClientId * Command)) (what : string).

Definition director_after (o : Outcome) : Director :=
  match o with Returned d _ | Thrown d _ _ => d end.

Definition sent_by (o : Outcome) : list (ClientId * Command) :=
  match o with Returned _ sent | Thrown _ sent _ => sent end.

(** A command queued for every client of the room, in the iteration order
    of the client set. *)
Definition to_clients (cs : gset ClientId) (c : Command) : list (ClientId * Command) :=
  (fun raceClientId => (raceClientId, c)) <$> elements cs.

(** [RaceDirector::HandleClientConnected]. *)
Definition HandleClientConnected (clientId : ClientId) (d : Director) : Director :=
  set_director_clients (RoomSystem.try_emplace clientId ClientContext_default (_clients d)) d.



Definition room_player_does_not_exist : string := "Room player does not exist".


(** The loop of [HandleChangeTeam] over the players of the room: every
    player but the one of the command is looked up among the clients and
    notified; a player without a client ends the loop with an exception. *)
Fixpoint notify_others (d : Director) (skip : Z) (c : Command) (characterUids : list Z)
  (sent : list (ClientId * Command))
  : list (ClientId * Command) + list (ClientId * Command) :=
  match characterUids with
  | [] => inl sent
  | characterUid :: rest =>
      if characterUid =? skip then notify_others d skip c rest sent
      else
        match GetClientIdByCharacterUid characterUid d with
        | None => inr sent
        | Some roomPlayerClientId =>
            notify_others d skip c rest (sent ++ [(roomPlayerClientId, c)])
        end
  end.

(** [RaceDirector::HandleChangeTeam].  The player is looked up in the room
    under the [characterOid] of the command. *)
Definition HandleChangeTeam (clientId : ClientId) (command : AcCmdCRChangeTeam) (d : Director)
  : Outcome :=
  match GetClientContext clientId true d with
  | inr what => Thrown d [] what
  | inl clientContext =>
      match rooms d !! roomUid clientContext with
      | None => Thrown d [] RoomRegistry.room_does_not_exist
      | Some room =>
          match RoomRegistry.GetPlayer (ct_characterOid command) room with
          | None => Thrown d [] room_player_does_not_exist
          | Some player =>
              let player :=
                match teamColor command with
                | TeamColor_Red => RoomSystem.SetTeam RoomSystem.Red player
                | TeamColor_Blue => RoomSystem.SetTeam RoomSystem.Blue player
                | _ => player
                end in
              let room :=
                RoomSystem.set_players
                  (<[ct_characterOid command := player]> (RoomSystem._players room)) room in
              let d := set_rooms (<[roomUid clientContext := room]> (rooms d)) d in
              let response :=
                [(clientId, AcCmdCRChangeTeamOK (ct_characterOid command) (teamColor command))] in
              match
                notify_others d (ct_characterOid command)
                  (AcCmdCRChangeTeamNotify (ct_characterOid command) (teamColor command))
                  (fst <$> map_to_list (RoomSystem._players room)) response
              with
              | inl sent => Returned d sent
              | inr sent => Thrown d sent no_client_of_character
              end
          end
      end
  end.

(** [RaceDirector::HandleLeaveRoom].  The log line, which reads the name
    of the character from the data director, is not modelled. *)
Definition HandleLeaveRoom (clientId : ClientId) (d : Director) : Outcome :=
  match GetClientContext clientId true d with
  | inr what => Thrown d [] what
  | inl clientContext =>
      if roomUid clientContext =? 0 then Returned d []
      else
        let '(raceInstance, d) := instance_ref (roomUid clientContext) d in
        let raceInstance :=
          match GetRacer (characterUid clientContext) (tracker raceInstance) with
          | Some racer =>
              put_racer (characterUid clientContext) (set_state State.Disconnected racer)
                raceInstance
          | None => raceInstance
          end in
        let raceInstance := set_clients (clients raceInstance ∖ {[clientId]}) raceInstance in
        let d := put_instance (roomUid clientContext) raceInstance d in
        match rooms d !! roomUid clientContext with
        | None => Thrown d [] RoomRegistry.room_does_not_exist
        | Some room =>
            let room := RoomSystem.RemovePlayer (characterUid clientContext) room in
            let d := set_rooms (<[roomUid clientContext := room]> (rooms d)) d in
            let wasMaster := masterUid raceInstance =? characterUid clientContext in
            let sent :=
              (fun raceClientId =>
                 (raceClientId, AcCmdCRLeaveRoomNotify (characterUid clientContext) 1))
              <$> filter (fun raceClientId => raceClientId <> clientId)
                    (elements (clients raceInstance)) in
            let nextMasterUid :=
              default InvalidUid (head (fst <$> map_to_list (RoomSystem._players room))) in
            let handover := wasMaster && negb (nextMasterUid =? InvalidUid) in
            let raceInstance :=
              if handover then set_masterUid nextMasterUid raceInstance else raceInstance in
            let d := put_instance (roomUid clientContext) raceInstance d in
            let sent :=
              if handover
              then sent ++ to_clients (clients raceInstance)
                             (AcCmdCRChangeMasterNotify (masterUid raceInstance))
              else sent in
            let d :=
              if bool_decide (clients raceInstance = ∅)
              then
                set_raceInstances (delete (roomUid clientContext) (_raceInstances d))
                  (set_rooms (delete (roomUid clientContext) (rooms d)) d)
              else d in
            let d :=
              set_director_clients
                (<[clientId := set_roomUid InvalidUid clientContext]> (_clients d)) d in
            Returned d (sent ++ [(clientId, AcCmdCRLeaveRoomOK)])
        end
  end.

(** [RaceDirector::HandleClientDisconnected]. *)
Definition HandleClientDisconnected (clientId : ClientId) (d : Director) : Outcome :=
  match GetClientContext clientId false d with
  | inr what => Thrown d [] what
  | inl clientContext =>
      let left :=
        if isAuthenticated clientContext
           && bool_decide (is_Some (_raceInstances d !! roomUid clientContext))
        then HandleLeaveRoom clientId d
        else Returned d [] in
      match left with
      | Returned d sent =>
          Returned (set_director_clients (delete clientId (_clients d)) d) sent
      | Thrown d sent what => Thrown d sent what
      end
  end.

(** [RaceDirector::HandleStartingRate]. *)
Definition HandleStartingRate (reg : CourseRegistry) (clientId : ClientId)
  (command : AcCmdCRStartingRate) (d : Director) : RaceDirector.Outcome :=
  if (unk1 command <? 1) && (boostGained command <? 1) then RaceDirector.Returned d []
  else
    match GetClientContext clientId true d with
    | inr what => RaceDirector.Thrown d [] what
    | inl clientContext =>
        let '(raceInstance, d) := instance_ref (roomUid clientContext) d in
        match GetRacer (characterUid clientContext) (tracker raceInstance) with
        | None => RaceDirector.Thrown d [] no_such_racer
        | Some racer =>
            if negb (sr_characterOid command =? oid racer)
            then RaceDirector.Thrown d [] different_racer
            else
              match GetCourseGameModeInfo reg (u8 (raceGameMode raceInstance)) with
              | None => RaceDirector.Thrown d [] no_such_game_mode
              | Some gameModeTemplate =>
                  let racer :=
                    set_starPointValue
                      (Z.min (u32 (starPointValue racer + boostGained command))
                             (starPointsMax gameModeTemplate))
                      racer in
                  let raceInstance :=
                    put_racer (characterUid clientContext) racer raceInstance in
                  RaceDirector.Returned (put_instance (roomUid clientContext) raceInstance d)
                    [(clientId,
                      AcCmdCRStarPointGetOK (sr_characterOid command) (starPointValue racer)
                        false)]
              end
        end
    end.

End RaceRoom.

(** ** Lobby: connections *)

Module LobbyConnections.

Import Lobby.

Section WithLobby.

Context {D : Type}.

Definition lobby_client_not_available : string := "Lobby client is not available".

(** [LobbyNetworkHandler::HandleClientConnected]: the client gets a
    context, and the director is told on its next tick. *)
Definition HandleClientConnected (clientId : ClientId) (s : @State D) : State :=
  let s :=
    set_clients (RoomSystem.try_emplace clientId ClientContext_default (_clients s)) s in
  set_scheduler (_scheduler s ++ [QueueClientConnectTask clientId]) s.

(** [LobbyNetworkHandler::HandleClientDisconnected]: the task captures
    whether the client is authenticated and its user name, then the
    context is erased. *)
Definition HandleClientDisconnected (clientId : ClientId) (s : @State D) : Outcome :=
  match _clients s !! clientId with
  | None => Thrown s [] lobby_client_not_available
  | Some clientContext =>
      let s :=
        set_scheduler
          (_scheduler s
           ++ [ClientDisconnectedTask (isAuthenticated clientContext) clientId
                 (userName clientContext)])
          s in
      Returned (set_clients (delete clientId (_clients s)) s) []
  end.

End WithLobby.

End LobbyConnections.

(** ** Further examples *)

Module RaceExamples.

Import RaceDirector RaceRoom.

(** The race of the examples while it loads on map 2: racer 42 has loaded,
    racer 43 has not; the loading timeout is at 30 seconds. *)
Definition loading_instance : RoomInstance :=
  mkRoomInstance Stage.Loading (seconds 30) 42
    (mkRaceTracker 3
       (<[42 := Examples.racer42]> (<[43 := set_state State.Loading Examples.racer43]> ∅)) 1 ∅)
    1 1 2 7 0 {[7; 8]}.

Definition loading : Director :=
  {| _clients := <[7 := Examples.master]> (<[8 := Examples.guest]> ∅);
     _raceInstances := <[1 := loading_instance]> ∅;
     rooms := <[1 := RoomSystem.SetRoomPlaying true Examples.room]> ∅;
     _scheduler := [] |}.

(** The same race on a map block that the registry does not have. *)
Definition lost_instance : RoomInstance := set_raceMapBlockId 9 loading_instance.


(** A room with the master alone: client 7, character 42. *)
Definition alone : Director :=
  {| _clients := <[7 := Examples.master]> ∅;
     _raceInstances :=
       <[1 := mkRoomInstance Stage.Waiting 0 42 RaceTracker_new 0 0 0 0 0 {[7]}]> ∅;
     rooms :=
       <[1 := RoomSystem.mkRoom Examples.details 1 ∅
                (<[42 := RoomSystem.mkPlayer false RoomSystem.Red]> ∅) false]> ∅;
     _scheduler := [] |}.

End RaceExamples.

Module LobbyExamples.

Import Lobby.

(** The lobby of the examples with client 3, which gave the login id
    alice, at the head of the response queue, its character loaded. *)
Definition alice_at_response : State :=
  set_loginResponseQueue [3]
    (set_clientLogins (<[3 := mkQueuedLogin "alice" "T" true true]> ∅)
       (set_clients
          (<[3 := set_userName "alice" ClientContext_default]> (_clients Examples.lobby))
          Examples.lobby)).

(** The same for bob, who has no character. *)
Definition bob_at_response : State :=
  set_loginResponseQueue [3]
    (set_clientLogins (<[3 := mkQueuedLogin "bob" "S" true false]> ∅)
       (set_clients
          (<[3 := set_userName "bob" ClientContext_default]> (_clients Examples.lobby))
          Examples.lobby)).

End LobbyExamples.

(** * Proofs *)

(** ** Bits of machine integers *)

Section Bits.

Lemma testbit_u16 z n : Z.testbit (u16 z) n = (n <? 16) && Z.testbit z n.
Proof.
  unfold u16. destruct (Z.ltb_spec n 16) as [H|H]; cbn [andb].
  - destruct (Z.ltb_spec n 0) as [Hn|Hn].
    + now rewrite !Z.testbit_neg_r.
    + now apply Z.mod_pow2_bits_low.
  - apply Z.mod_pow2_bits_high. lia.
Qed.

Lemma testbit_u32 z n : Z.testbit (u32 z) n = (n <? 32) && Z.testbit z n.
Proof.
  unfold u32. destruct (Z.ltb_spec n 32) as [H|H]; cbn [andb].
  - destruct (Z.ltb_spec n 0) as [Hn|Hn].
    + now rewrite !Z.testbit_neg_r.
    + now apply Z.mod_pow2_bits_low.
  - apply Z.mod_pow2_bits_high. lia.
Qed.

Lemma testbit_shiftl a k n :
  Z.testbit (Z.shiftl a k) n = (0 <=? n) && Z.testbit a (n - k).
Proof.
  destruct (Z.leb_spec 0 n); cbn [andb];
    [now apply Z.shiftl_spec | now apply Z.testbit_neg_r].
Qed.

Lemma testbit_shiftr a k n :
  Z.testbit (Z.shiftr a k) n = (0 <=? n) && Z.testbit a (n + k).
Proof.
  destruct (Z.leb_spec 0 n); cbn [andb];
    [now apply Z.shiftr_spec | now apply Z.testbit_neg_r].
Qed.

Lemma testbit_lnot a n :
  Z.testbit (Z.lnot a) n = (0 <=? n) && negb (Z.testbit a n).
Proof.
  destruct (Z.leb_spec 0 n); cbn [andb];
    [now apply Z.lnot_spec | now apply Z.testbit_neg_r].
Qed.

Lemma testbit_above w z n :
  0 <= w -> 0 <= z < 2 ^ w -> w <= n -> Z.testbit z n = false.
Proof.
  intros Hw Hz Hn. rewrite <- (Z.mod_small z (2 ^ w)) by exact Hz.
  apply Z.mod_pow2_bits_high. lia.
Qed.

(** Two [w]-bit values with the same [w] low bits are equal; the bits are
    indexed by a [nat] so that a proof can go through them one by one. *)
Lemma eq_low_bits (w : nat) a b :
  0 <= a < 2 ^ Z.of_nat w -> 0 <= b < 2 ^ Z.of_nat w ->
  (forall k : nat, (k < w)%nat -> Z.testbit a (Z.of_nat k) = Z.testbit b (Z.of_nat k)) ->
  a = b.
Proof.
  intros Ha Hb H. apply Z.bits_inj'. intros n Hn.
  destruct (Z.lt_ge_cases n (Z.of_nat w)) as [Hlt|Hge].
  - rewrite <- (Z2Nat.id n) by exact Hn. apply H. lia.
  - rewrite (testbit_above (Z.of_nat w) a n), (testbit_above (Z.of_nat w) b n);
      auto; lia.
Qed.

End Bits.

Ltac is_pos_const p :=
  lazymatch p with
  | xH => idtac
  | xO ?q => is_pos_const q
  | xI ?q => is_pos_const q
  end.

Ltac is_Z_const z :=
  lazymatch z with
  | Z0 => idtac
  | Zpos ?p => is_pos_const p
  | Zneg ?p => is_pos_const p
  end.

(** Push [Z.testbit] through the operators of the codec. *)
Ltac push_testbit :=
  repeat first
    [ rewrite testbit_u16 | rewrite testbit_u32 | rewrite Z.land_spec
    | rewrite Z.lor_spec | rewrite Z.lxor_spec | rewrite testbit_shiftl
    | rewrite testbit_shiftr | rewrite testbit_lnot ].

(** Evaluate the index arithmetic, then the bits of the literals. *)
Ltac norm_indices :=
  repeat match goal with
  | |- context [Z.testbit ?a ?i] =>
      tryif is_Z_const i then fail
      else (let i' := eval compute in i in
            change (Z.testbit a i) with (Z.testbit a i'))
  end.

Ltac eval_const_bits :=
  repeat match goal with
  | |- context [Z.testbit ?c ?i] =>
      is_Z_const c; is_Z_const i;
      let v := eval compute in (Z.testbit c i) in
      change (Z.testbit c i) with v
  | |- context [Z.testbit ?a (Zneg ?p)] =>
      change (Z.testbit a (Zneg p)) with false
  end.

Ltac eval_const_tests :=
  repeat match goal with
  | |- context [?x <? ?y] =>
      let v := eval compute in (x <? y) in
      lazymatch v with
      | true => change (x <? y) with true
      | false => change (x <? y) with false
      end
  | |- context [?x <=? ?y] =>
      let v := eval compute in (x <=? y) in
      lazymatch v with
      | true => change (x <=? y) with true
      | false => change (x <=? y) with false
      end
  end.

Ltac bool_units :=
  cbn [andb orb xorb negb];
  repeat rewrite ?andb_false_r, ?andb_false_l, ?orb_false_r, ?orb_false_l,
                 ?andb_true_r, ?andb_true_l, ?orb_true_r, ?orb_true_l,
                 ?xorb_false_r, ?xorb_false_l.

Ltac blast_bit := push_testbit; norm_indices; eval_const_bits; eval_const_tests; bool_units.

(** Reduce an equation between two [w]-bit values to its [w] bits. *)
Ltac each_bit w :=
  apply (eq_low_bits w);
  [ try (apply Z.mod_pos_bound; reflexivity); try (cbn; lia)
  | try (apply Z.mod_pos_bound; reflexivity); try (cbn; lia)
  | let k := fresh "k" in
    let Hk := fresh "Hk" in
    intros k Hk;
    do 32 (try (destruct k as [|k]; [ clear Hk | apply PeanoNat.lt_S_n in Hk ]));
    try (exfalso; apply (PeanoNat.Nat.nlt_0_r _ Hk));
    cbn [Z.of_nat Pos.of_succ_nat Pos.succ] ].

(** ** Frame codec *)

Section FrameCodecProofs.

Import FrameCodec.

Lemma encode_low_bits id jumbo len bs :
  header_low_bits (encode_message_information id jumbo len bs) len.
Proof.
  unfold encode_message_information. cbv zeta.
  set (L := u32 (Z.lor (Z.shiftl bs 16) len)).
  assert (HL : forall n, 0 <= n < 16 -> Z.testbit L n = Z.testbit len n).
  { intros n Hn. unfold L. rewrite testbit_u32, Z.lor_spec, testbit_shiftl.
    rewrite (Z.testbit_neg_r bs) by lia.
    replace (n <? 32) with true by (symmetry; apply Z.ltb_lt; lia).
    now rewrite andb_false_r. }
  clearbody L.
  set (l2 := u32 (Z.lor (Z.land L 16383) (Z.shiftl L 14))).
  set (mid := u16 (Z.lor (Z.land jumbo 65535) (Z.land id 65535))).
  set (m := u16 _).
  assert (Hm : header_low_bits m len).
  { unfold header_low_bits, m, l2.
    repeat split; blast_bit; rewrite ?HL by lia; reflexivity. }
  clearbody m. unfold header_low_bits in *.
  repeat split; blast_bit; apply Hm.
Qed.

Lemma encode_marker_bit id jumbo len bs :
  Z.testbit (encode_message_information id jumbo len bs) 15 = true.
Proof. apply encode_low_bits. Qed.

Lemma decode_length_of_header data len :
  0 <= len < 2 ^ 14 -> header_low_bits data len -> decode_message_length data = len.
Proof.
  intros Hlen Hd.
  assert (Hhi : forall n, 14 <= n -> Z.testbit len n = false).
  { intros n Hn. apply (testbit_above 14); lia. }
  destruct Hd as (H0&H1&H2&H3&H4&H5&H6&H7&H8&H9&H10&H11&H12&H13&H14&H15).
  unfold decode_message_length. rewrite H15. cbv zeta.
  each_bit 32%nat; blast_bit;
    rewrite ?H0, ?H1, ?H2, ?H3, ?H4, ?H5, ?H6, ?H7, ?H8, ?H9, ?H10, ?H11, ?H12, ?H13;
    rewrite ?Hhi by lia; reflexivity.
Qed.

Lemma length_roundtrip id jumbo len bs :
  0 <= len < 2 ^ 14 ->
  decode_message_length (encode_message_information id jumbo len bs) = len.
Proof.
  intros Hlen. apply decode_length_of_header; [exact Hlen | apply encode_low_bits].
Qed.

Lemma jumbo_low_bits jumbo n :
  Z.land jumbo 16383 = 0 -> 0 <= n < 14 -> Z.testbit jumbo n = false.
Proof.
  intros Hj Hn.
  assert (Hb : Z.testbit (Z.land jumbo 16383) n = false)
    by (rewrite Hj; apply Z.testbit_0_l).
  rewrite Z.land_spec in Hb. change 16383 with (Z.ones 14) in Hb.
  rewrite Z.ones_spec_low in Hb by lia. now rewrite andb_true_r in Hb.
Qed.

Lemma id_roundtrip id jumbo len bs :
  0 <= id < 2 ^ 14 -> Z.land jumbo 16383 = 0 ->
  option_map fst (decode_message_information (encode_message_information id jumbo len bs))
  = Some id.
Proof.
  intros Hid Hj.
  assert (Hhi : forall n, 14 <= n -> Z.testbit id n = false).
  { intros n Hn. apply (testbit_above 14); lia. }
  pose proof (jumbo_low_bits jumbo) as Hjl.
  unfold decode_message_information. rewrite encode_marker_bit.
  cbv zeta. cbn [option_map fst]. f_equal.
  unfold encode_message_information. cbv zeta.
  set (X := Z.lor (Z.lor _ _) _). clearbody X.
  each_bit 16%nat; blast_bit; rewrite ?Hhi by lia; rewrite ?Hjl by (auto; lia); bool_units;
    repeat match goal with
    | |- context [Z.testbit ?a ?k] => destruct (Z.testbit a k)
    end; reflexivity.
Qed.

(** C1, as stated, fails on the code: a payload length of [0x4000] is within
    the claimed bound [0x7FFF] but comes back as [0] from either decoder, a
    message id of [0x4000] comes back as [0], and with the parameter order
    of the source, [encode_message_information(29, 7, 16384)] is
    [0x801F8000], not [0x8D06CD01]. *)
Lemma codec_roundtrip_counterexample :
  decode_message_length (encode_message_information 0 0 16384 default_buffer_size) <> 16384
  /\ decode_message_information (encode_message_information 0 0 16384 default_buffer_size)
     <> Some (0, 16384)
  /\ decode_message_information (encode_message_information 16384 0 0 default_buffer_size)
     <> Some (16384, 0)
  /\ encode_message_information 29 7 16384 default_buffer_size <> 2366033153.
Proof. vm_compute. repeat split; discriminate. Qed.

(** C1 (amended): for every message id below [0x4000], every jumbo flag whose
    low fourteen bits are clear (the sources pass [16384]) and every payload
    length below [0x4000], the header produced by
    [encode_message_information] carries the marker bit,
    [decode_message_length] recovers the length and the id output of
    [decode_message_information] recovers the id; and the header for
    message id 7, jumbo 16384 and length 29 is [0x8D06CD01], which decodes
    to length 29. *)
Theorem codec_roundtrip_14_bits (id jumbo len bs : Z) :
  0 <= id < 2 ^ 14 ->
  Z.land jumbo 16383 = 0 ->
  0 <= len < 2 ^ 14 ->
  let header := encode_message_information id jumbo len bs in
  Z.testbit header 15 = true
  /\ decode_message_length header = len
  /\ option_map fst (decode_message_information header) = Some id
  /\ encode_message_information 7 16384 29 default_buffer_size = 2366033153
  /\ decode_message_length 2366033153 = 29.
Proof.
  intros Hid Hj Hlen header. subst header. split; [apply encode_marker_bit|].
  split; [now apply length_roundtrip|].
  split; [now apply id_roundtrip|].
  split; reflexivity.
Qed.

Lemma codec_roundtrip_14_bits_witness :
  0 <= 9 < 2 ^ 14 /\ Z.land 16384 16383 = 0 /\ 0 <= 5 < 2 ^ 14 /\
  decode_message_length (encode_message_information 9 16384 5 4092) = 5 /\
  option_map fst (decode_message_information (encode_message_information 9 16384 5 4092))
  = Some 9.
Proof.
  assert (H1 : 0 <= 9 < 2 ^ 14) by lia.
  assert (H2 : Z.land 16384 16383 = 0) by reflexivity.
  assert (H3 : 0 <= 5 < 2 ^ 14) by lia.
  destruct (codec_roundtrip_14_bits 9 16384 5 4092 H1 H2 H3) as (_ & Hl & Hi & _).
  repeat split; first [exact Hl | exact Hi | apply H1 | exact H2 | apply H3].
Defined.

End FrameCodecProofs.

(** ** Room admission *)

Section RoomProofs.

Import RoomSystem.

Implicit Types (r : Room) (u : Uid) (c : RoomCall).

Lemma try_emplace_size {V : Type} u (v : V) (m : gmap Uid V) :
  (size (try_emplace u v m) <= S (size m))%nat.
Proof.
  unfold try_emplace. destruct (m !! u) eqn:E; [lia|].
  rewrite map_size_insert_None by exact E. lia.
Qed.

Lemma try_emplace_lookup {V : Type} u (v : V) (m : gmap Uid V) :
  is_Some (try_emplace u v m !! u).
Proof.
  unfold try_emplace. destruct (m !! u) eqn:E; [by rewrite E|].
  rewrite lookup_insert_eq. eauto.
Qed.

Lemma try_emplace_lookup_ne {V : Type} u u' (v : V) (m : gmap Uid V) :
  u <> u' -> try_emplace u v m !! u' = m !! u'.
Proof.
  intros Hne. unfold try_emplace. destruct (m !! u); [done|].
  by rewrite lookup_insert_ne.
Qed.

Lemma size_remove_queued (q : gset Uid) u :
  u ∈ q -> S (size (q ∖ {[u]})) = size q.
Proof.
  intros Hin. rewrite size_difference by set_solver.
  rewrite size_singleton.
  assert (Hne : size q <> 0%nat).
  { intros H0. apply size_empty_inv in H0. set_solver. }
  lia.
Qed.

Lemma size_add_queued (q : gset Uid) u :
  (size ({[u]} ∪ q) <= S (size q))%nat.
Proof.
  rewrite size_union_alt, size_singleton.
  assert (Hle : (size (q ∖ {[u]}) <= size q)%nat).
  { apply subseteq_size. set_solver. }
  lia.
Qed.

(** A call that follows the admission path keeps the room within capacity. *)
Lemma call_within_capacity c r :
  within_capacity r ->
  (forall rand u, c = CallAddPlayer rand u -> u ∈ _queuedPlayers r) ->
  within_capacity (call c r).
Proof.
  unfold within_capacity. intros Hcap Hadd.
  destruct c as [u|u|rand u|u]; cbn [call].
  - unfold QueuePlayer, IsRoomFull.
    destruct (Z.leb_spec (maxPlayerCount (_details r))
                (Z.of_nat (size (_players r) + size (_queuedPlayers r)))) as [Hfull|Hfree];
      cbn; [exact Hcap|].
    pose proof (size_add_queued (_queuedPlayers r) u). lia.
  - cbn.
    assert (size (_queuedPlayers r ∖ {[u]}) <= size (_queuedPlayers r))%nat
      by (apply subseteq_size; set_solver).
    lia.
  - unfold AddPlayer.
    destruct (Z.leb_spec (maxPlayerCount (_details r)) (Z.of_nat (size (_players r))));
      cbn; [exact Hcap|].
    pose proof (size_remove_queued (_queuedPlayers r) u (Hadd rand u eq_refl)) as Hq.
    match goal with
    | |- context [try_emplace u ?p (_players r)] =>
        pose proof (try_emplace_size u p (_players r)) as Hp;
        set (committed := try_emplace u p (_players r)) in *
    end.
    set (queued := _queuedPlayers r ∖ {[u]}) in *.
    clearbody committed queued. lia.
  - cbn.
    assert (Hd : (size (delete u (_players r)) <= size (_players r))%nat)
      by (apply map_subseteq_size, delete_subseteq).
    lia.
Qed.

(** A call that follows the admission path keeps queue and players apart. *)
Lemma call_queue_disjoint c r :
  queue_disjoint r ->
  (forall u, c = CallQueuePlayer u -> _players r !! u = None) ->
  queue_disjoint (call c r).
Proof.
  unfold queue_disjoint. intros Hdis Hq.
  destruct c as [u|u|rand u|u]; cbn [call].
  - unfold QueuePlayer. destruct (IsRoomFull r); cbn; [exact Hdis|].
    intros u' Hu'. apply elem_of_union in Hu' as [Hu'|Hu'].
    + apply elem_of_singleton in Hu'. subst u'. by apply Hq.
    + by apply Hdis.
  - cbn. intros u' Hu'. apply Hdis. set_solver.
  - unfold AddPlayer.
    destruct (maxPlayerCount (_details r) <=? Z.of_nat (size (_players r)));
      cbn; [exact Hdis|].
    intros u' Hu'. apply elem_of_difference in Hu' as [Hin Hne].
    rewrite try_emplace_lookup_ne by set_solver. by apply Hdis.
  - cbn. intros u' Hu'. destruct (decide (u = u')) as [->|Hne].
    + apply lookup_delete_eq.
    + rewrite lookup_delete_ne by done. by apply Hdis.
Qed.

(** [AddPlayer], when it commits, takes the uid out of the queue in the
    same step. *)
Lemma AddPlayer_commits rand u r r' :
  AddPlayer rand u r = (true, r') ->
  (u ∉ _queuedPlayers r') /\ is_Some (_players r' !! u).
Proof.
  unfold AddPlayer.
  destruct (maxPlayerCount (_details r) <=? Z.of_nat (size (_players r)));
    [discriminate|].
  intros [= <-]. cbn. split; [set_solver|apply try_emplace_lookup].
Qed.

Lemma calls_cons c cs r : calls (c :: cs) r = calls cs (call c r).
Proof. reflexivity. Qed.

(** C3, as stated, fails on the code.  In a room for one player,
    [QueuePlayer(1)] followed by [AddPlayer(2)] leaves one committed and one
    queued player: [AddPlayer] compares only the number of committed players
    with the capacity.  In a room for two, [AddPlayer(1)] followed by
    [QueuePlayer(1)] leaves uid 1 both committed and queued. *)
Lemma room_invariant_counterexample :
  let details m := mkDetails "room" "" 0 0 m Speed TeamMode_Solo false 0 in
  ~ within_capacity (calls [CallQueuePlayer 1; CallAddPlayer 0 2] (Room_new 1 (details 1)))
  /\ ~ queue_disjoint (calls [CallAddPlayer 0 1; CallQueuePlayer 1] (Room_new 1 (details 2))).
Proof.
  cbv zeta. split.
  - unfold within_capacity. vm_compute. intros H. apply H. reflexivity.
  - intros H. specialize (H 1). 
    assert (Hin : (1 : Uid) ∈ _queuedPlayers
              (calls [CallAddPlayer 0 1; CallQueuePlayer 1]
                 (Room_new 1 (mkDetails "room" "" 0 0 2 Speed TeamMode_Solo false 0)))).
    { vm_compute. set_solver. }
    specialize (H Hin). vm_compute in H. discriminate H.
Qed.

(** C3 (amended): from a room that is within capacity and keeps queue and
    players apart (a freshly created room is such a room), every sequence of
    [QueuePlayer], [DequeuePlayer], [AddPlayer] and [RemovePlayer] calls
    that follows the admission path -- [AddPlayer] for a uid that is queued,
    [QueuePlayer] for a uid that is not committed -- leaves
    [|players| + |queued_players| <= max_player_count] and no uid both
    queued and committed; and an [AddPlayer] that commits a uid removes it
    from the queue in the same step. *)
Theorem room_invariant_on_admission_path (cs : list RoomCall) (r : Room) :
  within_capacity r ->
  queue_disjoint r ->
  admission_path cs r ->
  within_capacity (calls cs r)
  /\ queue_disjoint (calls cs r)
  /\ (forall rand u r0 r1, AddPlayer rand u r0 = (true, r1) ->
        (u ∉ _queuedPlayers r1) /\ is_Some (_players r1 !! u)).
Proof.
  intros Hcap Hdis Hpath.
  assert (Hinv : within_capacity (calls cs r) /\ queue_disjoint (calls cs r)).
  { revert r Hcap Hdis Hpath.
    induction cs as [|c cs IH]; intros r Hcap Hdis Hpath; [by split|].
    destruct Hpath as [Hc Hrest]. rewrite calls_cons.
    apply IH; [| |exact Hrest].
    - apply call_within_capacity; [exact Hcap|].
      intros rand u ->. exact Hc.
    - apply call_queue_disjoint; [exact Hdis|].
      intros u ->. exact Hc. }
  destruct Hinv as [H1 H2].
  split; [exact H1|]. split; [exact H2|].
  intros rand u r0 r1. apply AddPlayer_commits.
Qed.

Lemma Room_new_invariant uid details :
  0 <= maxPlayerCount details ->
  within_capacity (Room_new uid details) /\ queue_disjoint (Room_new uid details).
Proof.
  intros Hmax. split.
  - unfold within_capacity. cbn. rewrite map_size_empty, size_empty. exact Hmax.
  - intros u Hu. cbn in Hu. set_solver.
Qed.

Lemma room_invariant_on_admission_path_witness :
  let room := Room_new 1 (mkDetails "room" "" 0 0 2 Speed TeamMode_Team false 0) in
  let cs := [CallQueuePlayer 7; CallAddPlayer 0 7; CallQueuePlayer 8;
             CallDequeuePlayer 8; CallRemovePlayer 7] in
  within_capacity (calls cs room) /\ queue_disjoint (calls cs room).
Proof.
  cbv zeta.
  set (room := Room_new 1 (mkDetails "room" "" 0 0 2 Speed TeamMode_Team false 0)).
  set (cs := [CallQueuePlayer 7; CallAddPlayer 0 7; CallQueuePlayer 8;
              CallDequeuePlayer 8; CallRemovePlayer 7]).
  assert (Hnew : within_capacity room /\ queue_disjoint room).
  { apply Room_new_invariant. cbn. lia. }
  assert (Hpath : admission_path cs room).
  { vm_compute. repeat split; set_solver. }
  destruct (room_invariant_on_admission_path cs room (proj1 Hnew) (proj2 Hnew) Hpath)
    as (H1 & H2 & _).
  split; [exact H1 | exact H2].
Defined.

End RoomProofs.

(** ** Race director: star points, spur, hurdles, magic items *)

Section RacerHandlers.

Import RaceDirector.

Variable reg : CourseRegistry.

Lemma u32_small z : 0 <= z < 2 ^ 32 -> u32 z = z.
Proof. intros Hz. unfold u32. now apply Z.mod_small. Qed.

Lemma instance_ref_present uid d i :
  _raceInstances d !! uid = Some i -> instance_ref uid d = (i, d).
Proof. intros Hi. unfold instance_ref. now rewrite Hi. Qed.

(** The shared opening of the racer handlers. *)
Ltac open_handler Hof :=
  let Hc := fresh "Hc" in
  let Hi := fresh "Hi" in
  let Hr := fresh "Hr" in
  destruct Hof as (Hc & Hi & Hr);
  rewrite Hc; rewrite (instance_ref_present _ _ _ Hi); rewrite Hr.

Lemma HandleStarPointGet_other_racer clientId d clientContext raceInstance racer command :
  racer_of clientId d clientContext raceInstance racer ->
  spg_characterOid command <> oid racer ->
  HandleStarPointGet reg clientId command d = Thrown d [] different_racer.
Proof.
  intros Hof Hne. unfold HandleStarPointGet. open_handler Hof.
  apply Z.eqb_neq in Hne. now rewrite Hne.
Qed.

Lemma HandleRequestSpur_other_racer clientId d clientContext raceInstance racer command :
  racer_of clientId d clientContext raceInstance racer ->
  spur_characterOid command <> oid racer ->
  HandleRequestSpur reg clientId command d = Thrown d [] different_racer.
Proof.
  intros Hof Hne. unfold HandleRequestSpur. open_handler Hof.
  apply Z.eqb_neq in Hne. now rewrite Hne.
Qed.

Lemma HandleStarPointGet_own_racer clientId d clientContext raceInstance racer gm command :
  racer_of clientId d clientContext raceInstance racer ->
  GetCourseGameModeInfo reg (u8 (raceGameMode raceInstance)) = Some gm ->
  spg_characterOid command = oid racer ->
  0 <= starPointValue racer + gainedStarPoints command < 2 ^ 32 ->
  let points := Z.min (starPointValue racer + gainedStarPoints command) (starPointsMax gm) in
  HandleStarPointGet reg clientId command d
  = Returned (with_racer clientContext raceInstance (set_starPointValue points racer) d)
      [(clientId, AcCmdCRStarPointGetOK (oid racer) points false)].
Proof.
  intros Hof Hgm Heq Hrange points. unfold HandleStarPointGet. open_handler Hof.
  rewrite Heq, Z.eqb_refl. cbn [negb]. rewrite Hgm.
  rewrite u32_small by exact Hrange. reflexivity.
Qed.

Lemma HandleRequestSpur_empty_gauge clientId d clientContext raceInstance racer gm command :
  racer_of clientId d clientContext raceInstance racer ->
  GetCourseGameModeInfo reg (u8 (raceGameMode raceInstance)) = Some gm ->
  spur_characterOid command = oid racer ->
  starPointValue racer < spurConsumeStarPoints gm ->
  HandleRequestSpur reg clientId command d
  = Thrown d [] cheating.
Proof.
  intros Hof Hgm Heq Hlt. unfold HandleRequestSpur. open_handler Hof.
  rewrite Heq, Z.eqb_refl. cbn [negb]. rewrite Hgm.
  apply Z.ltb_lt in Hlt. now rewrite Hlt.
Qed.

Lemma HandleRequestSpur_own_racer clientId d clientContext raceInstance racer gm command :
  racer_of clientId d clientContext raceInstance racer ->
  GetCourseGameModeInfo reg (u8 (raceGameMode raceInstance)) = Some gm ->
  spur_characterOid command = oid racer ->
  0 <= spurConsumeStarPoints gm <= starPointValue racer ->
  starPointValue racer < 2 ^ 32 ->
  let points := starPointValue racer - spurConsumeStarPoints gm in
  HandleRequestSpur reg clientId command d
  = Returned (with_racer clientContext raceInstance (set_starPointValue points racer) d)
      [(clientId,
        AcCmdCRRequestSpurOK (oid racer) (activeBoosters command) points (comboBreak command));
       (clientId, AcCmdCRStarPointGetOK (oid racer) points false)].
Proof.
  intros Hof Hgm Heq Hge Hlt points. unfold HandleRequestSpur. open_handler Hof.
  rewrite Heq, Z.eqb_refl. cbn [negb]. rewrite Hgm.
  replace (starPointValue racer <? spurConsumeStarPoints gm) with false
    by (symmetry; apply Z.ltb_ge; lia).
  rewrite u32_small by lia. reflexivity.
Qed.

(** The racer that a handler which returned has written back. *)
Lemma racer_of_with_racer clientId d clientContext raceInstance racer racer' :
  racer_of clientId d clientContext raceInstance racer ->
  racer_of clientId (with_racer clientContext raceInstance racer' d) clientContext
    (put_racer (characterUid clientContext) racer' raceInstance) racer'.
Proof.
  intros (Hc & Hi & Hr). repeat split.
  - exact Hc.
  - cbn. apply lookup_insert_eq.
  - cbn. apply lookup_insert_eq.
Qed.

Lemma racer_in_with_racer clientContext raceInstance racer' d :
  racer_in (roomUid clientContext) (characterUid clientContext)
    (with_racer clientContext raceInstance racer' d) = Some racer'.
Proof.
  unfold racer_in, with_racer, put_instance. cbn.
  rewrite lookup_insert_eq. cbn. apply lookup_insert_eq.
Qed.

(** C7 (amended): for [HandleStarPointGet] and [HandleRequestSpur], a
    command whose [characterOid] is not the OID of the sending racer makes
    the handler raise with the race state unchanged; otherwise
    [StarPointGet], when gauge and gained points together stay within 32
    bits, adds the gained star points, clamped to [starPointsMax], and
    [RequestSpur] raises when the gauge is below [spurConsumeStarPoints]
    and deducts [spurConsumeStarPoints] from it when it is not.  The new
    gauge is the one the racer has in the director afterwards, and the one
    the replies carry. *)
Theorem star_point_get_and_spur
  clientId d clientContext raceInstance racer gm :
  racer_of clientId d clientContext raceInstance racer ->
  GetCourseGameModeInfo reg (u8 (raceGameMode raceInstance)) = Some gm ->
  0 <= starPointValue racer < 2 ^ 32 ->
  0 <= spurConsumeStarPoints gm ->
  (forall command, spg_characterOid command <> oid racer ->
     HandleStarPointGet reg clientId command d = Thrown d [] different_racer)
  /\ (forall command, spur_characterOid command <> oid racer ->
        HandleRequestSpur reg clientId command d = Thrown d [] different_racer)
  /\ (forall command, spg_characterOid command = oid racer ->
        0 <= gainedStarPoints command ->
        starPointValue racer + gainedStarPoints command < 2 ^ 32 ->
        let points := Z.min (starPointValue racer + gainedStarPoints command) (starPointsMax gm) in
        HandleStarPointGet reg clientId command d
        = Returned (with_racer clientContext raceInstance (set_starPointValue points racer) d)
            [(clientId, AcCmdCRStarPointGetOK (oid racer) points false)]
        /\ racer_in (roomUid clientContext) (characterUid clientContext)
             (director_of (HandleStarPointGet reg clientId command d) d)
           = Some (set_starPointValue points racer)
        /\ starPointValue (set_starPointValue points racer) = points)
  /\ (forall command, spur_characterOid command = oid racer ->
        starPointValue racer < spurConsumeStarPoints gm ->
        HandleRequestSpur reg clientId command d = Thrown d [] cheating)
  /\ (forall command, spur_characterOid command = oid racer ->
        spurConsumeStarPoints gm <= starPointValue racer ->
        let points := starPointValue racer - spurConsumeStarPoints gm in
        HandleRequestSpur reg clientId command d
        = Returned (with_racer clientContext raceInstance (set_starPointValue points racer) d)
            [(clientId,
              AcCmdCRRequestSpurOK (oid racer) (activeBoosters command) points
                (comboBreak command));
             (clientId, AcCmdCRStarPointGetOK (oid racer) points false)]
        /\ racer_in (roomUid clientContext) (characterUid clientContext)
             (director_of (HandleRequestSpur reg clientId command d) d)
           = Some (set_starPointValue points racer)
        /\ starPointValue (set_starPointValue points racer) = points).
Proof.
  intros Hof Hgm Hstar Hspur. split; [|split; [|split; [|split]]].
  - intros command. now apply (HandleStarPointGet_other_racer _ _ _ _ _ _ Hof).
  - intros command. now apply (HandleRequestSpur_other_racer _ _ _ _ _ _ Hof).
  - intros command Heq Hgain Hsum points.
    assert (Hrun := HandleStarPointGet_own_racer _ _ _ _ _ _ command Hof Hgm Heq
                      ltac:(lia)).
    cbv zeta in Hrun. fold points in Hrun. split; [exact Hrun|].
    split; [|reflexivity].
    rewrite Hrun. cbn [director_of]. apply racer_in_with_racer.
  - intros command Heq Hlt. eapply HandleRequestSpur_empty_gauge; eauto.
  - intros command Heq Hge points.
    assert (Hrun := HandleRequestSpur_own_racer _ _ _ _ _ _ command Hof Hgm Heq
                      ltac:(lia) ltac:(lia)).
    cbv zeta in Hrun. fold points in Hrun. split; [exact Hrun|].
    split; [|reflexivity].
    rewrite Hrun. cbn [director_of]. apply racer_in_with_racer.
Qed.

(** *** Hurdles *)

Lemma HandleHurdleClearResult_own_racer
  clientId d clientContext raceInstance racer gm command :
  racer_of clientId d clientContext raceInstance racer ->
  GetCourseGameModeInfo reg (u8 (raceGameMode raceInstance)) = Some gm ->
  hcr_characterOid command = oid racer ->
  HandleHurdleClearResult reg clientId command d
  = match hurdle_clear gm (raceGameMode raceInstance) (hurdleClearType command) racer with
    | None => Returned d []
    | Some (racer', jumpCombo) =>
        Returned (with_racer clientContext raceInstance racer' d)
          ((if is_Collision (hurdleClearType command) then []
            else [(clientId,
                   AcCmdCRStarPointGetOK (oid racer) (starPointValue racer')
                     ((raceGameMode raceInstance =? protocol_GameMode_Magic)
                      && (starPointsMax gm <=? starPointValue racer')
                      && is_Perfect (hurdleClearType command)))])
           ++ [(clientId,
                AcCmdCRHurdleClearResultOK (oid racer) (hurdleClearType command) jumpCombo 0)])
    end.
Proof.
  intros Hof Hgm Heq. unfold HandleHurdleClearResult. open_handler Hof.
  rewrite Heq, Z.eqb_refl. cbn [negb]. rewrite Hgm.
  destruct (hurdle_clear gm (raceGameMode raceInstance) (hurdleClearType command) racer)
    as [[racer' jumpCombo]|]; reflexivity.
Qed.

Lemma hurdle_clear_Perfect gm mode racer :
  jump_values_in_range gm racer ->
  let combo := Z.min 99 (jumpComboValue racer + 1) in
  let points :=
    Z.min (starPointValue racer + (perfectJumpStarPoints gm
             + Z.min (perfectJumpMaxBonusCombo gm) combo * perfectJumpUnitStarPoints gm))
          (starPointsMax gm) in
  hurdle_clear gm mode Perfect racer
  = Some (set_starPointValue points (set_jumpComboValue combo racer),
          if mode =? protocol_GameMode_Speed then combo else 0).
Proof.
  intros (Hc & Hs & Hb & Hp & Hu & Hg & Hmax & Hmaxg) combo points.
  unfold hurdle_clear. cbn [jumpComboValue starPointValue set_jumpComboValue].
  rewrite (u32_small (jumpComboValue racer + 1)) by lia.
  fold combo.
  assert (Hcombo : 0 <= Z.min (perfectJumpMaxBonusCombo gm) combo <= 99)
    by (unfold combo; lia).
  assert (Hprod : 0 <= Z.min (perfectJumpMaxBonusCombo gm) combo * perfectJumpUnitStarPoints gm
                  <= 99 * perfectJumpUnitStarPoints gm) by nia.
  rewrite (u32_small (_ * _)) by lia.
  rewrite u32_small by lia.
  unfold points. do 3 f_equal. lia.
Qed.

Lemma hurdle_clear_Good gm mode racer :
  jump_values_in_range gm racer ->
  let points := Z.min (starPointValue racer + goodJumpStarPoints gm) (starPointsMax gm) in
  hurdle_clear gm mode Good racer
  = Some (set_starPointValue points (set_jumpComboValue 0 racer), 0)
  /\ hurdle_clear gm mode DoubleJumpOrGlide racer
     = Some (set_starPointValue points (set_jumpComboValue 0 racer), 0).
Proof.
  intros (Hc & Hs & Hb & Hp & Hu & Hg & Hmax & Hmaxg) points.
  unfold hurdle_clear. cbn [jumpComboValue starPointValue set_jumpComboValue set_starPointValue].
  rewrite u32_small by lia. split; reflexivity.
Qed.

Lemma hurdle_clear_Collision gm mode racer :
  hurdle_clear gm mode Collision racer = Some (set_jumpComboValue 0 racer, 0).
Proof. reflexivity. Qed.

(** One [Perfect] jump of a racer whose values are in range: the combo goes
    up by one, capped at 99, and the gauge gains the perfect-jump points
    plus the combo bonus, clamped; the racer stays in range. *)
Lemma perfect_jump_step clientId d clientContext raceInstance racer gm :
  racer_of clientId d clientContext raceInstance racer ->
  GetCourseGameModeInfo reg (u8 (raceGameMode raceInstance)) = Some gm ->
  jump_values_in_range gm racer ->
  let combo := Z.min 99 (jumpComboValue racer + 1) in
  let points :=
    Z.min (starPointValue racer + (perfectJumpStarPoints gm
             + Z.min (perfectJumpMaxBonusCombo gm) combo * perfectJumpUnitStarPoints gm))
          (starPointsMax gm) in
  let racer' := set_starPointValue points (set_jumpComboValue combo racer) in
  director_of
    (HandleHurdleClearResult reg clientId (mkHurdleClearResult (oid racer) Perfect) d) d
  = with_racer clientContext raceInstance racer' d
  /\ jump_values_in_range gm racer'.
Proof.
  intros Hof Hgm Hrange combo points racer'. split.
  - rewrite (HandleHurdleClearResult_own_racer _ _ _ _ _ _
               (mkHurdleClearResult (oid racer) Perfect) Hof Hgm eq_refl).
    cbn [hurdleClearType]. rewrite (hurdle_clear_Perfect gm _ racer Hrange).
    reflexivity.
  - destruct Hrange as (Hc & Hs & Hb & Hp & Hu & Hg & Hmax & Hmaxg).
    unfold jump_values_in_range, racer'. cbn.
    assert (0 <= Z.min (perfectJumpMaxBonusCombo gm) combo * perfectJumpUnitStarPoints gm)
      by (unfold combo; nia).
    unfold points, combo. repeat split; lia.
Qed.

(** C4: for a command that carries the OID of the sending racer,
    [HandleHurdleClearResult] on [Perfect] increments the jump combo with
    cap 99 and adds [perfectJumpStarPoints + min(perfectJumpMaxBonusCombo,
    combo) * perfectJumpUnitStarPoints] to the gauge, clamped to
    [starPointsMax]; on [Good] and [DoubleJumpOrGlide] it resets the combo
    and adds [goodJumpStarPoints], clamped; on [Collision] it resets the
    combo and leaves the gauge.  With the template values 5, 1000, 200 and
    40000, three consecutive [Perfect] results from an empty gauge and no
    combo leave 1200, 2600 and 4200 star points. *)
Theorem hurdle_clear_result
  clientId d clientContext raceInstance racer gm :
  racer_of clientId d clientContext raceInstance racer ->
  GetCourseGameModeInfo reg (u8 (raceGameMode raceInstance)) = Some gm ->
  jump_values_in_range gm racer ->
  let command t := mkHurdleClearResult (oid racer) t in
  let after t :=
    racer_in (roomUid clientContext) (characterUid clientContext)
      (director_of (HandleHurdleClearResult reg clientId (command t) d) d) in
  let combo := Z.min 99 (jumpComboValue racer + 1) in
  after Perfect
  = Some (set_starPointValue
            (Z.min (starPointValue racer + (perfectJumpStarPoints gm
                      + Z.min (perfectJumpMaxBonusCombo gm) combo
                        * perfectJumpUnitStarPoints gm))
                   (starPointsMax gm))
            (set_jumpComboValue combo racer))
  /\ after Good
     = Some (set_starPointValue
               (Z.min (starPointValue racer + goodJumpStarPoints gm) (starPointsMax gm))
               (set_jumpComboValue 0 racer))
  /\ after DoubleJumpOrGlide = after Good
  /\ after Collision = Some (set_jumpComboValue 0 racer)
  /\ (forall t, exists d' sent,
        HandleHurdleClearResult reg clientId (command t) d = Returned d' sent)
  /\ (perfectJumpMaxBonusCombo gm = 5 -> perfectJumpStarPoints gm = 1000 ->
      perfectJumpUnitStarPoints gm = 200 -> starPointsMax gm = 40000 ->
      starPointValue racer = 0 -> jumpComboValue racer = 0 ->
      let points n :=
        starPointValue <$>
          racer_in (roomUid clientContext) (characterUid clientContext)
            (perfect_jumps reg clientId (oid racer) n d) in
      points 1%nat = Some 1200 /\ points 2%nat = Some 2600 /\ points 3%nat = Some 4200).
Proof.
  intros Hof Hgm Hrange command after combo.
  assert (Hafter : forall t,
            after t
            = match hurdle_clear gm (raceGameMode raceInstance) t racer with
              | Some (racer', _) => Some racer'
              | None => racer_in (roomUid clientContext) (characterUid clientContext) d
              end).
  { intros t. unfold after, command.
    rewrite (HandleHurdleClearResult_own_racer _ _ _ _ _ _
               (mkHurdleClearResult (oid racer) t) Hof Hgm eq_refl).
    cbn [hurdleClearType].
    destruct (hurdle_clear gm (raceGameMode raceInstance) t racer) as [[racer' jc]|];
      cbn [director_of]; [apply racer_in_with_racer | reflexivity]. }
  pose proof (hurdle_clear_Good gm (raceGameMode raceInstance) racer Hrange) as [HG HD].
  split; [|split; [|split; [|split; [|split]]]].
  - rewrite Hafter, (hurdle_clear_Perfect gm _ racer Hrange). reflexivity.
  - rewrite Hafter. cbv zeta in HG. now rewrite HG.
  - rewrite !Hafter. cbv zeta in HG, HD. now rewrite HG, HD.
  - rewrite Hafter. reflexivity.
  - intros t. unfold command.
    rewrite (HandleHurdleClearResult_own_racer _ _ _ _ _ _
               (mkHurdleClearResult (oid racer) t) Hof Hgm eq_refl).
    cbn [hurdleClearType].
    destruct (hurdle_clear gm (raceGameMode raceInstance) t racer) as [[racer' jc]|];
      do 2 eexists; reflexivity.
  - clear HG HD Hafter. intros Hb Hp Hu Hm Hs0 Hc0 points.
    destruct (perfect_jump_step _ _ _ _ _ _ Hof Hgm Hrange) as [Hd1 Hr1].
    cbv zeta in Hd1, Hr1.
    set (racer1 := set_starPointValue _ (set_jumpComboValue _ racer)) in *.
    pose proof (racer_of_with_racer _ _ _ _ _ racer1 Hof) as Hof1.
    set (d1 := with_racer clientContext raceInstance racer1 d) in *.
    set (inst1 := put_racer (characterUid clientContext) racer1 raceInstance) in *.
    assert (Hgm1 : GetCourseGameModeInfo reg (u8 (raceGameMode inst1)) = Some gm) by exact Hgm.
    destruct (perfect_jump_step _ _ _ _ _ _ Hof1 Hgm1 Hr1) as [Hd2 Hr2].
    cbv zeta in Hd2, Hr2.
    set (racer2 := set_starPointValue _ (set_jumpComboValue _ racer1)) in *.
    pose proof (racer_of_with_racer _ _ _ _ _ racer2 Hof1) as Hof2.
    set (d2 := with_racer clientContext inst1 racer2 d1) in *.
    set (inst2 := put_racer (characterUid clientContext) racer2 inst1) in *.
    assert (Hgm2 : GetCourseGameModeInfo reg (u8 (raceGameMode inst2)) = Some gm) by exact Hgm.
    destruct (perfect_jump_step _ _ _ _ _ _ Hof2 Hgm2 Hr2) as [Hd3 Hr3].
    cbv zeta in Hd3.
    set (racer3 := set_starPointValue _ (set_jumpComboValue _ racer2)) in *.
    assert (Ho1 : oid racer1 = oid racer) by reflexivity.
    assert (Ho2 : oid racer2 = oid racer) by reflexivity.
    rewrite Ho1 in Hd2. rewrite Ho2 in Hd3.
    unfold points. cbv beta iota delta [perfect_jumps Nat.iter nat_rect].
    rewrite Hd1, Hd2, Hd3.
    unfold d2, d1. rewrite !racer_in_with_racer. cbn [fmap option_fmap option_map].
    unfold racer3, racer2, racer1. cbn [starPointValue jumpComboValue set_starPointValue set_jumpComboValue].
    rewrite Hb, Hp, Hu, Hm, Hs0, Hc0. repeat split; reflexivity.
Qed.

(** *** Magic items *)





End RacerHandlers.

(** *** The handlers on the example race *)

Section RacerHandlerWitnesses.

Import RaceDirector.

Lemma example_racer42 :
  racer_of 7 Examples.racing Examples.master Examples.racing_instance Examples.racer42.
Proof. repeat split; vm_compute; reflexivity. Defined.

Lemma example_racer43 :
  racer_of 8 Examples.racing Examples.guest Examples.racing_instance Examples.racer43.
Proof. repeat split; vm_compute; reflexivity. Defined.

Lemma example_speed :
  GetCourseGameModeInfo Examples.reg (u8 (raceGameMode Examples.racing_instance))
  = Some Examples.speed.
Proof. reflexivity. Defined.

(** C7, as stated, fails on the code: the sum of gauge and gained points
    is taken in 32 bits.  Racer 43 has 30000 star points; a [StarPointGet]
    for its own OID that gains [2^32 - 10000] wraps the sum to 20000, and
    the gauge drops to 20000, where the gained points clamped to
    [starPointsMax] (40000) would leave it at 40000. *)
Lemma star_point_get_counterexample :
  let command := mkStarPointGet 2 (2 ^ 32 - 10000) in
  let after :=
    director_of (HandleStarPointGet Examples.reg 8 command Examples.racing) Examples.racing in
  spg_characterOid command = oid Examples.racer43
  /\ starPointValue <$> racer_in 1 43 Examples.racing = Some 30000
  /\ HandleStarPointGet Examples.reg 8 command Examples.racing
     = Returned after [(8, AcCmdCRStarPointGetOK 2 20000 false)]
  /\ starPointValue <$> racer_in 1 43 after = Some 20000
  /\ starPointValue <$> racer_in 1 43 after
     <> Some (Z.min (30000 + gainedStarPoints command) (starPointsMax Examples.speed)).
Proof.
  cbv zeta. split; [reflexivity|]. split; [reflexivity|].
  split; [vm_compute; reflexivity|]. split; [vm_compute; reflexivity|].
  vm_compute. discriminate.
Qed.

Lemma star_point_get_and_spur_witness :
  (HandleStarPointGet Examples.reg 8 (mkStarPointGet 2 15000) Examples.racing
   = Returned
       (with_racer Examples.guest Examples.racing_instance
          (set_starPointValue 40000 Examples.racer43) Examples.racing)
       [(8, AcCmdCRStarPointGetOK 2 40000 false)]
   /\ racer_in 1 43
        (director_of
           (HandleStarPointGet Examples.reg 8 (mkStarPointGet 2 15000) Examples.racing)
           Examples.racing)
      = Some (set_starPointValue 40000 Examples.racer43))
  /\ HandleRequestSpur Examples.reg 8 (mkRequestSpur 1 0 0) Examples.racing
     = Thrown Examples.racing [] different_racer
  /\ (HandleRequestSpur Examples.reg 8 (mkRequestSpur 2 1 0) Examples.racing
      = Returned
          (with_racer Examples.guest Examples.racing_instance
             (set_starPointValue 20000 Examples.racer43) Examples.racing)
          [(8, AcCmdCRRequestSpurOK 2 1 20000 0); (8, AcCmdCRStarPointGetOK 2 20000 false)]
      /\ racer_in 1 43
           (director_of
              (HandleRequestSpur Examples.reg 8 (mkRequestSpur 2 1 0) Examples.racing)
              Examples.racing)
         = Some (set_starPointValue 20000 Examples.racer43)).
Proof.
  assert (Hstar : 0 <= starPointValue Examples.racer43 < 2 ^ 32) by (cbn; lia).
  assert (Hspur : 0 <= spurConsumeStarPoints Examples.speed) by (cbn; lia).
  destruct (star_point_get_and_spur Examples.reg 8 Examples.racing Examples.guest
              Examples.racing_instance Examples.racer43 Examples.speed
              example_racer43 example_speed Hstar Hspur)
    as (_ & Hother & Hget & _ & Hspend).
  split; [|split].
  - destruct (Hget (mkStarPointGet 2 15000)) as (Hrun & Hback & _);
      [reflexivity | cbn; lia | cbn; lia |].
    split; [exact Hrun | exact Hback].
  - apply (Hother (mkRequestSpur 1 0 0)). cbn. lia.
  - destruct (Hspend (mkRequestSpur 2 1 0)) as (Hrun & Hback & _);
      [reflexivity | cbn; lia |].
    split; [exact Hrun | exact Hback].
Defined.

Lemma example_in_range : jump_values_in_range Examples.speed Examples.racer42.
Proof. unfold jump_values_in_range. cbn. lia. Defined.

Lemma hurdle_clear_result_witness :
  starPointValue <$>
    racer_in 1 42 (perfect_jumps Examples.reg 7 1 3 Examples.racing) = Some 4200
  /\ racer_in 1 42
       (director_of
          (HandleHurdleClearResult Examples.reg 7 (mkHurdleClearResult 1 Collision)
             Examples.racing) Examples.racing)
     = Some (set_jumpComboValue 0 Examples.racer42).
Proof.
  destruct (hurdle_clear_result Examples.reg 7 Examples.racing Examples.master
              Examples.racing_instance Examples.racer42 Examples.speed
              example_racer42 example_speed example_in_range)
    as (_ & _ & _ & Hcollision & _ & Hthree).
  split.
  - apply Hthree; reflexivity.
  - exact Hcollision.
Defined.


End RacerHandlerWitnesses.

(** ** Race director: the stage of a race *)

Section Stages.

Import RaceDirector.

Variable reg : CourseRegistry.
Variable characterLevel : Z -> Z.

Implicit Types (d : Director) (i : RoomInstance) (s : Stage.t).

Lemma moves_refl a b s : moves a b s s.
Proof. now left. Qed.

Lemma moves_trans a b s1 s2 s3 :
  a <> b -> moves a b s1 s2 -> moves a b s2 s3 -> moves a b s1 s3.
Proof.
  intros Hab [->|[-> ->]] [->|[H1 ->]]; unfold moves; auto.
Qed.

Lemma stage_of_put_instance x uid i d :
  stage_of x (put_instance uid i d) = if decide (uid = x) then stage i else stage_of x d.
Proof.
  unfold stage_of, put_instance. cbn.
  destruct (decide (uid = x)) as [->|Hne].
  - now rewrite lookup_insert_eq.
  - now rewrite lookup_insert_ne.
Qed.

Lemma stage_of_present uid i d :
  _raceInstances d !! uid = Some i -> stage_of uid d = stage i.
Proof. intros Hi. unfold stage_of. now rewrite Hi. Qed.

Lemma instance_ref_stage uid d :
  stage (fst (instance_ref uid d)) = stage_of uid d
  /\ forall x, stage_of x (snd (instance_ref uid d)) = stage_of x d.
Proof.
  unfold instance_ref, stage_of.
  destruct (_raceInstances d !! uid) as [i|] eqn:Hi; cbn.
  - split; [reflexivity|]. intros x. reflexivity.
  - split; [reflexivity|]. intros x.
    destruct (decide (uid = x)) as [->|Hne].
    + now rewrite lookup_insert_eq, Hi.
    + now rewrite lookup_insert_ne.
Qed.

Lemma stage_of_set_rooms x m d : stage_of x (set_rooms m d) = stage_of x d.
Proof. reflexivity. Qed.

Lemma stage_of_set_scheduler x m d : stage_of x (set_scheduler m d) = stage_of x d.
Proof. reflexivity. Qed.

(** *** The scheduler keeps every stage *)

Lemma start_race_notify_stage clientId d d' x :
  leaves (start_race_notify clientId d) d' -> stage_of x d' = stage_of x d.
Proof.
  unfold start_race_notify.
  destruct (GetClientContext clientId true d) as [ctx|what].
  - pose proof (instance_ref_stage (roomUid ctx) d) as [_ Href].
    destruct (instance_ref (roomUid ctx) d) as [i d1]. cbn in Href.
    intros [[sent [= <-]]|[sent [what [=]]]]. apply Href.
  - intros [[sent [=]]|[sent [what' [= <-]]]]. reflexivity.
Qed.

Lemma run_due_stage now tasks d sent d' x :
  leaves (run_due now tasks d sent) d' -> stage_of x d' = stage_of x d.
Proof.
  revert d sent. induction tasks as [|[due t] tasks IH]; intros d sent; cbn.
  - intros [[s [= <-]]|[s [what [=]]]]. reflexivity.
  - destruct (due <=? now); [|apply IH].
    destruct t as [clientId]. cbn.
    destruct (start_race_notify clientId d) as [d1 s1|d1 s1 what|] eqn:Hrun.
    + intros Hl. rewrite (IH _ _ Hl).
      apply (start_race_notify_stage clientId). rewrite Hrun. left. eauto.
    + intros [[s [=]]|[s [what' [= <-]]]].
      apply (start_race_notify_stage clientId). rewrite Hrun. right. eauto.
    + intros [[s [=]]|[s [what' [=]]]].
Qed.

Lemma scheduler_Tick_stage now d d' x :
  leaves (scheduler_Tick now d) d' -> stage_of x d' = stage_of x d.
Proof.
  unfold scheduler_Tick. intros Hl. now rewrite (run_due_stage _ _ _ _ _ x Hl).
Qed.

(** *** The three loops *)

Lemma for_each_moves a b body uids :
  a <> b ->
  (forall uid i d d' x,
     _raceInstances d !! uid = Some i -> leaves (body uid i d) d' ->
     moves a b (stage_of x d) (stage_of x d')) ->
  forall d sent d' x,
    leaves (for_each body uids d sent) d' ->
    moves a b (stage_of x d) (stage_of x d').
Proof.
  intros Hab Hbody. induction uids as [|uid uids IH]; intros d sent d' x; cbn.
  - intros [[s [= <-]]|[s [what [=]]]]. apply moves_refl.
  - destruct (_raceInstances d !! uid) as [i|] eqn:Hi; [|apply IH].
    destruct (body uid i d) as [d1 s1|d1 s1 what|] eqn:Hrun.
    + intros Hl. apply (moves_trans a b _ (stage_of x d1)); [exact Hab| |].
      * apply (Hbody uid i d d1 x Hi). rewrite Hrun. left. eauto.
      * apply (IH _ _ _ _ Hl).
    + intros [[s [=]]|[s [what' [= <-]]]].
      apply (Hbody uid i d d1 x Hi). rewrite Hrun. right. eauto.
    + intros [[s [=]]|[s [what' [=]]]].
Qed.

Ltac leaves_cases H :=
  let s := fresh "s" in
  let w := fresh "w" in
  destruct H as [[s H]|[s [w H]]]; inversion H; subst; clear H.

Lemma tick_loading_moves now uid i d d' x :
  _raceInstances d !! uid = Some i -> leaves (tick_loading reg now uid i d) d' ->
  moves Stage.Loading Stage.Racing (stage_of x d) (stage_of x d').
Proof.
  intros Hi. unfold tick_loading.
  destruct (bool_decide (stage i = Stage.Loading)) eqn:Hst; cbn [negb].
  2:{ intros Hl. leaves_cases Hl. apply moves_refl. }
  apply bool_decide_eq_true in Hst.
  destruct (negb _ && negb _).
  { intros Hl. leaves_cases Hl. apply moves_refl. }
  cbn [raceMapBlockId set_tracker].
  destruct (GetMapBlockInfo reg (raceMapBlockId i)) as [mb|];
    intros Hl; leaves_cases Hl; rewrite stage_of_put_instance;
    destruct (decide (uid = x)) as [->|Hne]; try apply moves_refl.
  - right. rewrite (stage_of_present _ _ _ Hi). auto.
  - left. cbn. now rewrite (stage_of_present _ _ _ Hi).
Qed.

Lemma tick_racing_moves now uid i d d' x :
  _raceInstances d !! uid = Some i -> leaves (tick_racing now uid i d) d' ->
  moves Stage.Racing Stage.Finishing (stage_of x d) (stage_of x d').
Proof.
  intros Hi. unfold tick_racing.
  destruct (bool_decide (stage i = Stage.Racing)) eqn:Hst; cbn [negb].
  2:{ intros Hl. leaves_cases Hl. apply moves_refl. }
  apply bool_decide_eq_true in Hst.
  destruct (negb _ && negb _).
  { intros Hl. leaves_cases Hl. apply moves_refl. }
  assert (Hput : moves Stage.Racing Stage.Finishing (stage_of x d)
            (stage_of x (put_instance uid
               (set_stageTimeoutTimePoint (now + seconds 15)
                  (set_stage Stage.Finishing i)) d))).
  { rewrite stage_of_put_instance. destruct (decide (uid = x)) as [->|Hne].
    - right. rewrite (stage_of_present _ _ _ Hi). auto.
    - apply moves_refl. }
  destruct (stageTimeoutTimePoint i <=? now).
  - destruct (final_notify _ _ _ _) as [sent|[sent what]];
      intros Hl; leaves_cases Hl; exact Hput.
  - intros Hl. leaves_cases Hl. exact Hput.
Qed.

Lemma tick_finishing_moves now uid i d d' x :
  _raceInstances d !! uid = Some i -> leaves (tick_finishing now uid i d) d' ->
  moves Stage.Finishing Stage.Waiting (stage_of x d) (stage_of x d').
Proof.
  intros Hi. unfold tick_finishing.
  destruct (bool_decide (stage i = Stage.Finishing)) eqn:Hst; cbn [negb].
  2:{ intros Hl. leaves_cases Hl. apply moves_refl. }
  apply bool_decide_eq_true in Hst.
  destruct (negb _ && negb _).
  { intros Hl. leaves_cases Hl. apply moves_refl. }
  assert (Hput : moves Stage.Finishing Stage.Waiting (stage_of x d)
            (stage_of x (put_instance uid (set_stage Stage.Waiting i) d))).
  { rewrite stage_of_put_instance. destruct (decide (uid = x)) as [->|Hne].
    - right. rewrite (stage_of_present _ _ _ Hi). auto.
    - apply moves_refl. }
  destruct (rooms (put_instance uid (set_stage Stage.Waiting i) d) !! uid) as [room|];
    intros Hl; leaves_cases Hl; exact Hput.
Qed.

Lemma moves_advance a s s' : moves a (next_stage a) s s' -> advance s s'.
Proof. intros [->|[-> ->]]; [now left | now right]. Qed.

(** Every part of [Tick] leaves each race in its stage or moves it on to the
    next one. *)
Lemma tick_part_advance now part d d' x :
  In part (tick_parts reg now) -> leaves (part d) d' ->
  advance (stage_of x d) (stage_of x d').
Proof.
  intros Hin Hl. cbn in Hin. destruct Hin as [<-|[<-|[<-|[<-|[]]]]].
  - left. now apply (scheduler_Tick_stage now).
  - apply (moves_advance Stage.Loading). cbn.
    eapply (for_each_moves Stage.Loading Stage.Racing); [discriminate| |exact Hl].
    intros. eapply tick_loading_moves; eauto.
  - apply (moves_advance Stage.Racing). cbn.
    eapply (for_each_moves Stage.Racing Stage.Finishing); [discriminate| |exact Hl].
    intros. eapply tick_racing_moves; eauto.
  - apply (moves_advance Stage.Finishing). cbn.
    eapply (for_each_moves Stage.Finishing Stage.Waiting); [discriminate| |exact Hl].
    intros. eapply tick_finishing_moves; eauto.
Qed.

(** *** Starting a race *)

Lemma PrepareItemSpawners_stage uid d x :
  stage_of x (PrepareItemSpawners reg uid d) = stage_of x d.
Proof.
  unfold PrepareItemSpawners.
  pose proof (instance_ref_stage uid d) as [Hfst Hsnd].
  destruct (instance_ref uid d) as [i d1]. cbn in Hfst, Hsnd.
  destruct (GetCourseGameModeInfo reg (u32 (raceGameMode i))) as [gm|]; [|apply Hsnd].
  destruct (GetMapBlockInfo reg (raceMapBlockId i)) as [mb|]; [|apply Hsnd].
  rewrite stage_of_put_instance. destruct (decide (uid = x)) as [->|Hne]; [|apply Hsnd].
  cbn. exact Hfst.
Qed.

(** Once the map is chosen the race of the room is set to [Loading],
    whatever its stage was; no other race is touched. *)
Lemma start_race_stage now clientId clientContext room i d mapBlockId x :
  exists d' sent,
    start_race reg now clientId clientContext room i d mapBlockId = Returned d' sent
    /\ stage_of x d'
       = if decide (roomUid clientContext = x) then Stage.Loading
         else stage_of x d.
Proof.
  unfold start_race.
  set (d1 := PrepareItemSpawners reg (roomUid clientContext) _).
  pose proof (instance_ref_stage (roomUid clientContext) d1) as [Hfst Hsnd].
  destruct (instance_ref (roomUid clientContext) d1) as [i2 d2]. cbn in Hfst, Hsnd.
  do 2 eexists. split; [reflexivity|].
  rewrite stage_of_set_scheduler, stage_of_set_rooms, stage_of_put_instance.
  destruct (decide (roomUid clientContext = x)) as [Hx|Hne]; [reflexivity|].
  rewrite Hsnd. unfold d1. rewrite PrepareItemSpawners_stage, stage_of_put_instance.
  destruct (decide (roomUid clientContext = x)); [contradiction|reflexivity].
Qed.

Lemma GetClientContext_room clientId d clientContext :
  GetClientContext clientId true d = inl clientContext ->
  room_of clientId d = Some (roomUid clientContext).
Proof.
  unfold GetClientContext, room_of.
  destruct (_clients d !! clientId) as [c|]; [|discriminate].
  destruct (true && negb (isAuthenticated c)); [discriminate|].
  now intros [= ->].
Qed.

(** [HandleStartRace] never looks at the stage: when it returns, the race
    of the sender's room is in [Loading]; when it throws, no stage has
    changed. *)
Lemma HandleStartRace_stage now rd clientId d :
  (forall d' sent,
     HandleStartRace reg characterLevel now rd clientId d = Returned d' sent ->
     exists raceUid, room_of clientId d = Some raceUid
       /\ forall x, stage_of x d'
                    = if decide (raceUid = x) then Stage.Loading else stage_of x d)
  /\ (forall d' sent what,
        HandleStartRace reg characterLevel now rd clientId d = Thrown d' sent what ->
        forall x, stage_of x d' = stage_of x d).
Proof.
  unfold HandleStartRace.
  destruct (GetClientContext clientId true d) as [ctx|what] eqn:Hctx.
  2:{ split; [discriminate|]. intros d' sent what' [= <- _ _] x. reflexivity. }
  apply GetClientContext_room in Hctx.
  pose proof (instance_ref_stage (roomUid ctx) d) as [Hfst Hsnd].
  destruct (instance_ref (roomUid ctx) d) as [i d1]. cbn in Hfst, Hsnd.
  destruct (negb (characterUid ctx =? masterUid i)).
  { split; [discriminate|]. intros d' sent what' [= <- _ _] x. apply Hsnd. }
  destruct (rooms d1 !! roomUid ctx) as [room|].
  2:{ split; [discriminate|]. intros d' sent what' [= <- _ _] x. apply Hsnd. }
  cbv zeta.
  set (i1 := set_raceMissionId _ (set_raceTeamMode _ (set_raceGameMode _ i))).
  set (d2 := put_instance (roomUid ctx) i1 d1).
  assert (Hd2 : forall x, stage_of x d2 = stage_of x d).
  { intros x. unfold d2. rewrite stage_of_put_instance.
    destruct (decide (roomUid ctx = x)) as [<-|Hne]; [|apply Hsnd].
    cbn. exact Hfst. }
  assert (Hstart : forall mapBlockId,
    (forall d' sent,
       start_race reg now clientId ctx room i1 d2 mapBlockId = Returned d' sent ->
       exists raceUid, room_of clientId d = Some raceUid
         /\ forall x, stage_of x d'
                      = if decide (raceUid = x) then Stage.Loading else stage_of x d)
    /\ (forall d' sent what,
          start_race reg now clientId ctx room i1 d2 mapBlockId = Thrown d' sent what ->
          forall x, stage_of x d' = stage_of x d)).
  { intros mapBlockId. split.
    - intros d' sent Hrun. exists (roomUid ctx). split; [exact Hctx|]. intros x.
      destruct (start_race_stage now clientId ctx room i1 d2 mapBlockId x)
        as (d'' & sent' & Hrun' & Hst).
      rewrite Hrun in Hrun'. injection Hrun' as <- <-. rewrite Hst.
      destruct (decide (roomUid ctx = x)); [reflexivity|apply Hd2].
    - intros d' sent what Hrun.
      destruct (start_race_stage now clientId ctx room i1 d2 mapBlockId 0)
        as (d'' & sent' & Hrun' & _).
      rewrite Hrun in Hrun'. discriminate Hrun'. }
  destruct (_ || _); [|apply Hstart].
  destruct (GetCourseGameModeInfo reg _) as [gm|].
  2:{ split; [discriminate|]. intros d' sent what' [= <- _ _] x. apply Hd2. }
  destruct (mapPool gm) as [|m pool]; [apply Hstart|].
  destruct (uniform_int_distribution 0 _ rd) as [k|]; [apply Hstart|].
  split; discriminate.
Qed.

(** *** Sequences of observations *)

Lemma follows_cycle_cons s s' l :
  follows_cycle (s :: s' :: l)
  = (bool_decide (s' = s) || bool_decide (s' = next_stage s)) && follows_cycle (s' :: l).
Proof. reflexivity. Qed.

Lemma advances_follows x d ds :
  advances x d ds -> follows_cycle (stage_of x <$> (d :: ds)) = true.
Proof.
  revert d. induction ds as [|d' ds IH]; intros d; [reflexivity|].
  intros [Hadv Hrest]. specialize (IH d' Hrest).
  rewrite !fmap_cons in *.
  rewrite follows_cycle_cons, IH, andb_true_r.
  destruct Hadv as [->| ->].
  - now rewrite bool_decide_eq_true_2.
  - rewrite (bool_decide_eq_true_2 (next_stage _ = next_stage _)) by reflexivity.
    apply orb_true_r.
Qed.

Lemma last_cons {A : Type} (a d : A) (l : list A) : List.last (a :: l) d = List.last l a.
Proof.
  revert a d. induction l as [|b l IH]; intros a d; [reflexivity|].
  change (List.last (a :: b :: l) d) with (List.last (b :: l) d).
  rewrite (IH b d). symmetry. apply IH.
Qed.

Lemma advances_app x d l1 l2 :
  advances x d l1 -> advances x (List.last l1 d) l2 -> advances x d (l1 ++ l2).
Proof.
  revert d. induction l1 as [|d' l1 IH]; intros d H1 H2; [exact H2|].
  destruct H1 as [Hadv Hrest]. cbn. split; [exact Hadv|].
  apply IH; [exact Hrest|]. now rewrite last_cons in H2.
Qed.

Lemma run_parts_advances x parts d :
  (forall part d d', In part parts -> leaves (part d) d' ->
     advance (stage_of x d) (stage_of x d')) ->
  advances x d (run_parts parts d).
Proof.
  revert d. induction parts as [|part parts IH]; intros d Hparts; [exact I|].
  cbn. destruct (part d) as [d' sent|d' sent what|] eqn:Hrun; cbn.
  - split.
    + apply (Hparts part); [now left|]. rewrite Hrun. left. eauto.
    + apply IH. intros p d1 d2 Hin. apply Hparts. now right.
  - split; [|exact I].
    apply (Hparts part); [now left|]. rewrite Hrun. right. eauto.
  - exact I.
Qed.

Lemma Tick_advances x now d : advances x d (run_parts (tick_parts reg now) d).
Proof.
  apply run_parts_advances. intros part d1 d2 Hin Hl.
  now apply (tick_part_advance now part).
Qed.

Lemma observe_advances x events d :
  starts_while_waiting reg characterLevel events d ->
  advances x d (observe reg characterLevel events d).
Proof.
  revert d. induction events as [|[now rd clientId|now] events IH]; intros d Hw;
    [exact I| |].
  - destruct Hw as [Hwait Hrest]. cbn.
    pose proof (HandleStartRace_stage now rd clientId d) as [Hret Hthrow].
    destruct (HandleStartRace reg characterLevel now rd clientId d)
      as [d' sent|d' sent what|] eqn:Hrun; cbn in Hrest |- *.
    + split; [|now apply IH].
      destruct (Hret d' sent eq_refl) as (raceUid & Hroom & Hst).
      rewrite Hst. destruct (decide (raceUid = x)) as [->|Hne]; [|now left].
      right. now rewrite (Hwait x Hroom).
    + split; [|now apply IH]. left. apply (Hthrow d' sent what eq_refl).
    + exact I.
  - cbn in Hw |- *. apply advances_app; [apply Tick_advances|now apply IH].
Qed.

End Stages.

Section StageTheorems.

Import RaceDirector.

(** C2, as stated, fails on the code: [HandleStartRace] sets the stage to
    [Loading] without looking at it.  In the example room the master starts
    the race, the loading timeout passes and the tick moves the race to
    [Racing]; a second start-race command of the master then takes the race
    from [Racing] back to [Loading]. *)
Lemma stage_cycle_counterexample :
  let events := [StartRace 0 0 7; Ticking (seconds 31); StartRace (seconds 40) 0 7] in
  observed_stages Examples.reg Examples.characterLevel 1 events Examples.waiting
  = [Stage.Waiting; Stage.Loading; Stage.Loading; Stage.Racing; Stage.Racing;
     Stage.Racing; Stage.Loading]
  /\ follows_cycle
       (observed_stages Examples.reg Examples.characterLevel 1 events Examples.waiting)
     = false.
Proof. split; vm_compute; reflexivity. Qed.

(** C2 (amended): the loops of [Tick] only ever take a race from [Loading]
    to [Racing], from [Racing] to [Finishing] and from [Finishing] to
    [Waiting], one stage at a time, so the stages observed in the course of
    any tick follow the cycle; [HandleStartRace] sets the stage of the
    sender's room to [Loading] from whatever stage it finds.  Hence, as
    long as every start-race command arrives while the race of its room is
    [Waiting], the stages observed across [HandleStartRace] and [Tick]
    follow (Waiting, Loading, Racing, Finishing)*: each observed value is
    the one before it or its successor. *)
Theorem stages_follow_cycle reg characterLevel raceUid events d :
  starts_while_waiting reg characterLevel events d ->
  follows_cycle (observed_stages reg characterLevel raceUid events d) = true
  /\ (forall now d0,
        follows_cycle (stage_of raceUid <$> (d0 :: run_parts (tick_parts reg now) d0)) = true)
  /\ (forall now rd clientId d0 d' sent,
        HandleStartRace reg characterLevel now rd clientId d0 = Returned d' sent ->
        exists room, room_of clientId d0 = Some room /\ stage_of room d' = Stage.Loading).
Proof.
  intros Hw. split; [|split].
  - apply advances_follows. now apply observe_advances.
  - intros now d0. apply advances_follows. apply Tick_advances.
  - intros now rd clientId d0 d' sent Hrun.
    destruct (HandleStartRace_stage reg characterLevel now rd clientId d0) as [Hret _].
    destruct (Hret d' sent Hrun) as (room & Hroom & Hst).
    exists room. split; [exact Hroom|]. rewrite Hst.
    destruct (decide (room = room)); [reflexivity|contradiction].
Qed.

Lemma stages_follow_cycle_witness :
  let events :=
    [StartRace 0 0 7; Ticking (seconds 31); Ticking (seconds 400);
     StartRace (seconds 500) 0 7; Ticking (seconds 501)] in
  starts_while_waiting Examples.reg Examples.characterLevel events Examples.waiting
  /\ follows_cycle
       (observed_stages Examples.reg Examples.characterLevel 1 events Examples.waiting)
     = true.
Proof.
  cbv zeta.
  assert (Hw : starts_while_waiting Examples.reg Examples.characterLevel
                 [StartRace 0 0 7; Ticking (seconds 31); Ticking (seconds 400);
                  StartRace (seconds 500) 0 7; Ticking (seconds 501)] Examples.waiting).
  { cbn [starts_while_waiting]. split; [|split].
    - intros raceUid Hroom. vm_compute in Hroom. injection Hroom as <-.
      vm_compute. reflexivity.
    - intros raceUid Hroom. vm_compute in Hroom. injection Hroom as <-.
      vm_compute. reflexivity.
    - exact I. }
  split; [exact Hw|].
  exact (proj1 (stages_follow_cycle Examples.reg Examples.characterLevel 1 _ _ Hw)).
Defined.

End StageTheorems.

(** ** Race director: starting a race *)

Section StartRace.

Import RaceDirector.

Variable reg : CourseRegistry.
Variable characterLevel : Z -> Z.

Lemma PrepareItemSpawners_instance uid d i :
  _raceInstances d !! uid = Some i ->
  exists t, _raceInstances (PrepareItemSpawners reg uid d) !! uid = Some (set_tracker t i).
Proof.
  intros Hi. unfold PrepareItemSpawners, instance_ref. rewrite Hi.
  destruct (GetCourseGameModeInfo reg (u32 (raceGameMode i))) as [gm|].
  2:{ exists (tracker i). rewrite Hi. now destruct i. }
  destruct (GetMapBlockInfo reg (raceMapBlockId i)) as [mb|].
  2:{ exists (tracker i). rewrite Hi. now destruct i. }
  eexists. cbn. apply lookup_insert_eq.
Qed.

Lemma start_race_snapshot now clientId clientContext room i d mapBlockId details :
  snapshot_of details i ->
  exists d' sent i',
    start_race reg now clientId clientContext room i d mapBlockId = Returned d' sent
    /\ _raceInstances d' !! roomUid clientContext = Some i'
    /\ snapshot_of details i'
    /\ raceMapBlockId i' = u16 mapBlockId
    /\ stage i' = Stage.Loading.
Proof.
  intros (Hg & Ht & Hm). unfold start_race.
  set (i1 := set_tracker _ (set_raceMapBlockId (u16 mapBlockId) i)).
  destruct (PrepareItemSpawners_instance (roomUid clientContext)
              (put_instance (roomUid clientContext) i1 d) i1) as [t Hprep].
  { cbn. apply lookup_insert_eq. }
  unfold instance_ref at 1. rewrite Hprep.
  do 3 eexists. split; [reflexivity|]. split.
  { cbn. apply lookup_insert_eq. }
  repeat split; assumption.
Qed.

(** Whenever [HandleStartRace] returns, the sender is the master of the
    room and the race instance has the game mode and the mission id of the
    room -- and, as its team mode, the value of the room's game mode. *)
Lemma HandleStartRace_snapshot now rd clientId d d' sent :
  HandleStartRace reg characterLevel now rd clientId d = Returned d' sent ->
  exists clientContext room i',
    GetClientContext clientId true d = inl clientContext
    /\ characterUid clientContext
       = masterUid (fst (instance_ref (roomUid clientContext) d))
    /\ rooms d !! roomUid clientContext = Some room
    /\ _raceInstances d' !! roomUid clientContext = Some i'
    /\ snapshot_of (RoomSystem._details room) i'.
Proof.
  unfold HandleStartRace.
  destruct (GetClientContext clientId true d) as [ctx|what]; [|discriminate].
  assert (Hrooms : rooms (snd (instance_ref (roomUid ctx) d)) = rooms d).
  { unfold instance_ref. now destruct (_raceInstances d !! roomUid ctx). }
  destruct (instance_ref (roomUid ctx) d) as [i d1] eqn:Href. cbn in Hrooms.
  destruct (characterUid ctx =? masterUid i) eqn:Hmaster; cbn [negb]; [|discriminate].
  apply Z.eqb_eq in Hmaster.
  destruct (rooms d1 !! roomUid ctx) as [room|] eqn:Hroom; [|discriminate].
  rewrite Hrooms in Hroom. cbv zeta.
  set (i1 := set_raceMissionId _ (set_raceTeamMode _ (set_raceGameMode _ i))).
  assert (Hsnap : snapshot_of (RoomSystem._details room) i1) by (repeat split).
  intros Hrun. exists ctx, room.
  assert (Hstart : forall mapBlockId,
            start_race reg now clientId ctx room i1
              (put_instance (roomUid ctx) i1 d1) mapBlockId = Returned d' sent ->
            exists i', _raceInstances d' !! roomUid ctx = Some i'
                       /\ snapshot_of (RoomSystem._details room) i').
  { intros mapBlockId Hrun0.
    destruct (start_race_snapshot now clientId ctx room i1
                (put_instance (roomUid ctx) i1 d1) mapBlockId _ Hsnap)
      as (d'' & sent' & i' & Hrun' & Hi' & Hsnap' & _).
    rewrite Hrun0 in Hrun'. injection Hrun' as <- <-.
    exists i'. auto. }
  assert (Hi' : exists i', _raceInstances d' !! roomUid ctx = Some i'
                           /\ snapshot_of (RoomSystem._details room) i').
  { revert Hrun. destruct (_ || _); [|apply Hstart].
    destruct (GetCourseGameModeInfo reg _) as [gm|]; [|discriminate].
    destruct (mapPool gm) as [|m pool]; [apply Hstart|].
    destruct (uniform_int_distribution 0 _ rd) as [k|]; [apply Hstart|discriminate]. }
  destruct Hi' as (i' & Hi' & Hsnap').
  exists i'. rewrite Href. cbn [fst]. auto.
Qed.

End StartRace.

Section StartRaceEvaluation.

Import RaceDirector.

(** C6 on the example room, a Speed room in team mode with mission 7.  The
    master's start-race command is accepted and leaves the race in
    [Loading] with game mode 1 (Speed) and mission 7 -- and with team mode
    1, the value of the room's game mode, where the room's team mode
    ([Team]) has the value 2.  The command of the other player raises.  On
    the pseudo-course 10000 the map comes from the maps of the pool that
    the master's level allows, at the position the distribution returns:
    maps 1 and 2 of the pool 1, 2, 3 at level 5, and map 3 too at level
    10; an empty pool gives map 1; a pool with no allowed map is an error
    in the use of the distribution. *)
Theorem start_race_on_example :
  started_instance
    (HandleStartRace Examples.reg Examples.characterLevel 0 0 7 Examples.waiting)
  = Some (Stage.Loading, 1, 1, 7, 2)
  /\ RoomSystem.TeamMode_value (RoomSystem.teamMode Examples.details) = 2
  /\ HandleStartRace Examples.reg Examples.characterLevel 0 0 8 Examples.waiting
     = Thrown Examples.waiting []
         "Client tried to start the race even though they're not the master"
  /\ started_instance
       (HandleStartRace Examples.reg Examples.characterLevel 0 0 7 Examples.waiting_all_maps)
     = Some (Stage.Loading, 1, 1, 7, 1)
  /\ started_instance
       (HandleStartRace Examples.reg Examples.characterLevel 0 1 7 Examples.waiting_all_maps)
     = Some (Stage.Loading, 1, 1, 7, 2)
  /\ started_instance
       (HandleStartRace Examples.reg (fun _ => 10) 0 2 7 Examples.waiting_all_maps)
     = Some (Stage.Loading, 1, 1, 7, 3)
  /\ started_instance
       (HandleStartRace Examples.reg_no_pool Examples.characterLevel 0 5 7
          Examples.waiting_all_maps)
     = Some (Stage.Loading, 1, 1, 7, 1)
  /\ HandleStartRace Examples.reg (fun _ => 0) 0 0 7 Examples.waiting_all_maps = Undefined.
Proof. repeat split; vm_compute; reflexivity. Qed.

End StartRaceEvaluation.

(** ** Lobby: the login frame *)

Section LoginFrame.

Import Lobby.

Context {D : Type}.

Implicit Types (s : @State D) (command : AcCmdCLLogin).

Lemma is_logged_in_true login (clients : gmap Z ClientContext) other clientContext :
  clients !! other = Some clientContext ->
  userName clientContext = login ->
  isAuthenticated clientContext = true ->
  is_logged_in login clients = true.
Proof.
  intros Hlookup Hname Hauth. unfold is_logged_in. apply existsb_exists.
  exists clientContext. split.
  - apply list_elem_of_In.
    apply (list_elem_of_fmap_2 snd _ (other, clientContext)).
    now apply elem_of_map_to_list.
  - rewrite Hname, Hauth, String.eqb_refl. reflexivity.
Qed.

Lemma nonempty_eqb (a : string) : a <> ""%string -> String.eqb a "" = false.
Proof. intros Hne. now apply String.eqb_neq. Qed.

(** [HandleLogin] sends a login cancel for two reasons only. *)
Lemma HandleLogin_cancel_reasons NDEBUG clientId command s c reason :
  match HandleLogin NDEBUG clientId command s with
  | Returned _ sent | Thrown _ sent _ =>
      In (c, AcCmdCLLoginCancel reason) sent ->
      reason = InvalidLoginId \/ reason = Duplicated
  | Aborted => True
  end.
Proof.
  unfold HandleLogin.
  destruct (negb NDEBUG && negb _); [exact I|].
  destruct (String.eqb (loginId command) "" || String.eqb (authKey command) "").
  { cbn. intros [[= _ <-]|[]]. now left. }
  destruct (is_logged_in (loginId command) (_clients s)).
  { cbn. intros [[= _ <-]|[]]. now right. }
  destruct (_clients s !! clientId); cbn; intros [].
Qed.

(** C9 on the code: [HandleLogin] checks the version constants with an
    [assert] and has no reply for a mismatch.  A login frame with the
    constants 49 and 281 aborts the server when assertions are compiled in,
    and is queued like any other login when they are compiled out; no run
    of [HandleLogin] sends a login cancel with reason [InvalidVersion]. *)
Theorem login_version_mismatch_not_rejected :
  (forall NDEBUG clientId command (s : @State D) c,
     match HandleLogin NDEBUG clientId command s with
     | Returned _ sent | Thrown _ sent _ =>
         ~ In (c, AcCmdCLLoginCancel InvalidVersion) sent
     | Aborted => True
     end)
  /\ HandleLogin false 3 (mkLogin 49 281 "alice" 0 "T" 0) Examples.lobby = Aborted
  /\ HandleLogin true 3 (mkLogin 49 281 "alice" 0 "T" 0) Examples.lobby
     = Returned
         (set_scheduler [QueueClientLoginTask 3 "alice" "T"]
            (set_clients
               (<[3 := set_userName "alice" ClientContext_default]>
                  (_clients Examples.lobby))
               Examples.lobby))
         [].
Proof.
  split; [|split].
  - intros NDEBUG clientId command s c.
    pose proof (HandleLogin_cancel_reasons NDEBUG clientId command s c InvalidVersion) as Hr.
    destruct (HandleLogin NDEBUG clientId command s); [| |exact I];
      intros Hin; destruct (Hr Hin); discriminate.
  - reflexivity.
  - vm_compute. reflexivity.
Qed.

(** C10: with the version assertion passed (or compiled out), a login
    frame whose [loginId] or [authKey] is empty is answered at once with
    login-cancel [InvalidLoginId], and a frame whose [loginId] is the user
    name of a connected client that is authenticated is answered at once
    with login-cancel [Duplicated].  In both cases the handler returns with
    the lobby unchanged: no task is handed to the scheduler, so nothing
    puts the client into the login request queue. *)
Theorem login_rejected_before_queueing NDEBUG clientId command s :
  NDEBUG = true \/ (constant0 command = 50 /\ constant1 command = 281) ->
  (loginId command = ""%string \/ authKey command = ""%string ->
     HandleLogin NDEBUG clientId command s
     = Returned s [(clientId, AcCmdCLLoginCancel InvalidLoginId)])
  /\ (loginId command <> ""%string -> authKey command <> ""%string ->
      (exists other clientContext,
         _clients s !! other = Some clientContext
         /\ userName clientContext = loginId command
         /\ isAuthenticated clientContext = true) ->
      HandleLogin NDEBUG clientId command s
      = Returned s [(clientId, AcCmdCLLoginCancel Duplicated)])
  /\ (forall s' sent reason,
        HandleLogin NDEBUG clientId command s = Returned s' sent ->
        In (clientId, AcCmdCLLoginCancel reason) sent ->
        _scheduler s' = _scheduler s
        /\ _loginRequestQueue s' = _loginRequestQueue s).
Proof.
  intros Hassert.
  assert (Hpass : negb NDEBUG
                  && negb ((constant0 command =? 50) && (constant1 command =? 281)) = false).
  { destruct Hassert as [->|[-> ->]]; [reflexivity|]. cbn. apply andb_false_r. }
  unfold HandleLogin. rewrite Hpass. split; [|split].
  - intros [Hl|Ha].
    + rewrite Hl. reflexivity.
    + rewrite Ha, String.eqb_refl, orb_true_r. reflexivity.
  - intros Hl Ha (other & clientContext & Hlookup & Hname & Hauth).
    rewrite (nonempty_eqb _ Hl), (nonempty_eqb _ Ha). cbn [orb].
    now rewrite (is_logged_in_true _ _ other clientContext).
  - intros s' sent reason.
    destruct (String.eqb (loginId command) "" || String.eqb (authKey command) "").
    { intros [= <- <-] _. auto. }
    destruct (is_logged_in (loginId command) (_clients s)).
    { intros [= <- <-] _. auto. }
    destruct (_clients s !! clientId); [|discriminate].
    intros [= <- <-] [].
Qed.

End LoginFrame.

Section LoginFrameWitness.

Import Lobby.

Lemma login_rejected_before_queueing_witness :
  HandleLogin false 3 (mkLogin 50 281 "" 0 "T" 0) Examples.lobby
  = Returned Examples.lobby [(3, AcCmdCLLoginCancel InvalidLoginId)]
  /\ HandleLogin false 3 (mkLogin 50 281 "carol" 0 "T" 0) Examples.lobby
     = Returned Examples.lobby [(3, AcCmdCLLoginCancel Duplicated)].
Proof.
  split.
  - assert (Hv : false = true \/ (constant0 (mkLogin 50 281 "" 0 "T" 0) = 50
                                  /\ constant1 (mkLogin 50 281 "" 0 "T" 0) = 281))
      by (right; split; reflexivity).
    destruct (login_rejected_before_queueing false 3 (mkLogin 50 281 "" 0 "T" 0)
                Examples.lobby Hv) as [Hempty _].
    apply Hempty. left. reflexivity.
  - assert (Hv : false = true \/ (constant0 (mkLogin 50 281 "carol" 0 "T" 0) = 50
                                  /\ constant1 (mkLogin 50 281 "carol" 0 "T" 0) = 281))
      by (right; split; reflexivity).
    destruct (login_rejected_before_queueing false 3 (mkLogin 50 281 "carol" 0 "T" 0)
                Examples.lobby Hv) as (_ & Hdup & _).
    apply Hdup; [discriminate | discriminate |].
    exists 4, Examples.carol. repeat split; vm_compute; reflexivity.
Defined.

End LoginFrameWitness.

(** ** Lobby: the login queue *)

Section LoginQueue.

Import Lobby.

Context {D : Type} `{DataDirector D}.

Variable preventServerJoining : string -> bool.

Implicit Types (s : @State D).

Lemma login_ref_present clientId s login :
  _clientLogins s !! clientId = Some login -> login_ref clientId s = (login, s).
Proof. intros Hl. unfold login_ref. now rewrite Hl. Qed.

Lemma RejectLogin_connected clientId reason s :
  is_Some (_clients s !! clientId) ->
  RejectLogin clientId reason s = [(clientId, AcCmdCLLoginCancel reason)].
Proof. intros [c Hc]. unfold RejectLogin. now rewrite Hc. Qed.

(** The pass of the request loop on a head whose user record is loaded. *)
Lemma request_pass_loaded s clientId rest login user :
  request_head_loaded s clientId rest login user ->
  request_pass preventServerJoining s
  = let popped := set_loginRequestQueue rest s in
    if negb (String.eqb (token user) (userToken login))
    then Break popped [(clientId, AcCmdCLLoginCancel InvalidUser)]
    else if preventServerJoining (ql_userName login)
    then Break popped [(clientId, AcCmdCLLoginCancel DisconnectYourself)]
    else Break (set_loginResponseQueue (_loginResponseQueue s ++ [clientId]) popped) [].
Proof.
  intros (Hq & Hl & Hreq & Hbusy & Hloaded & Huser & Hconn).
  unfold request_pass. rewrite Hq, (login_ref_present _ _ _ Hl), Hreq. cbn [negb].
  rewrite Hbusy. cbn [data set_loginRequestQueue]. rewrite Hloaded. cbn [negb].
  rewrite Huser. cbv zeta.
  destruct (String.eqb (token user) (userToken login)); cbn [negb].
  - destruct (preventServerJoining (ql_userName login)); [|reflexivity].
    now rewrite RejectLogin_connected.
  - now rewrite RejectLogin_connected.
Qed.

(** The pass of the response loop on a head whose character is loaded and
    whose user name is in [_userInstances] already. *)
Lemma response_pass_duplicate s clientId rest login user :
  response_head_loaded s clientId rest login user ->
  is_Some (_userInstances s !! ql_userName login) ->
  response_pass s
  = Return
      (set_charactersForcedIntoCreator
         (_charactersForcedIntoCreator s ∖ {[user_characterUid user]})
         (set_loginResponseQueue rest s))
      [(clientId, AcCmdCLLoginCancel Duplicated)].
Proof.
  intros (Hq & Hl & Hreq & Hbusy & Huser & Hchar & Hforced & Hloaded & Hconn) [ui Hui].
  unfold response_pass. rewrite Hq, (login_ref_present _ _ _ Hl), Hreq, Hbusy.
  cbn [andb]. rewrite Huser. cbv zeta.
  apply Z.eqb_neq in Hchar. rewrite Hchar. cbn [negb andb orb].
  rewrite bool_decide_eq_false_2 by exact Hforced.
  cbn [data set_charactersForcedIntoCreator set_loginResponseQueue _userInstances].
  rewrite Hloaded. cbn [negb]. rewrite Hui.
  now rewrite RejectLogin_connected.
Qed.

Lemma while_pass (pass : @State D -> Flow) fuel s flow :
  pass s = flow -> (forall s', flow <> Continue s') ->
  while pass (S fuel) s = Some flow.
Proof.
  intros Hp Hnc. cbn. rewrite Hp. destruct flow; try reflexivity.
  now destruct (Hnc s0).
Qed.

(** C5: in [Tick], once the response loop has been left by [break], the
    head of the request queue whose user record has finished loading is
    settled: a stored token that differs from the submitted one sends the
    client login-cancel [InvalidUser]; otherwise a user the infraction
    system keeps from joining is sent login-cancel [DisconnectYourself];
    otherwise the client is appended to the response queue.  In each case
    the head is popped and the tick ends with the scheduler.  At the
    response stage a head whose character has finished loading and whose
    user name is present in [_userInstances] is sent login-cancel
    [Duplicated] (and the tick returns there). *)
Theorem login_queue_settles fuel s s1 sent1 clientId rest login user :
  while response_pass (S fuel) s = Some (Break s1 sent1) ->
  request_head_loaded s1 clientId rest login user ->
  let popped := set_loginRequestQueue rest s1 in
  (token user <> userToken login ->
     Tick preventServerJoining (S fuel) s
     = Some (Ticked (scheduler_Tick popped)
               (sent1 ++ [(clientId, AcCmdCLLoginCancel InvalidUser)])))
  /\ (token user = userToken login ->
      preventServerJoining (ql_userName login) = true ->
      Tick preventServerJoining (S fuel) s
      = Some (Ticked (scheduler_Tick popped)
                (sent1 ++ [(clientId, AcCmdCLLoginCancel DisconnectYourself)])))
  /\ (token user = userToken login ->
      preventServerJoining (ql_userName login) = false ->
      Tick preventServerJoining (S fuel) s
      = Some (Ticked
                (scheduler_Tick
                   (set_loginResponseQueue (_loginResponseQueue s1 ++ [clientId]) popped))
                (sent1 ++ [])))
  /\ (forall s0 clientId0 rest0 login0 user0,
        response_head_loaded s0 clientId0 rest0 login0 user0 ->
        is_Some (_userInstances s0 !! ql_userName login0) ->
        Tick preventServerJoining (S fuel) s0
        = Some (Ticked
                  (set_charactersForcedIntoCreator
                     (_charactersForcedIntoCreator s0 ∖ {[user_characterUid user0]})
                     (set_loginResponseQueue rest0 s0))
                  [(clientId0, AcCmdCLLoginCancel Duplicated)])).
Proof.
  intros Hresp Hhead popped.
  pose proof (request_pass_loaded s1 clientId rest login user Hhead) as Hpass.
  cbv zeta in Hpass. fold popped in Hpass.
  split; [|split; [|split]].
  - intros Hne. unfold Tick. rewrite Hresp.
    apply String.eqb_neq in Hne. rewrite Hne in Hpass. cbn [negb] in Hpass.
    rewrite (while_pass _ fuel s1 _ Hpass) by discriminate. reflexivity.
  - intros Heq Hban. unfold Tick. rewrite Hresp.
    apply String.eqb_eq in Heq. rewrite Heq, Hban in Hpass. cbn [negb] in Hpass.
    rewrite (while_pass _ fuel s1 _ Hpass) by discriminate. reflexivity.
  - intros Heq Hfree. unfold Tick. rewrite Hresp.
    apply String.eqb_eq in Heq. rewrite Heq, Hfree in Hpass. cbn [negb] in Hpass.
    rewrite (while_pass _ fuel s1 _ Hpass) by discriminate. reflexivity.
  - intros s0 clientId0 rest0 login0 user0 Hhead0 Hdup. unfold Tick.
    rewrite (while_pass _ fuel s0 _ (response_pass_duplicate _ _ _ _ _ Hhead0 Hdup))
      by discriminate.
    reflexivity.
Qed.

End LoginQueue.

Section LoginQueueWitness.

Import Lobby.

Lemma example_request_head tok :
  request_head_loaded (Examples.lobby_with_request tok) 3 []
    (mkQueuedLogin "alice" tok true false) (mkUser "T" 42).
Proof. repeat split; try (vm_compute; reflexivity). vm_compute. eauto. Defined.

Lemma example_response_head :
  response_head_loaded Examples.lobby_with_response 3 []
    (mkQueuedLogin "alice" "T" true true) (mkUser "T" 42).
Proof.
  repeat split; try (vm_compute; reflexivity).
  - vm_compute. discriminate.
  - vm_compute. set_solver.
  - vm_compute. eauto.
Defined.

Lemma login_queue_settles_witness :
  (exists s',
     Tick Examples.nobody_banned 2 (Examples.lobby_with_request "X")
     = Some (Ticked s' [(3, AcCmdCLLoginCancel InvalidUser)]))
  /\ (exists s',
        Tick (fun _ => true) 2 (Examples.lobby_with_request "T")
        = Some (Ticked s' [(3, AcCmdCLLoginCancel DisconnectYourself)]))
  /\ (exists s',
        Tick Examples.nobody_banned 2 (Examples.lobby_with_request "T")
        = Some (Ticked s' []) /\ _loginResponseQueue s' = [3])
  /\ (exists s',
        Tick Examples.nobody_banned 2 Examples.lobby_with_response
        = Some (Ticked s' [(3, AcCmdCLLoginCancel Duplicated)])).
Proof.
  assert (Hresp : forall tok,
            while response_pass 2 (Examples.lobby_with_request tok)
            = Some (Break (Examples.lobby_with_request tok) [])) by reflexivity.
  split; [|split; [|split]].
  - destruct (login_queue_settles Examples.nobody_banned 1 _ _ _ 3 [] _ _
                (Hresp "X"%string) (example_request_head "X")) as (Hbad & _).
    eexists. apply Hbad. discriminate.
  - destruct (login_queue_settles (fun _ => true) 1 _ _ _ 3 [] _ _
                (Hresp "T"%string) (example_request_head "T")) as (_ & Hban & _).
    eexists. apply Hban; reflexivity.
  - destruct (login_queue_settles Examples.nobody_banned 1 _ _ _ 3 [] _ _
                (Hresp "T"%string) (example_request_head "T")) as (_ & _ & Hok & _).
    eexists. split; [apply Hok; reflexivity|]. vm_compute. reflexivity.
  - destruct (login_queue_settles Examples.nobody_banned 1 _ _ _ 3 [] _ _
                (Hresp "T"%string) (example_request_head "T")) as (_ & _ & _ & Hdup).
    eexists. apply (Hdup _ _ _ _ _ example_response_head). vm_compute. eauto.
Defined.

End LoginQueueWitness.

(** * Further properties *)

(** ** Frame codec beyond the fourteen-bit range *)

Section FrameCodecTruncation.

Import FrameCodec.

(** Two values whose bits from [w] on are all clear are equal when their
    [w] low bits are. *)
Lemma eq_bits_upto (w : nat) a b :
  (forall n, Z.of_nat w <= n -> Z.testbit a n = false) ->
  (forall n, Z.of_nat w <= n -> Z.testbit b n = false) ->
  (forall k : nat, (k < w)%nat -> Z.testbit a (Z.of_nat k) = Z.testbit b (Z.of_nat k)) ->
  a = b.
Proof.
  intros Ha Hb H. apply Z.bits_inj'. intros n Hn.
  destruct (Z.lt_ge_cases n (Z.of_nat w)) as [Hlt|Hge].
  - rewrite <- (Z2Nat.id n) by exact Hn. apply H. lia.
  - now rewrite Ha, Hb.
Qed.

Lemma high_bits_u32 z n : 32 <= n -> Z.testbit (u32 z) n = false.
Proof.
  intros Hn. rewrite testbit_u32.
  replace (n <? 32) with false by (symmetry; apply Z.ltb_ge; lia). reflexivity.
Qed.

Lemma high_bits_u16 z n : 16 <= n -> Z.testbit (u16 z) n = false.
Proof.
  intros Hn. rewrite testbit_u16.
  replace (n <? 16) with false by (symmetry; apply Z.ltb_ge; lia). reflexivity.
Qed.

Lemma high_bits_land a c w n :
  0 <= w -> 0 <= c < 2 ^ w -> w <= n -> Z.testbit (Z.land a c) n = false.
Proof.
  intros Hw Hc Hn. rewrite Z.land_spec, (testbit_above w c n) by lia.
  apply andb_false_r.
Qed.

Ltac each_bit_upto w :=
  apply (eq_bits_upto w);
  [ | |
    let k := fresh "k" in
    let Hk := fresh "Hk" in
    intros k Hk;
    do 32 (try (destruct k as [|k]; [ clear Hk | apply PeanoNat.lt_S_n in Hk ]));
    try (exfalso; apply (PeanoNat.Nat.nlt_0_r _ Hk));
    cbn [Z.of_nat Pos.of_succ_nat Pos.succ] ].

(** What [decode_message_length] reads from a header with the low bits of
    [len]: the fourteen low bits of [len]. *)
Lemma decode_length_of_header_mask data len :
  header_low_bits data len -> decode_message_length data = Z.land len 16383.
Proof.
  intros Hd.
  destruct Hd as (H0&H1&H2&H3&H4&H5&H6&H7&H8&H9&H10&H11&H12&H13&H14&H15).
  unfold decode_message_length. rewrite H15. cbv zeta.
  each_bit_upto 32%nat;
    [ intros n Hn; now apply high_bits_u32
    | intros n Hn; apply (high_bits_land _ _ 32); cbn in *; lia
    | .. ].
  all: blast_bit;
    rewrite ?H0, ?H1, ?H2, ?H3, ?H4, ?H5, ?H6, ?H7, ?H8, ?H9, ?H10, ?H11, ?H12, ?H13;
    bool_units; reflexivity.
Qed.

(** What the length output of [decode_message_information] reads from such a
    header: its [section] keeps ten bits, which leaves the length bits 0, 1
    and 4 to 11. *)
Lemma decode_information_of_header data len :
  header_low_bits data len ->
  option_map snd (decode_message_information data) = Some (Z.land len 4083).
Proof.
  intros Hd.
  destruct Hd as (H0&H1&H2&H3&H4&H5&H6&H7&H8&H9&H10&H11&H12&H13&H14&H15).
  unfold decode_message_information. rewrite H15. cbv zeta. cbn [option_map snd].
  f_equal.
  each_bit_upto 16%nat;
    [ intros n Hn; now apply high_bits_u16
    | intros n Hn; apply (high_bits_land _ _ 16); cbn in *; lia
    | .. ].
  all: blast_bit;
    rewrite ?H0, ?H1, ?H2, ?H3, ?H4, ?H5, ?H6, ?H7, ?H8, ?H9, ?H10, ?H11, ?H12, ?H13;
    bool_units; reflexivity.
Qed.

(** X2: the length output of the second prototype's
    [decode_message_information] is the payload length with only its bits 0,
    1 and 4 to 11 kept (mask [0xFF3]); a length comes back unchanged exactly
    when it has no other bit set. *)
Theorem information_length_keeps_mask_0xFF3 (id jumbo len bs : Z) :
  let decoded :=
    option_map snd (decode_message_information (encode_message_information id jumbo len bs)) in
  decoded = Some (Z.land len 4083)
  /\ (decoded = Some len <-> Z.land len 4083 = len).
Proof.
  cbv zeta.
  rewrite (decode_information_of_header _ len) by apply encode_low_bits.
  split; [reflexivity|]. split; [now intros [= ->]|now intros ->].
Qed.

(** The id output of [decode_message_information] on an encoded header. *)
Lemma decode_id_mask (id jumbo len bs : Z) :
  option_map fst (decode_message_information (encode_message_information id jumbo len bs))
  = Some (Z.land (Z.lor jumbo id) 16383).
Proof.
  unfold decode_message_information. rewrite encode_marker_bit.
  cbv zeta. cbn [option_map fst]. f_equal.
  unfold encode_message_information. cbv zeta.
  set (X := Z.lor (Z.lor _ _) _). clearbody X.
  each_bit_upto 16%nat;
    [ intros n Hn; now apply high_bits_u16
    | intros n Hn; apply (high_bits_land _ _ 16); cbn in *; lia
    | .. ].
  all: blast_bit;
    repeat match goal with
    | |- context [Z.testbit ?a ?k] => destruct (Z.testbit a k)
    end; reflexivity.
Qed.

(** X1: what the decoders read back from the header that
    [encode_message_information] builds, for every message id, jumbo flag,
    payload length and buffer size: [decode_message_length] gives the
    fourteen low bits of the payload length, a value below [0x4000], and
    the id output of [decode_message_information] gives the fourteen low
    bits of [message_jumbo | message_id]. *)
Theorem decoded_fields_are_low_14_bits (id jumbo len bs : Z) :
  let header := encode_message_information id jumbo len bs in
  decode_message_length header = Z.land len 16383
  /\ 0 <= decode_message_length header < 2 ^ 14
  /\ option_map fst (decode_message_information header)
     = Some (Z.land (Z.lor jumbo id) 16383).
Proof.
  cbv zeta.
  assert (Heq : decode_message_length (encode_message_information id jumbo len bs)
                = Z.land len 16383)
    by (apply decode_length_of_header_mask, encode_low_bits).
  split; [exact Heq|]. split; [|apply decode_id_mask].
  rewrite Heq. change 16383 with (Z.ones 14).
  rewrite Z.land_ones by lia. apply Z.mod_pos_bound. lia.
Qed.

(** X3: the header does not depend on the [buffer_size] argument, nor on
    the bits of the payload length from bit 14 on. *)
Theorem header_ignores_buffer_size (id jumbo len bs bs' : Z) :
  encode_message_information id jumbo len bs
  = encode_message_information id jumbo (Z.land len 16383) bs'.
Proof.
  unfold encode_message_information. cbv zeta.
  set (L := u32 (Z.lor (Z.shiftl bs 16) len)).
  set (L' := u32 (Z.lor (Z.shiftl bs' 16) (Z.land len 16383))).
  assert (HL : forall n, 0 <= n < 14 -> Z.testbit L n = Z.testbit len n).
  { intros n Hn. unfold L. rewrite testbit_u32, Z.lor_spec, testbit_shiftl.
    rewrite (Z.testbit_neg_r bs) by lia.
    replace (n <? 32) with true by (symmetry; apply Z.ltb_lt; lia).
    now rewrite andb_false_r. }
  assert (HL' : forall n, 0 <= n < 14 -> Z.testbit L' n = Z.testbit len n).
  { intros n Hn. unfold L'. rewrite testbit_u32, Z.lor_spec, testbit_shiftl.
    rewrite (Z.testbit_neg_r bs') by lia.
    replace (n <? 32) with true by (symmetry; apply Z.ltb_lt; lia).
    rewrite andb_false_r. cbn [orb andb]. change 16383 with (Z.ones 14).
    rewrite Z.land_spec, Z.ones_spec_low by lia. apply andb_true_r. }
  clearbody L L'.
  set (mid := u16 (Z.lor (Z.land jumbo 65535) (Z.land id 65535))).
  clearbody mid.
  match goal with
  | |- u32 (Z.lor ?m (Z.shiftl (Z.lxor ?m mid) 16))
       = u32 (Z.lor ?m' (Z.shiftl (Z.lxor ?m' mid) 16)) =>
      assert (Hm : m = m'); [|now rewrite Hm]
  end.
  each_bit 16%nat; blast_bit; rewrite ?HL, ?HL' by lia; reflexivity.
Qed.

End FrameCodecTruncation.

(** ** XOR codec *)

Section XorCodecProofs.

Import XorCodec.

Lemma control_byte (idx : nat) :
  exists c, control !! (idx mod 4)%nat = Some c /\ 0 <= c < 256.
Proof.
  assert (Hlt : (idx mod 4 < 4)%nat) by (apply Nat.mod_upper_bound; lia).
  destruct (idx mod 4)%nat as [|[|[|[|n]]]]; cbn; try (eexists; split; [reflexivity|lia]).
  lia.
Qed.

Lemma lxor_byte a b : 0 <= a < 256 -> 0 <= b < 256 -> 0 <= Z.lxor a b < 256.
Proof.
  intros Ha Hb.
  assert (Hmod : Z.lxor a b = Z.lxor a b mod 2 ^ 8).
  { apply Z.bits_inj'. intros n Hn.
    destruct (Z.lt_ge_cases n 8) as [Hlt|Hge].
    - now rewrite Z.mod_pow2_bits_low.
    - rewrite Z.mod_pow2_bits_high by lia.
      rewrite Z.lxor_spec, (testbit_above 8 a n), (testbit_above 8 b n) by lia.
      reflexivity. }
  rewrite Hmod. apply Z.mod_pos_bound. lia.
Qed.

Lemma lxor_twice a c : Z.lxor (Z.lxor a c) c = a.
Proof. now rewrite Z.lxor_assoc, Z.lxor_nilpotent, Z.lxor_0_r. Qed.

(** X4: [xor_codec_cpp] is its own inverse: applying it twice gives the
    buffer back.  It keeps the length of the buffer, and bytes stay
    bytes. *)
Theorem xor_codec_involutive (buffer : list Z) :
  xor_codec_cpp (xor_codec_cpp buffer) = buffer
  /\ length (xor_codec_cpp buffer) = length buffer
  /\ (is_bytes buffer -> is_bytes (xor_codec_cpp buffer)).
Proof.
  split; [|split].
  - apply list_eq. intros i. unfold xor_codec_cpp.
    rewrite !list_lookup_imap. destruct (buffer !! i) as [b|]; [|reflexivity].
    cbn. now rewrite lxor_twice.
  - unfold xor_codec_cpp. apply length_imap.
  - unfold is_bytes, xor_codec_cpp. rewrite !Forall_lookup.
    intros Hb i x Hx. rewrite list_lookup_imap in Hx.
    destruct (buffer !! i) as [b|] eqn:Hbi; [|discriminate].
    destruct (control_byte i) as (c & Hci & Hc). rewrite Hci in Hx.
    cbn [fmap option_fmap option_map default] in Hx. injection Hx as <-.
    apply lxor_byte; [exact (Hb i b Hbi) | exact Hc].
Qed.

End XorCodecProofs.

(** ** Rooms: queue, players and teams *)

Section RoomPlayers.

Import RoomSystem RoomRegistry.

Lemma set_queuedPlayers_same r : set_queuedPlayers (_queuedPlayers r) r = r.
Proof. now destruct r. Qed.

(** X5: queueing and dequeueing undo each other.  In a room that is not
    full, [QueuePlayer] of a uid that is not queued succeeds and a
    [DequeuePlayer] right after it succeeds and gives the room back; a full
    room refuses [QueuePlayer] and stays as it is; [DequeuePlayer] of a uid
    that is not queued answers [false] and changes nothing. *)
Theorem queue_then_dequeue (u : Z) (r : Room) :
  u ∉ _queuedPlayers r ->
  (IsRoomFull r = false ->
     exists r', QueuePlayer u r = (true, r') /\ DequeuePlayer u r' = (true, r))
  /\ (IsRoomFull r = true -> QueuePlayer u r = (false, r))
  /\ DequeuePlayer u r = (false, r).
Proof.
  intros Hu. split; [|split].
  - intros Hfull. unfold QueuePlayer. rewrite Hfull. eexists. split; [reflexivity|].
    unfold DequeuePlayer. cbn. f_equal.
    + apply bool_decide_eq_true_2. set_solver.
    + destruct r as [det uid q p playing]. cbn in *. unfold set_queuedPlayers. cbn.
      f_equal. apply leibniz_equiv. set_solver.
  - intros Hfull. unfold QueuePlayer. now rewrite Hfull.
  - unfold DequeuePlayer. f_equal.
    + apply bool_decide_eq_false_2. exact Hu.
    + destruct r as [det uid q p playing]. cbn in *. unfold set_queuedPlayers. cbn.
      f_equal. apply leibniz_equiv. set_solver.
Qed.

Lemma queue_then_dequeue_witness :
  let r := Room_new 1 (mkDetails "room" "" 0 0 2 Speed TeamMode_Solo false 0) in
  exists r', QueuePlayer 7 r = (true, r') /\ DequeuePlayer 7 r' = (true, r).
Proof.
  cbv zeta.
  assert (Hu : (7 : Z) ∉ _queuedPlayers
                 (Room_new 1 (mkDetails "room" "" 0 0 2 Speed TeamMode_Solo false 0)))
    by (cbn; set_solver).
  destruct (queue_then_dequeue 7 _ Hu) as [Hq _]. apply Hq. reflexivity.
Defined.

(** X6: [AddPlayer] of a character that is committed already keeps the
    player it has -- ready flag and team -- and the player count; it still
    answers [true] and takes the uid off the queue.  When the players have
    reached [maxPlayerCount] it answers [false] and the room, queue
    included, stays as it is. *)
Theorem add_player_again (rand u : Z) (r : Room) (player : Player) :
  _players r !! u = Some player ->
  (Z.of_nat (size (_players r)) < maxPlayerCount (_details r) ->
     exists r', AddPlayer rand u r = (true, r')
       /\ _players r' = _players r
       /\ GetPlayer u r' = Some player
       /\ _queuedPlayers r' = _queuedPlayers r ∖ {[u]})
  /\ (maxPlayerCount (_details r) <= Z.of_nat (size (_players r)) ->
      AddPlayer rand u r = (false, r)).
Proof.
  intros Hp. split.
  - intros Hroom. unfold AddPlayer.
    replace (maxPlayerCount (_details r) <=? Z.of_nat (size (_players r))) with false
      by (symmetry; apply Z.leb_gt; exact Hroom).
    eexists. split; [reflexivity|]. cbn.
    unfold GetPlayer, try_emplace. cbn. rewrite Hp. auto.
  - intros Hfull. unfold AddPlayer.
    replace (maxPlayerCount (_details r) <=? Z.of_nat (size (_players r))) with true
      by (symmetry; apply Z.leb_le; exact Hfull).
    reflexivity.
Qed.

Lemma add_player_again_witness :
  let r := calls [CallAddPlayer 0 7; CallQueuePlayer 7]
             (Room_new 1 (mkDetails "room" "" 0 0 2 Speed TeamMode_Team false 0)) in
  exists r', AddPlayer 1 7 r = (true, r') /\ _players r' = _players r.
Proof.
  cbv zeta.
  set (r := calls [CallAddPlayer 0 7; CallQueuePlayer 7]
              (Room_new 1 (mkDetails "room" "" 0 0 2 Speed TeamMode_Team false 0))).
  assert (Hp : _players r !! 7 = Some (mkPlayer false Red)) by reflexivity.
  destruct (add_player_again 1 7 r _ Hp) as [Hadd _].
  destruct Hadd as (r' & H1 & H2 & _); [vm_compute; reflexivity|].
  exists r'. split; [exact H1 | exact H2].
Defined.

Lemma teamCounts_insert u player (players : gmap Z Player) :
  players !! u = None ->
  teamCounts (<[u := player]> players)
  = match _team player with
    | Red => (S (fst (teamCounts players)), snd (teamCounts players))
    | Blue => (fst (teamCounts players), S (snd (teamCounts players)))
    | Solo => teamCounts players
    end.
Proof.
  intros Hnone. unfold teamCounts at 1.
  rewrite map_fold_insert_L; [reflexivity| |exact Hnone].
  intros j1 j2 z1 z2 y _ _ _. destruct (_team z1), (_team z2); reflexivity.
Qed.

Lemma details_call c r : _details (call c r) = _details r.
Proof.
  destruct c as [u|u|rand u|u]; cbn; try reflexivity.
  - unfold QueuePlayer. now destruct (IsRoomFull r).
  - unfold AddPlayer. now destruct (_ <=? _).
Qed.

(** One [AddPlayer] in team mode: the new player of a uid that is not
    committed joins the smaller team. *)
Lemma AddPlayer_team_step rand u r r' :
  teamMode (_details r) = TeamMode_Team ->
  _players r !! u = None ->
  AddPlayer rand u r = (true, r') ->
  exists player,
    _players r' !! u = Some player
    /\ _isReady player = false
    /\ (0 < team_difference r ->
        _team player = Blue /\ team_difference r' = team_difference r - 1)
    /\ (team_difference r < 0 ->
        _team player = Red /\ team_difference r' = team_difference r + 1)
    /\ (team_difference r = 0 -> Z.abs (team_difference r') = 1).
Proof.
  intros Hmode Hnone. unfold AddPlayer. rewrite Hmode.
  destruct (maxPlayerCount (_details r) <=? Z.of_nat (size (_players r)));
    [discriminate|].
  unfold team_difference.
  destruct (teamCounts (_players r)) as [red blue] eqn:Hcounts.
  intros [= <-]. cbn [_players set_players set_queuedPlayers fst snd].
  unfold try_emplace. rewrite Hnone.
  destruct (Nat.ltb_spec blue red) as [Hbr|Hbr].
  - exists (SetTeam Blue Player_default). rewrite lookup_insert_eq.
    rewrite teamCounts_insert, Hcounts by exact Hnone. cbn.
    repeat split; try reflexivity; lia.
  - destruct (Nat.ltb_spec red blue) as [Hrb|Hrb].
    + exists (SetTeam Red Player_default). rewrite lookup_insert_eq.
      rewrite teamCounts_insert, Hcounts by exact Hnone. cbn.
      repeat split; try reflexivity; lia.
    + eexists. rewrite lookup_insert_eq.
      rewrite teamCounts_insert, Hcounts by exact Hnone.
      split; [reflexivity|]. destruct (rand mod 2 =? 0); cbn; repeat split; lia.
Qed.

(** X7: in team mode [AddPlayer] balances the teams.  A character that is
    not committed yet joins, not ready, the team with fewer players (Blue
    when Red leads, Red when Blue leads), so teams that differ by at most
    one player still do afterwards. *)
Theorem add_player_balances_teams (rand u : Z) (r r' : Room) :
  teamMode (_details r) = TeamMode_Team ->
  _players r !! u = None ->
  AddPlayer rand u r = (true, r') ->
  (exists player,
     GetPlayer u r' = Some player /\ _isReady player = false
     /\ (0 < team_difference r -> _team player = Blue)
     /\ (team_difference r < 0 -> _team player = Red))
  /\ (Z.abs (team_difference r) <= 1 -> Z.abs (team_difference r') <= 1).
Proof.
  intros Hmode Hnone Hadd.
  destruct (AddPlayer_team_step rand u r r' Hmode Hnone Hadd)
    as (player & Hp & Hready & Hblue & Hred & Hlevel).
  split.
  - exists player. repeat split; [exact Hp | exact Hready | |].
    + intros H. now destruct (Hblue H).
    + intros H. now destruct (Hred H).
  - intros Hbal.
    destruct (Z.lt_trichotomy (team_difference r) 0) as [H|[H|H]].
    + destruct (Hred H) as [_ ->]. lia.
    + rewrite (Hlevel H). lia.
    + destruct (Hblue H) as [_ ->]. lia.
Qed.

Lemma add_player_balances_teams_witness :
  let r := calls [CallAddPlayer 0 7]
             (Room_new 1 (mkDetails "room" "" 0 0 4 Speed TeamMode_Team false 0)) in
  exists player, GetPlayer 8 (snd (AddPlayer 0 8 r)) = Some player /\ _team player = Blue.
Proof.
  cbv zeta.
  set (r := calls [CallAddPlayer 0 7]
              (Room_new 1 (mkDetails "room" "" 0 0 4 Speed TeamMode_Team false 0))).
  assert (Hmode : teamMode (_details r) = TeamMode_Team) by reflexivity.
  assert (Hnone : _players r !! 8 = None) by reflexivity.
  assert (Hadd : AddPlayer 0 8 r = (true, snd (AddPlayer 0 8 r))) by reflexivity.
  destruct (add_player_balances_teams 0 8 r _ Hmode Hnone Hadd)
    as [(player & Hp & _ & Hblue & _) _].
  exists player. split; [exact Hp|]. apply Hblue. vm_compute. reflexivity.
Defined.

(** A call that is not [RemovePlayer] keeps the teams of a team-mode room
    within one player of each other. *)
Lemma call_keeps_balance c r :
  teamMode (_details r) = TeamMode_Team ->
  (forall u, c <> CallRemovePlayer u) ->
  Z.abs (team_difference r) <= 1 -> Z.abs (team_difference (call c r)) <= 1.
Proof.
  intros Hmode Hc Hbal. destruct c as [u|u|rand u|u]; cbn [call].
  - unfold QueuePlayer. now destruct (IsRoomFull r).
  - exact Hbal.
  - destruct (AddPlayer rand u r) as [[] r'] eqn:Hadd; cbn [snd].
    + destruct (_players r !! u) as [player|] eqn:Hp.
      * revert Hadd. unfold AddPlayer. destruct (_ <=? _); [discriminate|].
        intros [= <-]. unfold team_difference. cbn. unfold try_emplace. now rewrite Hp.
      * pose proof (AddPlayer_team_step rand u r r' Hmode Hp Hadd)
          as (player & _ & _ & Hblue & Hred & Hlevel).
        destruct (Z.lt_trichotomy (team_difference r) 0) as [H|[H|H]].
        -- destruct (Hred H) as [_ ->]. lia.
        -- rewrite (Hlevel H). lia.
        -- destruct (Hblue H) as [_ ->]. lia.
    + revert Hadd. unfold AddPlayer. destruct (_ <=? _); [|discriminate].
      now intros [= <-].
  - now destruct (Hc u).
Qed.

(** X8: a team-mode room that is only filled -- any sequence of
    [QueuePlayer], [DequeuePlayer] and [AddPlayer] calls on a new room, no
    [RemovePlayer] -- has teams that differ by at most one player. *)
Theorem teams_balanced_while_filling (uid : Z) (details : Details) (cs : list RoomCall) :
  teamMode details = TeamMode_Team ->
  (forall c u, c ∈ cs -> c <> CallRemovePlayer u) ->
  Z.abs (team_difference (calls cs (Room_new uid details))) <= 1.
Proof.
  intros Hmode Hcs.
  assert (Hgen : forall r,
            teamMode (_details r) = TeamMode_Team ->
            Z.abs (team_difference r) <= 1 ->
            Z.abs (team_difference (calls cs r)) <= 1).
  { induction cs as [|c cs IH]; intros r Hm Hbal; [exact Hbal|].
    rewrite calls_cons. apply IH.
    - intros c' u Hin. apply Hcs. now right.
    - now rewrite details_call.
    - apply call_keeps_balance; [exact Hm | | exact Hbal].
      intros u. apply Hcs. now left. }
  apply Hgen; [exact Hmode|]. unfold team_difference. cbn.
  unfold teamCounts. rewrite map_fold_empty. cbn. lia.
Qed.

Lemma teams_balanced_while_filling_witness :
  Z.abs (team_difference
           (calls [CallAddPlayer 0 7; CallAddPlayer 0 8; CallQueuePlayer 9; CallAddPlayer 1 9]
              (Room_new 1 (mkDetails "room" "" 0 0 4 Speed TeamMode_Team false 0)))) <= 1.
Proof.
  apply teams_balanced_while_filling; [reflexivity|].
  intros c u Hin. repeat (apply elem_of_cons in Hin as [->|Hin]; [discriminate|]).
  now apply elem_of_nil in Hin.
Defined.

(** One call never takes the committed players above the capacity. *)
Lemma call_players_within_capacity c r :
  Z.of_nat (size (_players r)) <= maxPlayerCount (_details r) ->
  Z.of_nat (size (_players (call c r))) <= maxPlayerCount (_details (call c r)).
Proof.
  intros Hcap. rewrite details_call. destruct c as [u|u|rand u|u]; cbn [call].
  - unfold QueuePlayer. now destruct (IsRoomFull r).
  - exact Hcap.
  - unfold AddPlayer. destruct (Z.leb_spec (maxPlayerCount (_details r))
                                  (Z.of_nat (size (_players r)))) as [Hfull|Hroom];
      [exact Hcap|].
    cbn [_players set_players set_queuedPlayers snd].
    match goal with
    | |- context [try_emplace u ?p ?m] => pose proof (try_emplace_size u p m)
    end.
    lia.
  - cbn. pose proof (map_subseteq_size _ _ (delete_subseteq (_players r) u)). lia.
Qed.

(** X9: whatever calls are made and in whatever order, the committed
    players of a room never exceed [maxPlayerCount]. *)
Theorem players_never_exceed_capacity (cs : list RoomCall) (r : Room) :
  Z.of_nat (size (_players r)) <= maxPlayerCount (_details r) ->
  Z.of_nat (GetPlayerCount (calls cs r)) <= maxPlayerCount (_details r)
  /\ _details (calls cs r) = _details r.
Proof.
  revert r. induction cs as [|c cs IH]; intros r Hcap; [split; [exact Hcap|reflexivity]|].
  rewrite calls_cons.
  destruct (IH (call c r) (call_players_within_capacity c r Hcap)) as [H1 H2].
  rewrite details_call in H1, H2. split; [exact H1 | exact H2].
Qed.

Lemma players_never_exceed_capacity_witness :
  Z.of_nat (GetPlayerCount
              (calls [CallAddPlayer 0 1; CallAddPlayer 0 2; CallQueuePlayer 3; CallAddPlayer 0 3]
                 (Room_new 1 (mkDetails "room" "" 0 0 2 Speed TeamMode_Solo false 0)))) <= 2.
Proof.
  apply (players_never_exceed_capacity
           [CallAddPlayer 0 1; CallAddPlayer 0 2; CallQueuePlayer 3; CallAddPlayer 0 3]
           (Room_new 1 (mkDetails "room" "" 0 0 2 Speed TeamMode_Solo false 0))).
  vm_compute. discriminate.
Defined.

End RoomPlayers.

(** ** The room registry *)

Section RoomRegistryProofs.

Import RoomSystem RoomRegistry.











(** X11: [DeleteRoom] and [GetRoom] of a uid without a room throw
    "Room does not exist" (nothing has changed when they do); after a
    [DeleteRoom] that returns, the room is gone -- [RoomExists] is false,
    [GetRoom] and a second [DeleteRoom] throw -- and every other room is as
    it was. *)
Theorem delete_room_then_gone (uid : Z) (rs : RoomSystem) :
  (RoomExists uid rs = false ->
     DeleteRoom uid rs = Throw room_does_not_exist
     /\ forall consumer, GetRoom uid consumer rs = Throw room_does_not_exist)
  /\ (RoomExists uid rs = true ->
      exists rs',
        DeleteRoom uid rs = Ok rs'
        /\ RoomExists uid rs' = false
        /\ DeleteRoom uid rs' = Throw room_does_not_exist
        /\ (forall consumer, GetRoom uid consumer rs' = Throw room_does_not_exist)
        /\ (forall other, other <> uid -> _rooms rs' !! other = _rooms rs !! other)
        /\ _sequencedId rs' = _sequencedId rs).
Proof.
  unfold RoomExists, DeleteRoom, GetRoom. split.
  - intros Hnone. apply bool_decide_eq_false in Hnone.
    destruct (_rooms rs !! uid) as [room|]; [destruct Hnone; eauto|]. auto.
  - intros Hsome. apply bool_decide_eq_true in Hsome as [room Hroom].
    rewrite Hroom. eexists. split; [reflexivity|]. cbn [_rooms _sequencedId].
    rewrite lookup_delete_eq.
    split; [apply bool_decide_eq_false_2; now intros [x Hx]|].
    split; [reflexivity|]. split; [reflexivity|].
    split; [|reflexivity]. intros other Hne. now apply lookup_delete_ne.
Qed.

End RoomRegistryProofs.

(** ** Race director: clients, loading, racing and finishing *)

Section RaceRoomProofs.

Import RaceDirector RaceRoom.

Variable reg : CourseRegistry.

Lemma instance_ref_of uid d i :
  _raceInstances d !! uid = Some i -> instance_ref uid d = (i, d).
Proof. intros Hi. unfold instance_ref. now rewrite Hi. Qed.

Lemma all_racers_spec p i :
  all_racers p i = true
  <-> forall uid racer, _racers (tracker i) !! uid = Some racer -> p racer = true.
Proof.
  unfold all_racers. rewrite forallb_forall. split.
  - intros H uid racer Hl. apply H. apply list_elem_of_In.
    apply (list_elem_of_fmap_2 snd _ (uid, racer)). now apply elem_of_map_to_list.
  - intros H racer Hin. apply list_elem_of_In in Hin.
    apply list_elem_of_fmap in Hin as ([uid r] & -> & Hin).
    apply elem_of_map_to_list in Hin. exact (H uid r Hin).
Qed.


Lemma in_state_true s racer : in_state s racer = true <-> state racer = s.
Proof. unfold in_state. apply bool_decide_eq_true. Qed.

(** X12: [HandleStartingRate].  A command whose [unk1] and [boostGained]
    are both below 1 is dropped before anything is looked at: no reply and
    no exception, whoever sends it.  Otherwise a command for another
    racer's OID raises with the race unchanged, and a command for the
    sender's own racer adds [boostGained] to the gauge, capped at
    [starPointsMax], and answers with the new gauge, which is the gauge of
    the racer in the director afterwards. *)
Theorem starting_rate clientId d clientContext raceInstance racer gm :
  racer_of clientId d clientContext raceInstance racer ->
  GetCourseGameModeInfo reg (u8 (raceGameMode raceInstance)) = Some gm ->
  (forall anyClient anyDirector command,
     unk1 command < 1 -> boostGained command < 1 ->
     HandleStartingRate reg anyClient command anyDirector
     = RaceDirector.Returned anyDirector [])
  /\ (forall command,
        1 <= unk1 command \/ 1 <= boostGained command ->
        sr_characterOid command <> oid racer ->
        HandleStartingRate reg clientId command d = RaceDirector.Thrown d [] different_racer)
  /\ (forall command,
        1 <= unk1 command \/ 1 <= boostGained command ->
        sr_characterOid command = oid racer ->
        0 <= starPointValue racer + boostGained command < 2 ^ 32 ->
        let points := Z.min (starPointValue racer + boostGained command) (starPointsMax gm) in
        HandleStartingRate reg clientId command d
        = RaceDirector.Returned
            (with_racer clientContext raceInstance (set_starPointValue points racer) d)
            [(clientId, AcCmdCRStarPointGetOK (oid racer) points false)]
        /\ racer_in (roomUid clientContext) (characterUid clientContext)
             (director_of (HandleStartingRate reg clientId command d) d)
           = Some (set_starPointValue points racer)
        /\ starPointValue (set_starPointValue points racer) = points).
Proof.
  intros (Hc & Hi & Hr) Hgm.
  assert (Hvalid : forall command,
            1 <= unk1 command \/ 1 <= boostGained command ->
            (unk1 command <? 1) && (boostGained command <? 1) = false).
  { intros command [H|H].
    - replace (unk1 command <? 1) with false by (symmetry; apply Z.ltb_ge; lia).
      reflexivity.
    - replace (boostGained command <? 1) with false by (symmetry; apply Z.ltb_ge; lia).
      apply andb_false_r. }
  split; [|split].
  - intros anyClient anyDirector command H1 H2. unfold HandleStartingRate.
    apply Z.ltb_lt in H1, H2. now rewrite H1, H2.
  - intros command Hv Hne. unfold HandleStartingRate.
    rewrite (Hvalid _ Hv), Hc, (instance_ref_of _ _ _ Hi), Hr.
    apply Z.eqb_neq in Hne. now rewrite Hne.
  - intros command Hv Heq Hrange points.
    assert (Hrun : HandleStartingRate reg clientId command d
                   = RaceDirector.Returned
                       (with_racer clientContext raceInstance
                          (set_starPointValue points racer) d)
                       [(clientId, AcCmdCRStarPointGetOK (oid racer) points false)]).
    { unfold HandleStartingRate.
      rewrite (Hvalid _ Hv), Hc, (instance_ref_of _ _ _ Hi), Hr.
      rewrite Heq, Z.eqb_refl. cbn [negb]. rewrite Hgm.
      unfold u32. rewrite Z.mod_small by exact Hrange. reflexivity. }
    split; [exact Hrun|]. split; [|reflexivity]. rewrite Hrun. cbn [director_of].
    apply racer_in_with_racer.
Qed.

(** X13: [GetClientIdByCharacterUid] finds a client exactly when there is
    one: a client id it returns is that of a connected client which is
    authenticated as the character, and it throws only when no connected
    client is. *)
Theorem client_of_character (uid : Z) (d : Director) :
  match GetClientIdByCharacterUid uid d with
  | Some clientId =>
      exists clientContext,
        _clients d !! clientId = Some clientContext
        /\ characterUid clientContext = uid
        /\ isAuthenticated clientContext = true
  | None =>
      forall clientId clientContext,
        _clients d !! clientId = Some clientContext ->
        characterUid clientContext = uid ->
        isAuthenticated clientContext = false
  end.
Proof.
  unfold GetClientIdByCharacterUid.
  destruct (find _ (map_to_list (_clients d))) as [[clientId clientContext]|] eqn:Hfind;
    cbn [fmap option_fmap option_map fst].
  - apply find_some in Hfind as [Hin Hp]. cbn in Hp.
    apply andb_true_iff in Hp as [Huid Hauth]. apply Z.eqb_eq in Huid.
    exists clientContext. split; [|auto].
    apply elem_of_map_to_list. now apply list_elem_of_In.
  - intros clientId clientContext Hl Huid.
    pose proof (find_none _ _ Hfind (clientId, clientContext)) as Hnone.
    cbn in Hnone. rewrite Huid, Z.eqb_refl in Hnone. cbn in Hnone.
    apply Hnone. apply list_elem_of_In. now apply elem_of_map_to_list.
Qed.

(** The racers after the loading loop has marked them: a racer that is not
    racing counts as disconnected. *)
Lemma marked_racer_state racer :
  let marked := if in_state State.Racing racer then racer
                else set_state State.Disconnected racer in
  state marked = State.Racing \/ state marked = State.Disconnected.
Proof.
  cbv zeta. destruct (in_state State.Racing racer) eqn:Hs.
  - left. now apply in_state_true.
  - right. reflexivity.
Qed.



Lemma mark_twice (racers : gmap Z Racer) :
  let mark := fun racer : Racer =>
    if in_state State.Racing racer then racer else set_state State.Disconnected racer in
  mark <$> (mark <$> racers) = mark <$> racers.
Proof.
  cbv zeta. rewrite <- map_fmap_compose. apply map_fmap_ext. intros uid racer _.
  unfold compose. destruct (in_state State.Racing racer) eqn:Hs; [now rewrite Hs|].
  reflexivity.
Qed.

(** X15: a race in [Loading] whose map block is not in the registry can
    never start.  Once its racers are loaded or the loading timeout is
    reached, the pass of the loading loop throws at the registry lookup --
    after it has marked the racers that did not load as disconnected, with
    the stage still [Loading] -- and on the state it leaves every later
    pass throws again, at any time. *)
Theorem loading_race_without_map_block now raceUid raceInstance d :
  stage raceInstance = Stage.Loading ->
  GetMapBlockInfo reg (raceMapBlockId raceInstance) = None ->
  (forall uid racer, GetRacer uid (tracker raceInstance) = Some racer ->
     state racer = State.Racing \/ state racer = State.Disconnected)
  \/ stageTimeoutTimePoint raceInstance <= now ->
  exists marked,
    tick_loading reg now raceUid raceInstance d
    = RaceDirector.Thrown (put_instance raceUid marked d) [] no_such_map_block
    /\ stage marked = Stage.Loading
    /\ (forall uid racer, GetRacer uid (tracker marked) = Some racer ->
          state racer = State.Racing \/ state racer = State.Disconnected)
    /\ forall later,
         tick_loading reg later raceUid marked (put_instance raceUid marked d)
         = RaceDirector.Thrown (put_instance raceUid marked d) [] no_such_map_block.
Proof.
  intros Hstage Hmap Hdue.
  set (mark := fun racer : Racer =>
         if in_state State.Racing racer then racer else set_state State.Disconnected racer).
  set (marked := set_tracker (set_racers (mark <$> _racers (tracker raceInstance))
                                (tracker raceInstance)) raceInstance).
  assert (Hloaded : forall uid racer, GetRacer uid (tracker marked) = Some racer ->
            state racer = State.Racing \/ state racer = State.Disconnected).
  { intros uid racer. unfold GetRacer, marked. cbn. rewrite lookup_fmap.
    destruct (_racers (tracker raceInstance) !! uid) as [r0|]; [|discriminate].
    cbn. intros [= <-]. apply marked_racer_state. }
  assert (Hall : forall i, (forall uid racer, GetRacer uid (tracker i) = Some racer ->
                   state racer = State.Racing \/ state racer = State.Disconnected) ->
            all_racers (fun racer => in_state State.Racing racer
                                     || in_state State.Disconnected racer) i = true).
  { intros i Hi. apply all_racers_spec. intros uid racer Hl.
    destruct (Hi uid racer Hl) as [Hs|Hs];
      apply orb_true_iff; [left|right]; now apply in_state_true. }
  exists marked. split; [|split; [exact Hstage|split; [exact Hloaded|]]].
  - unfold tick_loading. rewrite Hstage.
    rewrite bool_decide_eq_true_2 by reflexivity. cbn [negb].
    replace (negb (all_racers _ raceInstance)
             && negb (stageTimeoutTimePoint raceInstance <=? now)) with false.
    + cbn [raceMapBlockId set_tracker]. now rewrite Hmap.
    + symmetry. destruct Hdue as [Hl|Htime].
      * now rewrite (Hall _ Hl).
      * replace (stageTimeoutTimePoint raceInstance <=? now) with true
          by (symmetry; now apply Z.leb_le).
        apply andb_false_r.
  - intros later. unfold tick_loading.
    change (stage marked) with (stage raceInstance). rewrite Hstage.
    rewrite bool_decide_eq_true_2 by reflexivity. cbn [negb].
    rewrite (Hall _ Hloaded). cbn [negb andb].
    change (raceMapBlockId (set_tracker _ marked)) with (raceMapBlockId raceInstance).
    rewrite Hmap. f_equal.
    change (_racers (tracker marked)) with (mark <$> _racers (tracker raceInstance)).
    pose proof (mark_twice (_racers (tracker raceInstance))) as Hm. cbv zeta in Hm.
    fold mark in Hm. change (mark <$> (mark <$> _racers (tracker raceInstance))
                             = mark <$> _racers (tracker raceInstance)) in Hm.
    unfold mark at 1. fold mark. rewrite Hm.
    unfold put_instance. cbn. now rewrite insert_insert_eq.
Qed.

Lemma put_racer_lookup uid racer i :
  GetRacer uid (tracker (put_racer uid racer i)) = Some racer.
Proof. unfold GetRacer, put_racer. cbn. apply lookup_insert_eq. Qed.



Lemma GetClientContext_put_instance clientId b raceUid i d :
  GetClientContext clientId b (put_instance raceUid i d) = GetClientContext clientId b d.
Proof. reflexivity. Qed.







(** *** The score board *)

(** [ascending] lists the entries of the map, each once, by ascending
    key. *)
Lemma ascending_Permutation {A : Type} (m : gmap Z A) : ascending m ≡ₚ map_to_list m.
Proof. apply merge_sort_Permutation. Qed.

Lemma elem_of_ascending {A : Type} (m : gmap Z A) k v :
  (k, v) ∈ ascending m <-> m !! k = Some v.
Proof. rewrite ascending_Permutation. apply elem_of_map_to_list. Qed.

Lemma length_ascending {A : Type} (m : gmap Z A) : length (ascending m) = size m.
Proof. rewrite ascending_Permutation. apply length_map_to_list. Qed.




Lemma scoreboard_fold raceInstance :
  scoreboard raceInstance
  = fold_left file_score (ascending (_racers (tracker raceInstance))) ∅.
Proof. reflexivity. Qed.

Lemma file_score_keeps board entry t u :
  board !! t = Some u -> file_score board entry !! t = Some u.
Proof.
  intros Hl. unfold file_score, RoomSystem.try_emplace.
  destruct (board !! scored_time entry.2) eqn:Hb; [exact Hl|].
  rewrite lookup_insert_ne; [exact Hl|]. intros <-. congruence.
Qed.

Lemma file_score_present board entry :
  is_Some (file_score board entry !! scored_time (snd entry)).
Proof.
  unfold file_score, RoomSystem.try_emplace.
  destruct (board !! scored_time entry.2) eqn:Hb; [rewrite Hb; eauto|].
  rewrite lookup_insert_eq. eauto.
Qed.

Lemma file_score_size board entry :
  (size (file_score board entry) <= S (size board))%nat
  /\ (is_Some (board !! scored_time (snd entry)) ->
      size (file_score board entry) = size board).
Proof.
  unfold file_score, RoomSystem.try_emplace.
  destruct (board !! scored_time entry.2) eqn:Hb.
  - split; [lia|reflexivity].
  - rewrite map_size_insert_None by exact Hb. split; [lia|]. now intros [x Hx].
Qed.

Lemma fold_scores_keeps l board t u :
  board !! t = Some u -> fold_left file_score l board !! t = Some u.
Proof.
  revert board. induction l as [|e l IH]; intros board Hl; [exact Hl|].
  cbn. apply IH. now apply file_score_keeps.
Qed.

Lemma fold_scores_present l board e :
  e ∈ l -> is_Some (fold_left file_score l board !! scored_time (snd e)).
Proof.
  revert board. induction l as [|e0 l IH]; intros board Hin.
  - now apply elem_of_nil in Hin.
  - cbn. apply elem_of_cons in Hin as [->|Hin]; [|now apply IH].
    destruct (file_score_present board e0) as [u Hu].
    rewrite (fold_scores_keeps l _ _ _ Hu). eauto.
Qed.

Lemma fold_scores_origin l board t u :
  fold_left file_score l board !! t = Some u ->
  board !! t = Some u \/ exists racer, (u, racer) ∈ l /\ scored_time racer = t.
Proof.
  revert board. induction l as [|e l IH]; intros board Hl; [now left|].
  cbn in Hl. destruct (IH _ Hl) as [Hb|(racer & Hin & Ht)].
  - unfold file_score, RoomSystem.try_emplace in Hb.
    destruct (board !! scored_time e.2) eqn:He; [now left|].
    destruct (decide (scored_time e.2 = t)) as [<-|Hne].
    + rewrite lookup_insert_eq in Hb. injection Hb as <-.
      right. exists e.2. split; [|reflexivity]. destruct e. now left.
    + rewrite lookup_insert_ne in Hb by exact Hne. now left.
  - right. exists racer. split; [now right|exact Ht].
Qed.

Lemma fold_scores_size l board :
  (size (fold_left file_score l board) <= size board + length l)%nat.
Proof.
  revert board. induction l as [|e l IH]; intros board; [cbn; lia|].
  cbn. specialize (IH (file_score board e)).
  destruct (file_score_size board e) as [Hs _]. lia.
Qed.

Lemma fold_scores_size_tie l1 e1 l2 e2 l3 board :
  scored_time (snd e1) = scored_time (snd e2) ->
  (size (fold_left file_score (l1 ++ e1 :: l2 ++ e2 :: l3) board)
   < size board + length (l1 ++ e1 :: l2 ++ e2 :: l3))%nat.
Proof.
  intros Htie. rewrite fold_left_app. cbn [fold_left]. rewrite fold_left_app.
  cbn [fold_left]. rewrite !length_app. cbn [length]. rewrite length_app. cbn [length].
  set (b1 := fold_left file_score l1 board).
  set (b2 := fold_left file_score l2 (file_score b1 e1)).
  pose proof (fold_scores_size l1 board) as H1. fold b1 in H1.
  destruct (file_score_size b1 e1) as [He1 _].
  pose proof (fold_scores_size l2 (file_score b1 e1)) as H2. fold b2 in H2.
  assert (Hpresent : is_Some (b2 !! scored_time e2.2)).
  { rewrite <- Htie. destruct (file_score_present b1 e1) as [u Hu].
    unfold b2. rewrite (fold_scores_keeps l2 _ _ _ Hu). eauto. }
  destruct (file_score_size b2 e2) as [_ He2]. specialize (He2 Hpresent).
  pose proof (fold_scores_size l3 (file_score b2 e2)) as H3.
  lia.
Qed.

(** Two different elements of a list are at two places of it. *)
Lemma two_elements_split {A : Type} (l : list A) (a b : A) :
  a ∈ l -> b ∈ l -> a <> b ->
  exists l1 x l2 y l3, l = l1 ++ x :: l2 ++ y :: l3 /\ (x = a /\ y = b \/ x = b /\ y = a).
Proof.
  intros Ha Hb Hne. apply list_elem_of_split in Ha as (l1 & l2 & ->).
  apply elem_of_app in Hb as [Hb|Hb].
  - apply list_elem_of_split in Hb as (k1 & k2 & ->).
    exists k1, b, k2, a, l2. split; [now rewrite <- app_assoc|]. now right.
  - apply elem_of_cons in Hb as [Hb|Hb]; [congruence|].
    apply list_elem_of_split in Hb as (k1 & k2 & ->).
    exists l1, a, k1, b, k2. split; [reflexivity|]. now left.
Qed.






(** X20: the score board that the finishing loop sends has one entry per
    course time, not per racer.  Every score is that of a racer of the
    race, filed under its course time (the largest 32-bit value when the
    racer is disconnected) with the connected flag of that racer; the
    course times of the scores are pairwise different and every racer's
    course time is on the board; so when two racers have the same course
    time -- two disconnected racers, for one -- the board has fewer scores
    than the race has racers. *)
Theorem score_board_one_score_per_time (raceInstance : RoomInstance) :
  (forall score, score ∈ scores raceInstance ->
     exists racer,
       GetRacer (score_uid score) (tracker raceInstance) = Some racer
       /\ score_courseTime score = scored_time racer
       /\ score_connected score = negb (in_state State.Disconnected racer))
  /\ NoDup (score_courseTime <$> scores raceInstance)
  /\ (forall uid racer, GetRacer uid (tracker raceInstance) = Some racer ->
        exists score, score ∈ scores raceInstance
                      /\ score_courseTime score = scored_time racer)
  /\ (length (scores raceInstance) <= size (_racers (tracker raceInstance)))%nat
  /\ (forall uid1 uid2 racer1 racer2,
        uid1 <> uid2 ->
        GetRacer uid1 (tracker raceInstance) = Some racer1 ->
        GetRacer uid2 (tracker raceInstance) = Some racer2 ->
        scored_time racer1 = scored_time racer2 ->
        (length (scores raceInstance) < size (_racers (tracker raceInstance)))%nat).
Proof.
  assert (Hlen : length (scores raceInstance) = size (scoreboard raceInstance)).
  { unfold scores. now rewrite length_fmap, length_ascending. }
  split; [|split; [|split; [|split]]].
  - intros score Hin. unfold scores in Hin.
    apply list_elem_of_fmap in Hin as ([t u] & -> & Hin). cbn.
    apply elem_of_ascending in Hin. rewrite scoreboard_fold in Hin.
    apply fold_scores_origin in Hin as [Hempty|(racer & Hin & Ht)].
    + rewrite lookup_empty in Hempty. discriminate.
    + apply elem_of_ascending in Hin. exists racer. unfold GetRacer.
      rewrite Hin. auto.
  - unfold scores. rewrite <- list_fmap_compose.
    apply (NoDup_fmap_2_strong _ (ascending (scoreboard raceInstance))).
    + intros [t1 u1] [t2 u2] H1 H2 Heq. cbn in Heq. subst t2.
      apply elem_of_ascending in H1, H2. congruence.
    + rewrite ascending_Permutation. apply NoDup_map_to_list.
  - intros uid racer Hl. unfold GetRacer in Hl.
    destruct (fold_scores_present (ascending (_racers (tracker raceInstance))) ∅
                (uid, racer)) as [u Hu]; [now apply elem_of_ascending|].
    rewrite <- scoreboard_fold in Hu. cbn in Hu.
    exists {| score_uid := u; score_courseTime := scored_time racer;
              score_connected :=
                match GetRacer u (tracker raceInstance) with
                | Some r => negb (in_state State.Disconnected r)
                | None => false
                end |}.
    split; [|reflexivity]. unfold scores.
    apply list_elem_of_fmap. exists (scored_time racer, u).
    split; [reflexivity|]. now apply elem_of_ascending.
  - rewrite Hlen, scoreboard_fold.
    pose proof (fold_scores_size (ascending (_racers (tracker raceInstance))) ∅) as Hs.
    rewrite map_size_empty, length_ascending in Hs. lia.
  - intros uid1 uid2 racer1 racer2 Hne H1 H2 Htie. unfold GetRacer in H1, H2.
    apply elem_of_ascending in H1, H2.
    destruct (two_elements_split _ _ _ H1 H2) as (l1 & x & l2 & y & l3 & Hsplit & Hxy);
      [congruence|].
    assert (Hxy' : scored_time x.2 = scored_time y.2)
      by (destruct Hxy as [[-> ->]|[-> ->]]; cbn; congruence).
    rewrite Hlen, scoreboard_fold, <- (length_ascending (_racers (tracker raceInstance))).
    rewrite Hsplit.
    pose proof (fold_scores_size_tie l1 x l2 y l3 ∅ Hxy') as Hs.
    rewrite map_size_empty in Hs. lia.
Qed.

(** *** Leaving a room *)

(** [HandleLeaveRoom] for a client in a room that has a race instance and a
    room in the room system, with its steps named. *)
Lemma HandleLeaveRoom_run clientId d clientContext raceInstance room :
  GetClientContext clientId true d = inl clientContext ->
  roomUid clientContext <> 0 ->
  _raceInstances d !! roomUid clientContext = Some raceInstance ->
  rooms d !! roomUid clientContext = Some room ->
  let uid := roomUid clientContext in
  let marked :=
    match GetRacer (characterUid clientContext) (tracker raceInstance) with
    | Some racer =>
        put_racer (characterUid clientContext) (set_state State.Disconnected racer) raceInstance
    | None => raceInstance
    end in
  let remaining := clients raceInstance ∖ {[clientId]} in
  let room' := RoomSystem.RemovePlayer (characterUid clientContext) room in
  let next := default InvalidUid (head (fst <$> map_to_list (RoomSystem._players room'))) in
  let handover :=
    (masterUid raceInstance =? characterUid clientContext) && negb (next =? InvalidUid) in
  let left :=
    set_masterUid (if handover then next else masterUid raceInstance)
      (set_clients remaining marked) in
  let instances := <[uid := left]> (<[uid := set_clients remaining marked]> (_raceInstances d)) in
  HandleLeaveRoom clientId d
  = Returned
      (mkDirector
         (<[clientId := set_roomUid InvalidUid clientContext]> (_clients d))
         (if bool_decide (remaining = ∅) then delete uid instances else instances)
         (if bool_decide (remaining = ∅) then delete uid (<[uid := room']> (rooms d))
          else <[uid := room']> (rooms d))
         (_scheduler d))
      (((fun raceClientId =>
           (raceClientId, AcCmdCRLeaveRoomNotify (characterUid clientContext) 1))
        <$> filter (fun raceClientId => raceClientId <> clientId) (elements remaining))
       ++ (if handover then to_clients remaining (AcCmdCRChangeMasterNotify next) else [])
       ++ [(clientId, AcCmdCRLeaveRoomOK)]).
Proof.
  intros Hc Hne Hi Hr. cbv zeta. unfold HandleLeaveRoom. rewrite Hc.
  apply Z.eqb_neq in Hne. rewrite Hne. rewrite (instance_ref_of _ _ _ Hi).
  cbn [rooms put_instance set_raceInstances]. rewrite Hr.
  destruct (GetRacer (characterUid clientContext) (tracker raceInstance)) as [racer|];
    cbn [masterUid clients set_clients put_racer set_tracker];
    destruct ((masterUid raceInstance =? characterUid clientContext) && _);
    cbn [masterUid clients set_clients set_masterUid];
    destruct (bool_decide (clients raceInstance ∖ {[clientId]} = ∅));
    rewrite <- ?app_assoc, ?app_nil_r; reflexivity.
Qed.

Lemma GetClientContext_inl clientId b d clientContext :
  GetClientContext clientId b d = inl clientContext ->
  _clients d !! clientId = Some clientContext
  /\ (b = true -> isAuthenticated clientContext = true).
Proof.
  unfold GetClientContext. destruct (_clients d !! clientId) as [c|]; [|discriminate].
  destruct b; cbn.
  - destruct (isAuthenticated c) eqn:Ha; cbn; [|discriminate].
    intros [= <-]. auto.
  - intros [= <-]. split; [reflexivity|discriminate].
Qed.

Lemma to_clients_elem cs cmd entry :
  entry ∈ to_clients cs cmd <-> exists c', entry = (c', cmd) /\ c' ∈ cs.
Proof.
  unfold to_clients. rewrite list_elem_of_fmap. split.
  - intros (c' & -> & Hin). exists c'. split; [reflexivity|]. now apply elem_of_elements.
  - intros (c' & -> & Hin). exists c'. split; [reflexivity|]. now apply elem_of_elements.
Qed.

(** X21: [HandleLeaveRoom] of a client in a room.  The handler returns;
    the leaver gets exactly one command, the leave-room reply, queued last;
    every other client of the room is told that the character left, and
    nobody outside the room is sent anything.  Afterwards the client
    context holds no room (so a second [HandleLeaveRoom] does nothing and
    sends nothing), the other client contexts are as before, the character
    is no player of the room any more, and where the race instance is still
    there the client is no client of it and the character's racer is
    [Disconnected]. *)
Theorem leave_room clientId d clientContext raceInstance room :
  GetClientContext clientId true d = inl clientContext ->
  roomUid clientContext <> 0 ->
  _raceInstances d !! roomUid clientContext = Some raceInstance ->
  rooms d !! roomUid clientContext = Some room ->
  exists d' notified,
    HandleLeaveRoom clientId d = Returned d' (notified ++ [(clientId, AcCmdCRLeaveRoomOK)])
    /\ (forall c, c ∈ clients raceInstance -> c <> clientId ->
          (c, AcCmdCRLeaveRoomNotify (characterUid clientContext) 1) ∈ notified)
    /\ (forall c command, (c, command) ∈ notified -> c ∈ clients raceInstance /\ c <> clientId)
    /\ _clients d' !! clientId = Some (set_roomUid InvalidUid clientContext)
    /\ (forall other, other <> clientId -> _clients d' !! other = _clients d !! other)
    /\ HandleLeaveRoom clientId d' = Returned d' []
    /\ (forall room', rooms d' !! roomUid clientContext = Some room' ->
          RoomRegistry.GetPlayer (characterUid clientContext) room' = None)
    /\ (forall left, _raceInstances d' !! roomUid clientContext = Some left ->
          (clientId ∉ clients left)
          /\ forall racer,
               GetRacer (characterUid clientContext) (tracker raceInstance) = Some racer ->
               GetRacer (characterUid clientContext) (tracker left)
               = Some (set_state State.Disconnected racer)).
Proof.
  intros Hc Hne Hi Hr.
  pose proof (HandleLeaveRoom_run clientId d clientContext raceInstance room Hc Hne Hi Hr)
    as Hrun. cbv zeta in Hrun. rewrite Hrun. clear Hrun.
  rewrite app_assoc. eexists _, _. split; [reflexivity|].
  cbn [_clients rooms _raceInstances].
  split; [|split; [|split; [|split; [|split; [|split]]]]].
  - intros c Hin Hnc. apply elem_of_app. left.
    apply list_elem_of_fmap. exists c. split; [reflexivity|].
    apply list_elem_of_filter. split; [exact Hnc|].
    apply elem_of_elements. set_solver.
  - intros c command Hin. apply elem_of_app in Hin as [Hin|Hin].
    + apply list_elem_of_fmap in Hin as (c' & [= -> ->] & Hin).
      apply list_elem_of_filter in Hin as [Hnc Hin].
      apply elem_of_elements in Hin. set_solver.
    + destruct (_ && _); [|now apply elem_of_nil in Hin].
      apply to_clients_elem in Hin as (c' & [= -> ->] & Hin). set_solver.
  - apply lookup_insert_eq.
  - intros other Hother. now apply lookup_insert_ne.
  - unfold HandleLeaveRoom, GetClientContext. cbn [_clients].
    rewrite lookup_insert_eq. cbn.
    destruct (GetClientContext_inl _ _ _ _ Hc) as [_ Hauth]. rewrite (Hauth eq_refl).
    reflexivity.
  - intros room'. destruct (bool_decide _).
    + rewrite lookup_delete_eq. discriminate.
    + rewrite lookup_insert_eq. intros [= <-].
      unfold RoomRegistry.GetPlayer, RoomSystem.RemovePlayer. cbn.
      apply lookup_delete_eq.
  - intros left. destruct (bool_decide _).
    + rewrite lookup_delete_eq. discriminate.
    + rewrite lookup_insert_eq. intros [= <-]. cbn [clients set_masterUid set_clients].
      split; [set_solver|]. intros racer Hracer. rewrite Hracer.
      cbn [tracker set_masterUid set_clients].
      apply put_racer_lookup.
Qed.

(** X22: the last client to leave closes the room.  When no other client
    is in the race instance, [HandleLeaveRoom] deletes the room from the
    room system and erases the race instance, and sends the leave-room
    reply alone; the other rooms and instances, the other client contexts
    and the scheduler are untouched.  While another client remains, room
    and instance stay. *)
Theorem last_client_closes_room clientId d clientContext raceInstance room :
  GetClientContext clientId true d = inl clientContext ->
  roomUid clientContext <> 0 ->
  _raceInstances d !! roomUid clientContext = Some raceInstance ->
  rooms d !! roomUid clientContext = Some room ->
  let uid := roomUid clientContext in
  ((forall c, c ∈ clients raceInstance -> c = clientId) ->
     HandleLeaveRoom clientId d
     = Returned
         (mkDirector
            (<[clientId := set_roomUid InvalidUid clientContext]> (_clients d))
            (delete uid (_raceInstances d)) (delete uid (rooms d)) (_scheduler d))
         [(clientId, AcCmdCRLeaveRoomOK)])
  /\ (forall c, c ∈ clients raceInstance -> c <> clientId ->
        is_Some (rooms (director_after (HandleLeaveRoom clientId d)) !! uid)
        /\ is_Some (_raceInstances (director_after (HandleLeaveRoom clientId d)) !! uid)).
Proof.
  intros Hc Hne Hi Hr uid.
  pose proof (HandleLeaveRoom_run clientId d clientContext raceInstance room Hc Hne Hi Hr)
    as Hrun. cbv zeta in Hrun. rewrite Hrun. clear Hrun. fold uid. split.
  - intros Hlast.
    assert (Hempty : clients raceInstance ∖ {[clientId]} = ∅).
    { apply leibniz_equiv. apply elem_of_equiv_empty. intros c Hin.
      apply elem_of_difference in Hin as [Hin Hnot]. apply Hnot.
      apply elem_of_singleton. now apply Hlast. }
    rewrite Hempty. rewrite bool_decide_eq_true_2 by reflexivity.
    rewrite elements_empty. cbn [filter fmap list_fmap app].
    unfold to_clients. rewrite elements_empty. cbn [fmap list_fmap].
    rewrite !delete_insert_eq. destruct (_ && _); reflexivity.
  - intros c Hin Hnc.
    assert (Hnonempty : clients raceInstance ∖ {[clientId]} <> ∅).
    { intros Hempty. assert (Hc' : c ∈ clients raceInstance ∖ {[clientId]}) by set_solver.
      rewrite Hempty in Hc'. now apply elem_of_empty in Hc'. }
    rewrite bool_decide_eq_false_2 by exact Hnonempty.
    cbn [director_after rooms _raceInstances]. rewrite !lookup_insert_eq. eauto.
Qed.

(** The first key of a non-empty map is one of its keys. *)
Lemma first_key_is_key {V : Type} (m : gmap Z V) (k : Z) :
  head (fst <$> map_to_list m) = Some k -> is_Some (m !! k).
Proof.
  destruct (map_to_list m) as [|[k0 v0] l] eqn:Hl; [discriminate|].
  cbn. intros [= <-]. exists v0. apply elem_of_map_to_list. rewrite Hl. now left.
Qed.

(** X23: the mastership when a client leaves and others remain.  When the
    leaver is not the master, the master stays.  When the master leaves
    and the room still has players (uid 0 is not a player), the first
    player in the iteration order of the room's players becomes master --
    a player of the room other than the leaver -- and every remaining
    client is told the new master.  When the master leaves a room that has
    no other player, the mastership stays with the character that left
    and no new master is announced. *)
Theorem master_handover clientId d clientContext raceInstance room other :
  GetClientContext clientId true d = inl clientContext ->
  roomUid clientContext <> 0 ->
  _raceInstances d !! roomUid clientContext = Some raceInstance ->
  rooms d !! roomUid clientContext = Some room ->
  other ∈ clients raceInstance -> other <> clientId ->
  let leaver := characterUid clientContext in
  exists left,
    _raceInstances (director_after (HandleLeaveRoom clientId d)) !! roomUid clientContext
    = Some left
    /\ (masterUid raceInstance <> leaver ->
        masterUid left = masterUid raceInstance
        /\ forall c m, (c, AcCmdCRChangeMasterNotify m)
                       ∉ sent_by (HandleLeaveRoom clientId d))
    /\ (masterUid raceInstance = leaver ->
        RoomSystem._players room !! 0 = None ->
        (exists uid player, uid <> leaver /\ RoomSystem._players room !! uid = Some player) ->
        masterUid left <> leaver
        /\ is_Some (RoomSystem._players room !! masterUid left)
        /\ forall c, c ∈ clients left ->
             (c, AcCmdCRChangeMasterNotify (masterUid left))
             ∈ sent_by (HandleLeaveRoom clientId d))
    /\ (masterUid raceInstance = leaver ->
        (forall uid, uid <> leaver -> RoomSystem._players room !! uid = None) ->
        masterUid left = leaver
        /\ forall c m, (c, AcCmdCRChangeMasterNotify m)
                       ∉ sent_by (HandleLeaveRoom clientId d)).
Proof.
  intros Hc Hne Hi Hr Hother Hoc leaver.
  pose proof (HandleLeaveRoom_run clientId d clientContext raceInstance room Hc Hne Hi Hr)
    as Hrun. cbv zeta in Hrun. rewrite Hrun. clear Hrun. fold leaver.
  assert (Hnonempty : clients raceInstance ∖ {[clientId]} <> ∅).
  { intros Hempty.
    assert (Hc' : other ∈ clients raceInstance ∖ {[clientId]}) by set_solver.
    rewrite Hempty in Hc'. now apply elem_of_empty in Hc'. }
  rewrite bool_decide_eq_false_2 by exact Hnonempty.
  cbn [director_after sent_by _raceInstances]. rewrite lookup_insert_eq.
  eexists. split; [reflexivity|].
  set (players' := RoomSystem._players (RoomSystem.RemovePlayer leaver room)).
  assert (Hnotify : forall c m,
            (c, AcCmdCRChangeMasterNotify m)
            ∉ ((fun raceClientId => (raceClientId, AcCmdCRLeaveRoomNotify leaver 1))
               <$> filter (fun raceClientId => raceClientId <> clientId)
                     (elements (clients raceInstance ∖ {[clientId]})))
              ++ [] ++ [(clientId, AcCmdCRLeaveRoomOK)]).
  { intros c m Hin. apply elem_of_app in Hin as [Hin|Hin].
    - apply list_elem_of_fmap in Hin as (c' & Heq & _). discriminate.
    - apply elem_of_cons in Hin as [Heq|Hin]; [discriminate|].
      now apply elem_of_nil in Hin. }
  split; [|split].
  - intros Hnm. apply Z.eqb_neq in Hnm. rewrite Hnm. cbn [andb masterUid set_masterUid].
    split; [reflexivity|exact Hnotify].
  - intros Hm Hzero (uid & player & Huid & Hplayer).
    rewrite Hm, Z.eqb_refl. cbn [andb].
    assert (Hp' : players' !! uid = Some player).
    { unfold players', RoomSystem.RemovePlayer. cbn. rewrite lookup_delete_ne by congruence.
      exact Hplayer. }
    destruct (map_to_list players') as [|[k0 v0] l] eqn:Hl.
    { apply map_to_list_empty_iff in Hl. rewrite Hl in Hp'.
      rewrite lookup_empty in Hp'. discriminate. }
    assert (Hk0 : players' !! k0 = Some v0)
      by (apply elem_of_map_to_list; rewrite Hl; now left).
    unfold players', RoomSystem.RemovePlayer in Hk0. cbn in Hk0.
    apply lookup_delete_Some in Hk0 as [Hk0ne Hk0].
    cbn [fmap list_fmap head default fst]. unfold id.
    assert (Hk0z : (k0 =? InvalidUid) = false).
    { apply Z.eqb_neq. intros ->. unfold InvalidUid in Hk0. congruence. }
    rewrite Hk0z. cbn [negb masterUid set_masterUid clients set_clients].
    split; [congruence|]. split; [eauto|].
    intros c Hin. apply elem_of_app. right. apply elem_of_app. left.
    apply to_clients_elem. exists c. split; [reflexivity|exact Hin].
  - intros Hm Halone. rewrite Hm, Z.eqb_refl. cbn [andb].
    assert (Hempty : players' = ∅).
    { apply map_eq. intros uid. rewrite lookup_empty.
      unfold players', RoomSystem.RemovePlayer. cbn.
      destruct (decide (uid = leaver)) as [->|Hu]; [apply lookup_delete_eq|].
      rewrite lookup_delete_ne by congruence. now apply Halone. }
    rewrite Hempty, map_to_list_empty. cbn [fmap list_fmap head default].
    change (InvalidUid =? InvalidUid) with true. cbn [negb masterUid set_masterUid].
    split; [reflexivity|exact Hnotify].
Qed.

(** *** Connecting and disconnecting *)

(** X24: [HandleClientDisconnected].  For a client that is not connected it
    throws and changes nothing.  A client that is not authenticated, or
    whose room has no race instance, is erased from the clients and nothing
    is sent; in particular connecting a new client and disconnecting it
    again gives the director back.  An authenticated client in a room
    leaves the room first -- the leave-room reply is queued for the client
    that is gone -- and is then erased.  When its race instance is there
    but its room is missing from the room system, the exception of
    [HandleLeaveRoom] leaves the handler before the client is erased. *)
Theorem client_disconnected clientId d :
  (_clients d !! clientId = None ->
     HandleClientDisconnected clientId d = Thrown d [] "Race client is not available"
     /\ HandleClientDisconnected clientId (HandleClientConnected clientId d) = Returned d [])
  /\ (forall clientContext,
        _clients d !! clientId = Some clientContext ->
        (isAuthenticated clientContext = false
         \/ _raceInstances d !! roomUid clientContext = None ->
         HandleClientDisconnected clientId d
         = Returned (set_director_clients (delete clientId (_clients d)) d) [])
        /\ (forall raceInstance,
              isAuthenticated clientContext = true ->
              roomUid clientContext <> 0 ->
              _raceInstances d !! roomUid clientContext = Some raceInstance ->
              (forall room, rooms d !! roomUid clientContext = Some room ->
                 exists d' notified,
                   HandleClientDisconnected clientId d
                   = Returned d' (notified ++ [(clientId, AcCmdCRLeaveRoomOK)])
                   /\ _clients d' = delete clientId (_clients d)
                   /\ forall room', rooms d' !! roomUid clientContext = Some room' ->
                        RoomRegistry.GetPlayer (characterUid clientContext) room' = None)
              /\ (rooms d !! roomUid clientContext = None ->
                  exists d',
                    HandleClientDisconnected clientId d
                    = Thrown d' [] RoomRegistry.room_does_not_exist
                    /\ _clients d' !! clientId = Some clientContext))).
Proof.
  split.
  - intros Hnone. split.
    + unfold HandleClientDisconnected, GetClientContext. now rewrite Hnone.
    + unfold HandleClientDisconnected, HandleClientConnected, GetClientContext.
      cbn [_clients set_director_clients]. unfold RoomSystem.try_emplace. rewrite Hnone.
      rewrite lookup_insert_eq. cbn. f_equal.
      unfold set_director_clients. cbn. destruct d as [cl inst rms sch]. cbn in *.
      f_equal. apply delete_insert_id. exact Hnone.
  - intros clientContext Hctx. split.
    + intros Hskip. unfold HandleClientDisconnected, GetClientContext. rewrite Hctx.
      cbn [andb negb]. destruct Hskip as [Hauth|Hinst].
      * now rewrite Hauth.
      * rewrite Hinst. rewrite bool_decide_eq_false_2 by (now intros [x Hx]).
        now rewrite andb_false_r.
    + intros raceInstance Hauth Hroom Hi.
      assert (Hc : GetClientContext clientId true d = inl clientContext)
        by (unfold GetClientContext; rewrite Hctx, Hauth; reflexivity).
      assert (Hopen : HandleClientDisconnected clientId d
                = match HandleLeaveRoom clientId d with
                  | Returned d' sent =>
                      Returned (set_director_clients (delete clientId (_clients d')) d') sent
                  | Thrown d' sent what => Thrown d' sent what
                  end).
      { unfold HandleClientDisconnected, GetClientContext. rewrite Hctx. cbn [andb negb].
        rewrite Hauth, Hi. rewrite bool_decide_eq_true_2 by eauto. reflexivity. }
      rewrite Hopen. split.
      * intros room Hr.
        pose proof (HandleLeaveRoom_run clientId d clientContext raceInstance room
                      Hc Hroom Hi Hr) as Hrun.
        cbv zeta in Hrun. rewrite Hrun. clear Hrun. rewrite app_assoc.
        eexists _, _. split; [reflexivity|].
        cbn [_clients rooms set_director_clients]. split.
        -- apply delete_insert_eq.
        -- intros room'. destruct (bool_decide _).
           ++ rewrite lookup_delete_eq. discriminate.
           ++ rewrite lookup_insert_eq. intros [= <-].
              unfold RoomRegistry.GetPlayer, RoomSystem.RemovePlayer. cbn.
              apply lookup_delete_eq.
      * intros Hr. unfold HandleLeaveRoom. rewrite Hc.
        apply Z.eqb_neq in Hroom. rewrite Hroom, (instance_ref_of _ _ _ Hi).
        cbn [rooms put_instance set_raceInstances]. rewrite Hr.
        eexists. split; [reflexivity|]. exact Hctx.
Qed.

(** *** Ready flag and team of a room player *)

Lemma set_players_same room : RoomSystem.set_players (RoomSystem._players room) room = room.
Proof. now destruct room. Qed.


(** What the notification loop of [HandleChangeTeam] has queued when it
    ends: it returns after a notification for every player but the skipped
    one, and throws at a player that has no client. *)
Lemma notify_others_spec d skip command uids sent :
  match notify_others d skip command uids sent with
  | inl all =>
      exists rest, all = sent ++ rest
        /\ (forall u, u ∈ uids -> u <> skip ->
              exists c, GetClientIdByCharacterUid u d = Some c /\ (c, command) ∈ rest)
        /\ (forall entry, entry ∈ rest -> snd entry = command)
  | inr some =>
      exists rest, some = sent ++ rest
        /\ (exists u, u ∈ uids /\ u <> skip /\ GetClientIdByCharacterUid u d = None)
        /\ (forall entry, entry ∈ rest -> snd entry = command)
  end.
Proof.
  revert sent. induction uids as [|u uids IH]; intros sent.
  - cbn. exists []. rewrite app_nil_r. split; [reflexivity|].
    split; [intros u Hin; now apply elem_of_nil in Hin|].
    intros entry Hin. now apply elem_of_nil in Hin.
  - cbn [notify_others]. destruct (Z.eqb_spec u skip) as [->|Hne].
    + specialize (IH sent). destruct (notify_others d skip command uids sent) as [all|some].
      * destruct IH as (rest & -> & Hall & Hcmd). exists rest. split; [reflexivity|].
        split; [|exact Hcmd]. intros u Hin Hu.
        apply elem_of_cons in Hin as [->|Hin]; [contradiction|]. now apply Hall.
      * destruct IH as (rest & -> & (u & Hin & Hu & Hnone) & Hcmd). exists rest.
        split; [reflexivity|]. split; [|exact Hcmd]. exists u. split; [now right|auto].
    + destruct (GetClientIdByCharacterUid u d) as [c|] eqn:Hclient.
      * specialize (IH (sent ++ [(c, command)])).
        destruct (notify_others d skip command uids (sent ++ [(c, command)])) as [all|some].
        -- destruct IH as (rest & -> & Hall & Hcmd). exists ((c, command) :: rest).
           split; [now rewrite <- app_assoc|]. split.
           ++ intros u' Hin Hu'. apply elem_of_cons in Hin as [->|Hin].
              ** exists c. split; [exact Hclient|now left].
              ** destruct (Hall u' Hin Hu') as (c' & Hc' & Hin'). exists c'.
                 split; [exact Hc'|now right].
           ++ intros entry Hin. apply elem_of_cons in Hin as [->|Hin]; [reflexivity|].
              now apply Hcmd.
        -- destruct IH as (rest & -> & (u' & Hin & Hu' & Hnone) & Hcmd).
           exists ((c, command) :: rest). split; [now rewrite <- app_assoc|]. split.
           ++ exists u'. split; [now right|auto].
           ++ intros entry Hin'. apply elem_of_cons in Hin' as [->|Hin']; [reflexivity|].
              now apply Hcmd.
      * exists []. rewrite app_nil_r. split; [reflexivity|]. split.
        -- exists u. split; [now left|auto].
        -- intros entry Hin. now apply elem_of_nil in Hin.
Qed.

(** X26: [HandleChangeTeam] changes the team of the player filed in the
    sender's room under the [characterOid] of the command -- whether or not
    that is the sender's own character: [Red] and [Blue] set the team, any
    other colour leaves it; the ready flag and the other players are kept.
    The reply to the sender is queued first, then a notification for the
    client of every other player of the room.  A player without an
    authenticated client makes the handler throw, with the team changed
    and the reply queued already. *)
Theorem change_team clientId command d clientContext room player :
  GetClientContext clientId true d = inl clientContext ->
  rooms d !! roomUid clientContext = Some room ->
  RoomRegistry.GetPlayer (ct_characterOid command) room = Some player ->
  let changed :=
    match teamColor command with
    | TeamColor_Red => RoomSystem.SetTeam RoomSystem.Red player
    | TeamColor_Blue => RoomSystem.SetTeam RoomSystem.Blue player
    | _ => player
    end in
  let room' :=
    RoomSystem.set_players (<[ct_characterOid command := changed]> (RoomSystem._players room))
      room in
  let d' := set_rooms (<[roomUid clientContext := room']> (rooms d)) d in
  let notify := AcCmdCRChangeTeamNotify (ct_characterOid command) (teamColor command) in
  RoomSystem._isReady changed = RoomSystem._isReady player
  /\ (forall uid, uid <> ct_characterOid command ->
        RoomRegistry.GetPlayer uid room' = RoomRegistry.GetPlayer uid room)
  /\ exists notified,
       sent_by (HandleChangeTeam clientId command d)
       = (clientId, AcCmdCRChangeTeamOK (ct_characterOid command) (teamColor command))
         :: notified
       /\ (forall entry, entry ∈ notified -> snd entry = notify)
       /\ ((forall uid other, uid <> ct_characterOid command ->
              RoomRegistry.GetPlayer uid room = Some other ->
              is_Some (GetClientIdByCharacterUid uid d)) ->
           HandleChangeTeam clientId command d
           = Returned d'
               ((clientId, AcCmdCRChangeTeamOK (ct_characterOid command) (teamColor command))
                :: notified)
           /\ forall uid other, uid <> ct_characterOid command ->
                RoomRegistry.GetPlayer uid room = Some other ->
                exists c, GetClientIdByCharacterUid uid d = Some c /\ (c, notify) ∈ notified)
       /\ ((exists uid other, uid <> ct_characterOid command
              /\ RoomRegistry.GetPlayer uid room = Some other
              /\ GetClientIdByCharacterUid uid d = None) ->
           HandleChangeTeam clientId command d
           = Thrown d'
               ((clientId, AcCmdCRChangeTeamOK (ct_characterOid command) (teamColor command))
                :: notified)
               no_client_of_character).
Proof.
  intros Hc Hr Hp changed room' d' notify.
  split; [|split].
  - unfold changed. destruct (teamColor command); reflexivity.
  - intros uid Hne. unfold RoomRegistry.GetPlayer, room'. cbn.
    now apply lookup_insert_ne.
  - unfold HandleChangeTeam. rewrite Hc, Hr, Hp. fold changed. fold room'. fold d'.
    fold notify.
    set (response := [(clientId,
                       AcCmdCRChangeTeamOK (ct_characterOid command) (teamColor command))]).
    pose proof (notify_others_spec d' (ct_characterOid command) notify
                  (fst <$> map_to_list (RoomSystem._players room')) response) as Hspec.
    assert (Hkeys : forall uid, uid ∈ fst <$> map_to_list (RoomSystem._players room') ->
              uid <> ct_characterOid command ->
              exists other, RoomRegistry.GetPlayer uid room = Some other).
    { intros uid Hin Hne. apply list_elem_of_fmap in Hin as ([u p] & -> & Hin).
      apply elem_of_map_to_list in Hin. unfold room' in Hin. cbn in Hin, Hne.
      rewrite lookup_insert_ne in Hin by congruence. eauto. }
    assert (Hkeys' : forall uid other, uid <> ct_characterOid command ->
              RoomRegistry.GetPlayer uid room = Some other ->
              uid ∈ fst <$> map_to_list (RoomSystem._players room')).
    { intros uid other Hne Hl. apply list_elem_of_fmap. exists (uid, other).
      split; [reflexivity|]. apply elem_of_map_to_list. unfold room'. cbn.
      rewrite lookup_insert_ne by congruence. exact Hl. }
    destruct (notify_others d' (ct_characterOid command) notify
                (fst <$> map_to_list (RoomSystem._players room')) response) as [all|some].
    + destruct Hspec as (rest & -> & Hall & Hcmd). exists rest.
      split; [reflexivity|]. split; [exact Hcmd|]. split.
      * intros _. split; [reflexivity|]. intros uid other Hne Hl.
        exact (Hall uid (Hkeys' uid other Hne Hl) Hne).
      * intros (uid & other & Hne & Hl & Hnone).
        destruct (Hall uid (Hkeys' uid other Hne Hl) Hne) as (c & Hsome & _).
        change (GetClientIdByCharacterUid uid d') with (GetClientIdByCharacterUid uid d)
          in Hsome. congruence.
    + destruct Hspec as (rest & -> & (uid & Hin & Hne & Hnone) & Hcmd). exists rest.
      split; [reflexivity|]. split; [exact Hcmd|]. split.
      * intros Hclients. destruct (Hkeys uid Hin Hne) as [other Hl].
        destruct (Hclients uid other Hne Hl) as [c Hsome].
        change (GetClientIdByCharacterUid uid d') with (GetClientIdByCharacterUid uid d)
          in Hnone. congruence.
      * intros _. reflexivity.
Qed.

End RaceRoomProofs.

Section RaceRoomWitnesses.

Import RaceDirector RaceRoom.

Lemma starting_rate_witness :
  HandleStartingRate Examples.reg 8 (mkStartingRate 2 1 15000) Examples.racing
  = RaceDirector.Returned
      (with_racer Examples.guest Examples.racing_instance
         (set_starPointValue 40000 Examples.racer43) Examples.racing)
      [(8, AcCmdCRStarPointGetOK 2 40000 false)]
  /\ racer_in 1 43
       (director_of
          (HandleStartingRate Examples.reg 8 (mkStartingRate 2 1 15000) Examples.racing)
          Examples.racing)
     = Some (set_starPointValue 40000 Examples.racer43).
Proof.
  assert (Hof : racer_of 8 Examples.racing Examples.guest Examples.racing_instance
                  Examples.racer43) by (repeat split; reflexivity).
  assert (Hgm : GetCourseGameModeInfo Examples.reg
                  (u8 (raceGameMode Examples.racing_instance)) = Some Examples.speed)
    by reflexivity.
  destruct (starting_rate Examples.reg 8 _ _ _ _ _ Hof Hgm) as (_ & _ & Hown).
  destruct (Hown (mkStartingRate 2 1 15000)) as (Hrun & Hback & _);
    [left; cbn; lia | reflexivity | cbn; lia |].
  split; [exact Hrun | exact Hback].
Defined.


Lemma loading_race_without_map_block_witness :
  exists marked,
    tick_loading Examples.reg (seconds 31) 1 RaceExamples.lost_instance RaceExamples.loading
    = RaceDirector.Thrown (put_instance 1 marked RaceExamples.loading) [] no_such_map_block
    /\ stage marked = Stage.Loading.
Proof.
  destruct (loading_race_without_map_block Examples.reg (seconds 31) 1
              RaceExamples.lost_instance RaceExamples.loading eq_refl eq_refl)
    as (marked & Hrun & Hstage & _); [right; vm_compute; discriminate|].
  exists marked. split; [exact Hrun | exact Hstage].
Defined.







Lemma leave_room_witness :
  exists d' notified,
    HandleLeaveRoom 8 Examples.racing = Returned d' (notified ++ [(8, AcCmdCRLeaveRoomOK)])
    /\ (7, AcCmdCRLeaveRoomNotify 43 1) ∈ notified
    /\ HandleLeaveRoom 8 d' = Returned d' [].
Proof.
  assert (Hne : roomUid Examples.guest <> 0) by discriminate.
  destruct (leave_room 8 Examples.racing Examples.guest Examples.racing_instance
              (RoomSystem.SetRoomPlaying true Examples.room) eq_refl Hne eq_refl eq_refl)
    as (d' & notified & Hrun & Hothers & _ & _ & _ & Hagain & _).
  exists d', notified. split; [exact Hrun|]. split; [|exact Hagain].
  apply Hothers; [cbn; set_solver|discriminate].
Defined.

Lemma last_client_closes_room_witness :
  HandleLeaveRoom 7 RaceExamples.alone
  = Returned
      (mkDirector (<[7 := mkClientContext 42 0 true]> (<[7 := Examples.master]> ∅))
         (delete 1 (_raceInstances RaceExamples.alone)) (delete 1 (rooms RaceExamples.alone)) [])
      [(7, AcCmdCRLeaveRoomOK)].
Proof.
  assert (Hne : roomUid Examples.master <> 0) by discriminate.
  destruct (last_client_closes_room 7 RaceExamples.alone Examples.master _ _
              eq_refl Hne eq_refl eq_refl) as [Hlast _].
  apply Hlast. intros c Hin. cbn in Hin. set_solver.
Defined.

Lemma master_handover_witness :
  exists left,
    _raceInstances (director_after (HandleLeaveRoom 7 Examples.racing)) !! 1 = Some left
    /\ masterUid left <> 42
    /\ (8, AcCmdCRChangeMasterNotify (masterUid left))
       ∈ sent_by (HandleLeaveRoom 7 Examples.racing).
Proof.
  assert (Hne : roomUid Examples.master <> 0) by discriminate.
  assert (Hother : (8 : Z) ∈ clients Examples.racing_instance) by (cbn; set_solver).
  assert (Hoc : (8 : Z) <> 7) by discriminate.
  destruct (master_handover 7 Examples.racing Examples.master Examples.racing_instance
              (RoomSystem.SetRoomPlaying true Examples.room) 8
              eq_refl Hne eq_refl eq_refl Hother Hoc)
    as (left & Hl & _ & Hmaster & _).
  destruct Hmaster as (Hnew & _ & Hnotify).
  - reflexivity.
  - reflexivity.
  - exists 43, (RoomSystem.mkPlayer true RoomSystem.Blue). split; [discriminate|reflexivity].
  - exists left. split; [exact Hl|]. split; [exact Hnew|]. apply Hnotify.
    assert (Hleft : left = set_masterUid 43
                      (set_clients ({[7; 8]} ∖ {[7]})
                         (put_racer 42 (set_state State.Disconnected Examples.racer42)
                            Examples.racing_instance))).
    { vm_compute in Hl. injection Hl as <-. vm_compute. reflexivity. }
    rewrite Hleft. cbn. set_solver.
Defined.


Lemma change_team_witness :
  exists notified,
    HandleChangeTeam 8 (mkChangeTeam 42 TeamColor_Blue) Examples.racing
    = Returned
        (set_rooms
           (<[1 := RoomSystem.set_players
                     (<[42 := RoomSystem.mkPlayer true RoomSystem.Blue]>
                        (RoomSystem._players Examples.room))
                     (RoomSystem.SetRoomPlaying true Examples.room)]>
              (rooms Examples.racing))
           Examples.racing)
        ((8, AcCmdCRChangeTeamOK 42 TeamColor_Blue) :: notified).
Proof.
  assert (Hc : GetClientContext 8 true Examples.racing = inl Examples.guest) by reflexivity.
  destruct (change_team 8 (mkChangeTeam 42 TeamColor_Blue) Examples.racing Examples.guest
              (RoomSystem.SetRoomPlaying true Examples.room)
              (RoomSystem.mkPlayer true RoomSystem.Red) Hc eq_refl eq_refl)
    as (_ & _ & notified & _ & _ & Hall & _).
  exists notified. apply Hall.
  intros uid other Hne Hl. unfold RoomRegistry.GetPlayer in Hl. cbn in Hl, Hne.
  rewrite lookup_insert_ne in Hl by congruence.
  destruct (decide (uid = 43)) as [->|H43]; [vm_compute; eauto|].
  rewrite lookup_insert_ne in Hl by congruence. rewrite lookup_empty in Hl. discriminate.
Defined.

End RaceRoomWitnesses.

(** ** Lobby: the login from frame to reply *)

Section LoginPipeline.

Import Lobby LobbyConnections.

Context {D : Type} `{DataDirector D}.

Variable preventServerJoining : string -> bool.

Implicit Types (s : @State D).

Lemma login_ref_of clientId s login :
  _clientLogins s !! clientId = Some login -> login_ref clientId s = (login, s).
Proof. intros Hl. unfold login_ref. now rewrite Hl. Qed.

Lemma while_settles (pass : @State D -> Flow) fuel s flow :
  pass s = flow -> (forall s', flow <> Continue s') ->
  while pass (S fuel) s = Some flow.
Proof.
  intros Hp Hnc. cbn. rewrite Hp. destruct flow; try reflexivity.
  now destruct (Hnc s0).
Qed.

(** [AcceptLogin] on the way to the login-ok.  The client is authenticated
    in any case.  [SendLoginOK] then reads the user record of the client's
    user name and writes the character uid into the client context, reads
    the records of the character, and at the end turns to the command
    server three times; where a record is missing its exception is
    swallowed and nothing is sent. *)
Lemma AcceptLogin_login_ok clientId s clientContext :
  _clients s !! clientId = Some clientContext ->
  exists accepted d' sent,
    AcceptLogin clientId false s
    = (set_data d' (set_clients (<[clientId := accepted]> (_clients s)) s), sent)
    /\ isAuthenticated accepted = true
    /\ userName accepted = userName clientContext
    /\ (sent = []
        \/ sent = [(clientId, SetCode); (clientId, LobbyCommandLoginOK);
                   (clientId, AcCmdLCSkillCardPresetList)])
    /\ (forall cached character d1,
          GetUserCache (data s) (userName clientContext) = Some cached ->
          GetCharacter (data s) (user_characterUid cached) = Some character ->
          read_character_records character (data s) = (d1, None) ->
          GetHorseCache d1 (mountUid character) = true ->
          sent = [(clientId, SetCode); (clientId, LobbyCommandLoginOK);
                  (clientId, AcCmdLCSkillCardPresetList)]
          /\ accepted
             = set_characterUid (user_characterUid cached)
                 (set_isAuthenticated true clientContext)
          /\ d' = d1)
    /\ (GetUserCache (data s) (userName clientContext) = None ->
        sent = [] /\ accepted = set_isAuthenticated true clientContext /\ d' = data s).
Proof.
  intros Hctx. unfold AcceptLogin, SendLoginOK. rewrite Hctx.
  cbn [_clients set_clients]. rewrite lookup_insert_eq.
  cbn [isAuthenticated set_isAuthenticated negb data set_clients userName].
  destruct (GetUserCache (data s) (userName clientContext)) as [cached|] eqn:Hcache.
  - cbn [_clients set_clients data]. rewrite insert_insert_eq.
    set (written := set_characterUid (user_characterUid cached)
                      (set_isAuthenticated true clientContext)).
    destruct (GetCharacter (data s) (user_characterUid cached)) as [character|] eqn:Hchar.
    + destruct (read_character_records character (data s)) as [d1 thrown] eqn:Hread.
      cbn [data set_data].
      destruct thrown as [what|];
        [|destruct (GetHorseCache d1 (mountUid character)) eqn:Hhorse; cbn [negb]].
      * exists written, d1, []. split; [reflexivity|]. split; [reflexivity|].
        split; [reflexivity|]. split; [now left|]. split; [|discriminate].
        intros cached' character' d2 [= <-] Hchar' Hread'.
        rewrite Hchar in Hchar'. injection Hchar' as <-.
        rewrite Hread in Hread'. discriminate Hread'.
      * exists written, d1, [(clientId, SetCode); (clientId, LobbyCommandLoginOK);
                            (clientId, AcCmdLCSkillCardPresetList)].
        split; [reflexivity|]. split; [reflexivity|]. split; [reflexivity|].
        split; [now right|]. split; [|discriminate].
        intros cached' character' d2 [= <-] Hchar' Hread' _.
        rewrite Hchar in Hchar'. injection Hchar' as <-.
        rewrite Hread in Hread'. injection Hread' as <-. auto.
      * exists written, d1, []. split; [reflexivity|]. split; [reflexivity|].
        split; [reflexivity|]. split; [now left|]. split; [|discriminate].
        intros cached' character' d2 [= <-] Hchar' Hread' Hhorse'.
        rewrite Hchar in Hchar'. injection Hchar' as <-.
        rewrite Hread in Hread'. injection Hread' as <-. congruence.
    + exists written, (data s), []. split; [reflexivity|]. split; [reflexivity|].
      split; [reflexivity|]. split; [now left|]. split; [|discriminate].
      intros cached' character' d2 [= <-] Hchar'. congruence.
  - exists (set_isAuthenticated true clientContext), (data s), [].
    split; [reflexivity|]. split; [reflexivity|]. split; [reflexivity|].
    split; [now left|]. split; [discriminate|]. auto.
Qed.

(** X27: a login is accepted at the response stage.  For the head of the
    response queue whose character has finished loading, with a user name
    that is not in [_userInstances], the response loop ends by [break]:
    the head is popped, the client is authenticated, the user is entered
    into [_userInstances] with its character, and the login entry of the
    client is erased -- whether or not [SendLoginOK] gets through.  When
    the records that [SendLoginOK] reads are there, the character uid of
    the user is written into the client context and the command server is
    given [SetCode], the login-ok and the skill preset list, in this order;
    when the user cache has no record for the user name of the client, the
    exception is swallowed and nothing is sent.  From then on [HandleLogin]
    answers every login frame for that user name with login-cancel
    [Duplicated]. *)
Theorem login_accepted fuel s clientId rest login user clientContext :
  response_head_loaded s clientId rest login user ->
  _userInstances s !! ql_userName login = None ->
  _clients s !! clientId = Some clientContext ->
  exists s' sent accepted,
    while response_pass (S fuel) s = Some (Break s' sent)
    /\ _loginResponseQueue s' = rest
    /\ _clients s' !! clientId = Some accepted
    /\ isAuthenticated accepted = true
    /\ userName accepted = userName clientContext
    /\ _userInstances s' !! ql_userName login
       = Some (mkUserInstance (ql_userName login) (user_characterUid user) 0)
    /\ _clientLogins s' !! clientId = None
    /\ (sent = []
        \/ sent = [(clientId, SetCode); (clientId, LobbyCommandLoginOK);
                   (clientId, AcCmdLCSkillCardPresetList)])
    /\ (forall cached character d',
          GetUserCache (data s) (userName clientContext) = Some cached ->
          GetCharacter (data s) (user_characterUid cached) = Some character ->
          read_character_records character (data s) = (d', None) ->
          GetHorseCache d' (mountUid character) = true ->
          sent = [(clientId, SetCode); (clientId, LobbyCommandLoginOK);
                  (clientId, AcCmdLCSkillCardPresetList)]
          /\ accepted
             = set_characterUid (user_characterUid cached)
                 (set_isAuthenticated true clientContext)
          /\ data s' = d')
    /\ (GetUserCache (data s) (userName clientContext) = None ->
        sent = [] /\ accepted = set_isAuthenticated true clientContext /\ data s' = data s)
    /\ (userName clientContext = ql_userName login ->
        forall NDEBUG other command,
          NDEBUG = true \/ (constant0 command = 50 /\ constant1 command = 281) ->
          loginId command = ql_userName login ->
          loginId command <> ""%string -> authKey command <> ""%string ->
          HandleLogin NDEBUG other command s'
          = Returned s' [(other, AcCmdCLLoginCancel Duplicated)]).
Proof.
  intros (Hq & Hl & Hreq & Hbusy & Huser & Hchar & Hforced & Hloaded & Hconn) Hnew Hctx.
  set (popped := set_charactersForcedIntoCreator
                   (_charactersForcedIntoCreator s ∖ {[user_characterUid user]})
                   (set_loginResponseQueue rest s)).
  destruct (AcceptLogin_login_ok clientId popped clientContext Hctx)
    as (accepted & d' & sent & Haccept & Hauth & Hname & Hsent & Hok & Hmissing).
  cbn [data popped set_charactersForcedIntoCreator set_loginResponseQueue] in Hok, Hmissing.
  eexists _, sent, accepted. split.
  - apply while_settles; [|discriminate].
    unfold response_pass. rewrite Hq, (login_ref_of _ _ _ Hl), Hreq, Hbusy.
    cbn [andb]. rewrite Huser. cbv zeta.
    apply Z.eqb_neq in Hchar. rewrite Hchar. cbn [negb andb orb].
    rewrite bool_decide_eq_false_2 by exact Hforced.
    cbn [data set_charactersForcedIntoCreator set_loginResponseQueue _userInstances].
    rewrite Hloaded. cbn [negb]. rewrite Hnew.
    change (AcceptLogin clientId false _) with (AcceptLogin clientId false popped).
    rewrite Haccept. reflexivity.
  - cbn [_loginResponseQueue _clients _userInstances _clientLogins set_clientLogins
         set_userInstances set_clients set_data data popped
         set_charactersForcedIntoCreator set_loginResponseQueue].
    rewrite !lookup_insert_eq, lookup_delete_eq.
    do 6 (split; [first [reflexivity | assumption]|]).
    split; [exact Hsent|]. split; [exact Hok|]. split; [exact Hmissing|].
    intros Huname NDEBUG other command Hversion Hlogin Hid Hkey.
    unfold HandleLogin.
    replace (negb NDEBUG
             && negb ((constant0 command =? 50) && (constant1 command =? 281))) with false.
    + rewrite (nonempty_eqb _ Hid), (nonempty_eqb _ Hkey). cbn [orb].
      rewrite (is_logged_in_true (loginId command) _ clientId accepted);
        [reflexivity| | |exact Hauth].
      * cbn [_clients set_clientLogins set_userInstances set_clients set_data].
        apply lookup_insert_eq.
      * congruence.
    + symmetry. destruct Hversion as [->|[-> ->]]; [reflexivity|]. cbn. apply andb_false_r.
Qed.

(** X28: a user without a character -- or whose character is marked for
    the character creator -- is sent to the creator.  The client is
    authenticated and gets the create-nickname notification, the mark is
    used up, and [Tick] returns there and then: the request queue and the
    scheduler are not touched in this tick, no user instance is entered
    and the login entry of the client stays. *)
Theorem login_sent_to_character_creator fuel s clientId rest login user clientContext :
  _loginResponseQueue s = clientId :: rest ->
  _clientLogins s !! clientId = Some login ->
  userCharacterLoadRequested login && AreDataBeingLoaded (data s) (ql_userName login) = false ->
  GetUser (data s) (ql_userName login) = Some user ->
  _clients s !! clientId = Some clientContext ->
  user_characterUid user = InvalidUid
  \/ (userCharacterLoadRequested login = true
      /\ user_characterUid user ∈ _charactersForcedIntoCreator s) ->
  Tick preventServerJoining (S fuel) s
  = Some (Ticked
            (set_clients (<[clientId := set_isAuthenticated true clientContext]> (_clients s))
               (set_charactersForcedIntoCreator
                  (_charactersForcedIntoCreator s ∖ {[user_characterUid user]})
                  (set_loginResponseQueue rest s)))
            [(clientId, LobbyCommandCreateNicknameNotify)]).
Proof.
  intros Hq Hl Hbusy Huser Hctx Hcreator.
  assert (Hpass : response_pass s
            = Return
                (set_clients
                   (<[clientId := set_isAuthenticated true clientContext]> (_clients s))
                   (set_charactersForcedIntoCreator
                      (_charactersForcedIntoCreator s ∖ {[user_characterUid user]})
                      (set_loginResponseQueue rest s)))
                [(clientId, LobbyCommandCreateNicknameNotify)]).
  { unfold response_pass. rewrite Hq, (login_ref_of _ _ _ Hl), Hbusy, Huser. cbv zeta.
    destruct Hcreator as [Hnone|[Hreq Hforced]].
    - rewrite Hnone. change (InvalidUid =? InvalidUid) with true. cbn [negb andb orb].
      unfold AcceptLogin. cbn [_clients set_charactersForcedIntoCreator set_loginResponseQueue].
      now rewrite Hctx.
    - rewrite Hreq. cbn [negb]. rewrite andb_false_r.
      cbn [_charactersForcedIntoCreator set_loginResponseQueue].
      rewrite (bool_decide_eq_true_2 _ Hforced), orb_true_r.
      unfold AcceptLogin. cbn [_clients set_charactersForcedIntoCreator set_loginResponseQueue].
      now rewrite Hctx. }
  unfold Tick. now rewrite (while_settles _ fuel s _ Hpass) by discriminate.
Qed.

(** X29: from the login frame to the request queue.  A login frame that
    passes the checks of [HandleLogin] is not answered; it stores the login
    id in the client context and leaves a task for the director.  When the
    scheduler runs that task, a client that has a login entry (it was
    announced by [QueueClientConnect]) is appended to the request queue
    with the login id and the auth key as user name and token; a client
    without a login entry is dropped there: nothing is queued and nothing
    is ever sent. *)
Theorem login_frame_reaches_request_queue NDEBUG s clientId command clientContext :
  NDEBUG = true \/ (constant0 command = 50 /\ constant1 command = 281) ->
  loginId command <> ""%string -> authKey command <> ""%string ->
  is_logged_in (loginId command) (_clients s) = false ->
  _clients s !! clientId = Some clientContext ->
  _scheduler s = [] ->
  let named :=
    set_clients (<[clientId := set_userName (loginId command) clientContext]> (_clients s)) s in
  HandleLogin NDEBUG clientId command s
  = Returned
      (set_scheduler [QueueClientLoginTask clientId (loginId command) (authKey command)] named)
      []
  /\ (forall entry, _clientLogins s !! clientId = Some entry ->
        scheduler_Tick
          (set_scheduler [QueueClientLoginTask clientId (loginId command) (authKey command)]
             named)
        = set_loginRequestQueue (_loginRequestQueue s ++ [clientId])
            (set_clientLogins
               (<[clientId := mkQueuedLogin (loginId command) (authKey command)
                                (userLoadRequested entry) (userCharacterLoadRequested entry)]>
                  (_clientLogins s))
               named))
  /\ (_clientLogins s !! clientId = None ->
      scheduler_Tick
        (set_scheduler [QueueClientLoginTask clientId (loginId command) (authKey command)]
           named)
      = named).
Proof.
  intros Hversion Hid Hkey Hfree Hctx Hsched named. split; [|split].
  - unfold HandleLogin.
    replace (negb NDEBUG
             && negb ((constant0 command =? 50) && (constant1 command =? 281))) with false
      by (symmetry; destruct Hversion as [->|[-> ->]];
          [reflexivity|cbn; apply andb_false_r]).
    rewrite (nonempty_eqb _ Hid), (nonempty_eqb _ Hkey). cbn [orb].
    rewrite Hfree, Hctx. cbn [_scheduler set_clients]. rewrite Hsched. reflexivity.
  - intros entry Hentry. unfold scheduler_Tick. cbn [_scheduler set_scheduler fold_left].
    cbn [run_task]. unfold QueueClientLogin.
    cbn [_clientLogins set_scheduler set_clients named]. rewrite Hentry.
    unfold put_login, set_loginRequestQueue, set_clientLogins, set_scheduler, named, set_clients.
    cbn. now rewrite Hsched.
  - intros Hnone. unfold scheduler_Tick. cbn [_scheduler set_scheduler fold_left].
    cbn [run_task]. unfold QueueClientLogin.
    cbn [_clientLogins set_scheduler set_clients named]. rewrite Hnone.
    unfold set_scheduler, named, set_clients. cbn. now rewrite Hsched.
Qed.

(** X30: lobby clients come and go through the scheduler.
    [HandleClientConnected] gives the client a context (one it has is
    kept) and, on the next tick of the scheduler, a login entry.
    [HandleClientDisconnected] erases the client context at once and sends
    nothing (for a client that is not connected it throws); the task it
    leaves takes the client out of the request queue, the response queue
    and the login entries, keeping the other clients in their order, and
    -- when the client was authenticated -- erases the user instance of its
    user name, so that the user can log in again. *)
Theorem lobby_client_comes_and_goes s clientId :
  (_scheduler s = [] ->
     let s1 := scheduler_Tick (HandleClientConnected clientId s) in
     is_Some (_clients s1 !! clientId)
     /\ is_Some (_clientLogins s1 !! clientId)
     /\ (forall clientContext, _clients s !! clientId = Some clientContext ->
           _clients s1 !! clientId = Some clientContext)
     /\ (forall entry, _clientLogins s !! clientId = Some entry ->
           _clientLogins s1 !! clientId = Some entry)
     /\ _loginRequestQueue s1 = _loginRequestQueue s)
  /\ (_clients s !! clientId = None ->
     HandleClientDisconnected clientId s = Thrown s [] lobby_client_not_available)
  /\ (forall clientContext,
        _clients s !! clientId = Some clientContext ->
        _scheduler s = [] ->
        exists s1,
          HandleClientDisconnected clientId s = Returned s1 []
          /\ _clients s1 = delete clientId (_clients s)
          /\ let s2 := scheduler_Tick s1 in
             _clients s2 = delete clientId (_clients s)
             /\ _clientLogins s2 = delete clientId (_clientLogins s)
             /\ _loginRequestQueue s2
                = List.filter (fun c => negb (c =? clientId)) (_loginRequestQueue s)
             /\ _loginResponseQueue s2
                = List.filter (fun c => negb (c =? clientId)) (_loginResponseQueue s)
             /\ (clientId ∉ _loginRequestQueue s2)
             /\ (clientId ∉ _loginResponseQueue s2)
             /\ _userInstances s2
                = (if isAuthenticated clientContext
                   then delete (userName clientContext) (_userInstances s)
                   else _userInstances s)
             /\ _scheduler s2 = []).
Proof.
  split; [|split].
  - intros Hsched. cbv zeta. unfold HandleClientConnected, scheduler_Tick.
    cbn [_scheduler set_scheduler set_clients]. rewrite Hsched.
    cbn [app fold_left run_task]. unfold QueueClientConnect.
    cbn [_clientLogins _clients _loginRequestQueue set_scheduler set_clients].
    unfold RoomSystem.try_emplace.
    assert (Hclient : forall clients : gmap Z ClientContext,
              clients = match _clients s !! clientId with
                        | Some _ => _clients s
                        | None => <[clientId := ClientContext_default]> (_clients s)
                        end ->
              is_Some (clients !! clientId)
              /\ forall clientContext, _clients s !! clientId = Some clientContext ->
                   clients !! clientId = Some clientContext).
    { intros clients ->. destruct (_clients s !! clientId) as [c0|] eqn:Hctx.
      - rewrite Hctx. split; [eauto|auto].
      - rewrite lookup_insert_eq. split; [eauto|discriminate]. }
    destruct (Hclient _ eq_refl) as [Hc1 Hc2].
    destruct (_clientLogins s !! clientId) as [entry|] eqn:Hentry;
      cbn [_clientLogins _clients _loginRequestQueue set_clientLogins].
    + split; [exact Hc1|]. split; [eauto|]. split; [exact Hc2|].
      split; [|reflexivity]. intros entry0 [= <-]. exact Hentry.
    + rewrite lookup_insert_eq. split; [exact Hc1|]. split; [eauto|]. split; [exact Hc2|].
      split; [discriminate|reflexivity].
  - intros Hnone. unfold HandleClientDisconnected. now rewrite Hnone.
  - intros clientContext Hctx Hsched. unfold HandleClientDisconnected. rewrite Hctx.
    eexists. split; [reflexivity|]. split; [reflexivity|]. cbv zeta.
    unfold scheduler_Tick. cbn [_scheduler set_scheduler set_clients]. rewrite Hsched.
    cbn [app fold_left run_task].
    assert (Hnot : forall l, clientId ∉ List.filter (fun c => negb (c =? clientId)) l).
    { intros l Hin. apply list_elem_of_In in Hin. apply filter_In in Hin as [_ Hneq].
      rewrite Z.eqb_refl in Hneq. discriminate. }
    destruct (isAuthenticated clientContext); cbn; repeat split; auto.
Qed.



End LoginPipeline.

Section LoginPipelineWitnesses.

Import Lobby LobbyConnections.

Lemma example_alice_head :
  response_head_loaded LobbyExamples.alice_at_response 3 []
    (mkQueuedLogin "alice" "T" true true) (mkUser "T" 42).
Proof.
  repeat split; try (vm_compute; reflexivity).
  - vm_compute. discriminate.
  - vm_compute. set_solver.
  - vm_compute. eauto.
Defined.

Lemma login_accepted_witness :
  exists s',
    while response_pass 1 LobbyExamples.alice_at_response
    = Some (Break s' [(3, SetCode); (3, LobbyCommandLoginOK);
                      (3, AcCmdLCSkillCardPresetList)])
    /\ _clients s' !! 3 = Some (mkClientContext true false "alice" 42 0)
    /\ HandleLogin false 4 (mkLogin 50 281 "alice" 0 "T" 0) s'
       = Returned s' [(4, AcCmdCLLoginCancel Duplicated)].
Proof.
  destruct (login_accepted 0 LobbyExamples.alice_at_response 3 [] _ _
              (set_userName "alice" ClientContext_default)
              example_alice_head eq_refl eq_refl)
    as (s' & sent & accepted & Hrun & _ & Hctx & _ & _ & _ & _ & _ & Hok & _ & Hdup).
  destruct (Hok (mkUser "T" 42) (mkCharacter 42 [501] [] 9 0 0 600) Examples.memory
              eq_refl eq_refl eq_refl eq_refl) as (-> & -> & _).
  exists s'. split; [exact Hrun|]. split; [exact Hctx|].
  apply Hdup; [reflexivity | right; split; reflexivity | reflexivity
               | discriminate | discriminate].
Defined.

Lemma login_sent_to_character_creator_witness :
  exists s',
    Tick Examples.nobody_banned 1 LobbyExamples.bob_at_response
    = Some (Ticked s' [(3, LobbyCommandCreateNicknameNotify)]).
Proof.
  eexists.
  apply (login_sent_to_character_creator Examples.nobody_banned 0
           LobbyExamples.bob_at_response 3 [] (mkQueuedLogin "bob" "S" true false)
           (mkUser "S" 0) (set_userName "bob" ClientContext_default));
    try reflexivity.
  left. reflexivity.
Defined.

Lemma login_frame_reaches_request_queue_witness :
  _loginRequestQueue
    (scheduler_Tick
       (match HandleLogin false 3 (mkLogin 50 281 "alice" 0 "T" 0) Examples.lobby with
        | Returned s1 _ => s1
        | _ => Examples.lobby
        end))
  = [3].
Proof.
  destruct (login_frame_reaches_request_queue false Examples.lobby 3
              (mkLogin 50 281 "alice" 0 "T" 0) ClientContext_default)
    as (Hrun & Hqueued & _);
    [right; split; reflexivity | discriminate | discriminate | reflexivity | reflexivity
     | reflexivity |].
  rewrite Hrun. rewrite (Hqueued QueuedLogin_default eq_refl). reflexivity.
Defined.

End LoginPipelineWitnesses.
